(** * Vial25Dash: the toll-road reporting dashboard

    A shallow embedding of the dashboard's session-aware fetch helper
    ([apiFetch]), its route middleware ([onRequest]), the
    [sessionStorage] response caches of the report panels, the fetch
    effects of the panels, the KPI fallback computation of the
    statistical report, the dominant payment method of the booth
    report, the login form's submit handler, the session check and the
    logout of the page layout and the welcome notice, with the
    properties the specification states about them and further
    properties of the code.

    Conventions.  A TypeScript [string] is the [string] of its UTF-8
    bytes; a [number] read from JSON is an integer ([Z], millisecond
    timestamps) in the untyped JSON layer; in the KPIs of the
    statistical report a [number] is an IEEE 754 double
    ([PrimFloat.float]), with its rounding, its infinities and its
    [NaN]; the counts that the booth report adds up and compares are
    rationals ([Q]); [null] and [undefined] are [None] where the code
    does not tell them apart.  Functions of the
    platform the code calls but does not define ([JSON.parse],
    [JSON.stringify], date-fns [format], the build-time environment)
    are the fields of the class [Platform]. *)

From Stdlib Require Import ZArith QArith Lqa String Ascii List Lia.
From Stdlib Require Floats.
From stdpp Require Import base option gmap strings.

Set Warnings "-register-all".
Local Open Scope string_scope.
Local Open Scope list_scope.
Local Open Scope Z_scope.

(** ** Strings as the code uses them *)

Module Js.

(** [s.startsWith(p)] *)
Fixpoint startsWith (s p : string) : bool :=
  match p, s with
  | EmptyString, _ => true
  | String _ _, EmptyString => false
  | String c p', String d s' => if Ascii.eqb c d then startsWith s' p' else false
  end.

(** [s.includes(p)] *)
Fixpoint includes (s p : string) : bool :=
  startsWith s p ||
  match s with
  | EmptyString => false
  | String _ s' => includes s' p
  end.

(** [Boolean(s)] for a string: the empty string is the only falsy one. *)
Definition truthy (s : string) : bool :=
  match s with EmptyString => false | String _ _ => true end.

(** The UTF-8 bytes of a code point. *)
Definition utf8 (cp : N) : string :=
  let byte (n : N) : ascii := ascii_of_N n in
  let tail (n : N) : ascii := byte (128 + n mod 64)%N in
  (if cp <? 128 then String (byte cp) ""
   else if cp <? 2048 then String (byte (192 + cp / 64)) (String (tail cp) "")
   else if cp <? 65536 then
     String (byte (224 + cp / 4096)) (String (tail (cp / 64)) (String (tail cp) ""))
   else
     String (byte (240 + cp / 262144))
       (String (tail (cp / 4096)) (String (tail (cp / 64)) (String (tail cp) ""))))%N.

(** The code points that [trim] removes: ECMAScript's WhiteSpace (TAB,
    VT, FF, ZWNBSP and the space separators of Unicode) and
    LineTerminator (LF, CR, LS, PS). *)
Definition whiteSpace : list N :=
  [0x0009; 0x000B; 0x000C; 0xFEFF;
   0x0020; 0x00A0; 0x1680; 0x2000; 0x2001; 0x2002; 0x2003; 0x2004; 0x2005; 0x2006;
   0x2007; 0x2008; 0x2009; 0x200A; 0x202F; 0x205F; 0x3000;
   0x000A; 0x000D; 0x2028; 0x2029]%N.

(** The bytes are the UTF-8 form of a white space code point. *)
Definition isWhiteSpace (bytes : string) : bool :=
  existsb (fun cp => String.eqb (utf8 cp) bytes) whiteSpace.

(** [s.trimStart()]: a white space code point is one, two or three
    bytes long. *)
Fixpoint trimStart (s : string) : string :=
  match s with
  | EmptyString => EmptyString
  | String a s1 =>
      if isWhiteSpace (String a "") then trimStart s1
      else
        match s1 with
        | EmptyString => s
        | String b s2 =>
            if isWhiteSpace (String a (String b "")) then trimStart s2
            else
              match s2 with
              | EmptyString => s
              | String c s3 =>
                  if isWhiteSpace (String a (String b (String c ""))) then trimStart s3
                  else s
              end
        end
  end.

(** [s.trimEnd()]: a byte is kept when what starts at it is more than
    white space. *)
Fixpoint trimEnd (s : string) : string :=
  match s with
  | EmptyString => EmptyString
  | String c s' => if truthy (trimStart s) then String c (trimEnd s') else EmptyString
  end.

(** [s.trim()] *)
Definition trim (s : string) : string := trimEnd (trimStart s).

(** The text made of the code points. *)
Definition text (cps : list N) : string :=
  fold_right (fun cp s => utf8 cp +:+ s) "" cps.

End Js.

(** ** JSON values *)

Inductive json : Type :=
| JNull
| JBool (b : bool)
| JNum (n : Z)
| JStr (s : string)
| JArr (items : list json)
| JObj (fields : list (string * json)).

(** [v.name]: the property of a parsed JSON value, [None] for
    [undefined] (a missing property, or a value that is not an object). *)
Fixpoint assoc (name : string) (fields : list (string * json)) : option json :=
  match fields with
  | [] => None
  | (k, v) :: rest => if String.eqb k name then Some v else assoc name rest
  end.

Definition prop (v : json) (name : string) : option json :=
  match v with
  | JObj fields => assoc name fields
  | _ => None
  end.

(** [Array.isArray(v)] *)
Definition isArray (v : option json) : bool :=
  match v with Some (JArr _) => true | _ => false end.

(** [v ?? null] *)
Definition orNull (v : option json) : json :=
  match v with Some x => x | None => JNull end.

(** Truthiness of a JSON value or [undefined]. *)
Definition truthy (v : option json) : bool :=
  match v with
  | None | Some JNull => false
  | Some (JBool b) => b
  | Some (JNum n) => negb (n =? 0)%Z
  | Some (JStr s) => Js.truthy s
  | Some (JArr _) | Some (JObj _) => true
  end.

(** ** The platform *)

Class Platform := {
  (** [import.meta.env.PUBLIC_BASE_URL], [None] when it is not set *)
  PUBLIC_BASE_URL : option string;
  (** [JSON.parse], [None] when it throws a [SyntaxError], as it does
      for the empty text *)
  JSON_parse : string -> option json;
  JSON_parse_empty : JSON_parse "" = None;
  (** [JSON.stringify] *)
  JSON_stringify : json -> string;
  (** numeric coercion of a string, an array or an object, [None] for [NaN] *)
  ToNumber_other : json -> option Z;
  (** date-fns [format(d, "yyyy-MM-dd")] of a [Date] given by its epoch milliseconds *)
  format_yyyy_MM_dd : Z -> string;
}.

(** ** Requests, responses and thrown values *)

(** What a [catch] clause can receive: an [Error] instance with its
    [message], or any other thrown value. *)
Inductive exn : Type :=
| JsError (message : string)
| NonError.

(** A settled promise. *)
Inductive settled (A : Type) : Type :=
| Fulfilled (a : A)
| Rejected (e : exn).
Arguments Fulfilled {A} a.
Arguments Rejected {A} e.

Record RequestInit := {
  method : option string;
  headers : list (string * string);
  body : option string;
  credentials : option string;
}.

Record Request := { req_url : string; req_init : RequestInit }.

Record Response := { status : Z; statusText : string; res_body : string }.

(** [response.ok] *)
Definition ok (r : Response) : bool := ((200 <=? status r) && (status r <=? 299))%Z.

(** ** Asynchronous code

    A function body is a tree of the actions it performs on the browser:
    it awaits a [fetch] or a [response.json()], calls a state setter of
    its component, reads the [isMounted] variable of the effect that
    started it, reads the clock or uses [sessionStorage].  [U] is the
    type of the state setter calls of the component. *)

Section Async.
Context {U : Type}.

Inductive action : Type :=
| Fetch (r : Request)              (* await fetch(url, init) *)
| FetchBoth (r1 r2 : Request)      (* await Promise.all([fetch(..), fetch(..)]) *)
| ReadJson (r : Response)          (* await response.json() *)
| ReadJsonBoth (r1 r2 : Response)  (* await Promise.all([r1.json(), r2.json()]) *)
| Yield                            (* await of the promise of an async call *)
| SetState (u : U)                 (* a state setter *)
| IsMounted                        (* the value of isMounted *)
| DateNow                          (* Date.now() *)
| GetItem (k : string)             (* sessionStorage.getItem(k) *)
| SetItem (k v : string)           (* sessionStorage.setItem(k, v) *)
| RemoveItem (k : string).         (* sessionStorage.removeItem(k) *)

Definition result (a : action) : Type :=
  match a with
  | Fetch _ => settled Response
  | FetchBoth _ _ => settled (Response * Response)
  | ReadJson _ => settled json
  | ReadJsonBoth _ _ => settled (json * json)
  | Yield => unit
  | SetState _ => unit
  | IsMounted => bool
  | DateNow => Z
  | GetItem _ => option string
  | SetItem _ _ => settled unit
  | RemoveItem _ => unit
  end.

Inductive Async (A : Type) : Type :=
| Ret (a : A)
| Throw (e : exn)
| Do (a : action) (k : result a -> Async A).
Arguments Ret {A} a.
Arguments Throw {A} e.
Arguments Do {A} a k.

Fixpoint bind {A B} (m : Async A) (f : A -> Async B) : Async B :=
  match m with
  | Ret a => f a
  | Throw e => Throw e
  | Do a k => Do a (fun r => bind (k r) f)
  end.

(** [try { body } catch (err) { handler }] *)
Fixpoint try_catch {A} (body : Async A) (handler : exn -> Async A) : Async A :=
  match body with
  | Ret a => Ret a
  | Throw e => handler e
  | Do a k => Do a (fun r => try_catch (k r) handler)
  end.

(** [try { body } finally { fin }]: [fin] runs on both exits, and what
    it throws replaces the outcome of [body]. *)
Fixpoint try_finally {A} (body : Async A) (fin : Async unit) : Async A :=
  match body with
  | Ret a => bind fin (fun _ => Ret a)
  | Throw e => bind fin (fun _ => Throw e)
  | Do a k => Do a (fun r => try_finally (k r) fin)
  end.

(** An action whose promise is awaited: a rejection is thrown at the
    [await]. *)
Definition settle {A} (r : settled A) : Async A :=
  match r with
  | Fulfilled a => Ret a
  | Rejected e => Throw e
  end.

Definition fetch (url : string) (init : RequestInit) : Async Response :=
  Do (Fetch {| req_url := url; req_init := init |}) settle.
Definition fetchBoth (r1 r2 : Request) : Async (Response * Response) :=
  Do (FetchBoth r1 r2) settle.
Definition response_json (r : Response) : Async json := Do (ReadJson r) settle.
Definition response_jsonBoth (r1 r2 : Response) : Async (json * json) :=
  Do (ReadJsonBoth r1 r2) settle.

(** [await f(..)] for an async function [f]: the body of [f] runs, and
    the caller is suspended once more before it gets the outcome. *)
Definition await_call {A} (call : Async A) : Async A :=
  try_finally call (Do Yield Ret).
Definition set (u : U) : Async unit := Do (SetState u) Ret.
Definition isMounted : Async bool := Do IsMounted Ret.
Definition Date_now : Async Z := Do DateNow Ret.
Definition sessionStorage_getItem (k : string) : Async (option string) := Do (GetItem k) Ret.
Definition sessionStorage_setItem (k v : string) : Async unit := Do (SetItem k v) settle.
Definition sessionStorage_removeItem (k : string) : Async unit := Do (RemoveItem k) Ret.

(** [if (c) { m }] *)
Definition when (c : bool) (m : Async unit) : Async unit :=
  if c then m else Ret tt.

(** *** The browser the code runs in *)

Record World := {
  (** the session storage and the number of characters it may hold *)
  storage : gmap string string;
  quota : nat;
  (** [Date.now()] *)
  clock : Z;
  (** what the network answers to the requests, in the order they are
      issued, each with the milliseconds it takes *)
  network : list (Z * settled Response);
  (** the [isMounted] variable of the running effect *)
  mounted : bool;
  (** [Some n]: React runs the cleanup of the effect while the code is
      suspended at its [n]-th next [await]; [None]: not during this run *)
  cleanup_at : option nat;
}.

(** What a run lets an observer see. *)
Inductive event : Type :=
| EvFetch (r : Request)   (* a request left the browser *)
| EvSet (u : U)           (* a state setter was called *)
| EvCleanup.              (* the cleanup of the effect ran *)

Definition set_storage (s : gmap string string) (w : World) : World :=
  {| storage := s; quota := quota w; clock := clock w; network := network w;
     mounted := mounted w; cleanup_at := cleanup_at w |}.

(** The code is suspended at an [await]: the cleanup runs now if it is
    due. *)
Definition suspend (w : World) : World * list event :=
  match cleanup_at w with
  | None => (w, [])
  | Some O =>
      ({| storage := storage w; quota := quota w; clock := clock w; network := network w;
          mounted := false; cleanup_at := None |}, [EvCleanup])
  | Some (S n) =>
      ({| storage := storage w; quota := quota w; clock := clock w; network := network w;
          mounted := mounted w; cleanup_at := Some n |}, [])
  end.

(** The request leaves; the network's next answer settles it.  A
    network that answers nothing more rejects, as [fetch] does when
    the connection fails. *)
Definition send (r : Request) (w : World) : settled Response * World :=
  match network w with
  | [] => (Rejected (JsError "Failed to fetch"), w)
  | (ms, answer) :: rest =>
      (answer,
       {| storage := storage w; quota := quota w; clock := clock w + ms; network := rest;
          mounted := mounted w; cleanup_at := cleanup_at w |})
  end.

(** [Promise.all] of two promises: fulfilled with both values, or
    rejected with the first rejection. *)
Definition both {A B} (a : settled A) (b : settled B) : settled (A * B) :=
  match a, b with
  | Fulfilled x, Fulfilled y => Fulfilled (x, y)
  | Rejected e, _ => Rejected e
  | _, Rejected e => Rejected e
  end.

(** The characters a storage holds. *)
Definition storage_size (s : gmap string string) : nat :=
  map_fold (fun k v n => (String.length k + String.length v + n)%nat) O s.

Context `{Platform}.

(** [response.json()] *)
Definition parse_body (r : Response) : settled json :=
  match JSON_parse (res_body r) with
  | Some v => Fulfilled v
  | None => Rejected (JsError "Unexpected token in JSON")
  end.

(** One action: its result, the world after it and what it shows. *)
Definition perform (a : action) (w : World) : result a * World * list event :=
  match a return result a * World * list event with
  | Fetch r =>
      let '(x, w) := send r w in
      let '(w, c) := suspend w in
      (x, w, EvFetch r :: c)
  | FetchBoth r1 r2 =>
      let '(x, w) := send r1 w in
      let '(y, w) := send r2 w in
      let '(w, c) := suspend w in
      (both x y, w, EvFetch r1 :: EvFetch r2 :: c)
  | ReadJson r => let '(w, c) := suspend w in (parse_body r, w, c)
  | ReadJsonBoth r1 r2 =>
      let '(w, c) := suspend w in (both (parse_body r1) (parse_body r2), w, c)
  | Yield => let '(w, c) := suspend w in (tt, w, c)
  | SetState u => (tt, w, [EvSet u])
  | IsMounted => (mounted w, w, [])
  | DateNow => (clock w, w, [])
  | GetItem k => (storage w !! k, w, [])
  | SetItem k v =>
      let s := <[k := v]> (storage w) in
      if (storage_size s <=? quota w)%nat
      then (Fulfilled tt, set_storage s w, [])
      else (Rejected (JsError "QuotaExceededError"), w, [])
  | RemoveItem k => (tt, set_storage (delete k (storage w)) w, [])
  end.

(** How a call ends. *)
Inductive outcome (A : Type) : Type :=
| Returned (a : A)
| Threw (e : exn).
Arguments Returned {A} a.
Arguments Threw {A} e.

(** A finished run: how the call ended, the world it leaves and the
    events it caused, oldest first. *)
Record Run (A : Type) := {
  out : outcome A;
  final : World;
  events : list event;
}.
Arguments out {A} r.
Arguments final {A} r.
Arguments events {A} r.

Fixpoint run {A} (m : Async A) (w : World) : Run A :=
  match m with
  | Ret a => {| out := Returned a; final := w; events := [] |}
  | Throw e => {| out := Threw e; final := w; events := [] |}
  | Do a k =>
      let '(r, w', es) := perform a w in
      let rest := run (k r) w' in
      {| out := out rest; final := final rest; events := es ++ events rest |}
  end.

End Async.

Arguments action U : clear implicits.
Arguments Async U A : clear implicits.
Arguments event U : clear implicits.
Arguments Run U A : clear implicits.
Arguments out {U A} r.
Arguments final {U A} r.
Arguments events {U A} r.
Arguments Ret {U A} a.
Arguments Throw {U A} e.
Arguments Do {U A} a k.
Arguments Returned {A} a.
Arguments Threw {A} e.

#[global] Instance Async_ret {U} : MRet (Async U) := fun A a => Ret a.
#[global] Instance Async_bind {U} : MBind (Async U) := fun A B f m => bind m f.

(** The requests among the events of a trace. *)
Fixpoint requests {U} (t : list (event U)) : list Request :=
  match t with
  | [] => []
  | EvFetch r :: t' => r :: requests t'
  | _ :: t' => requests t'
  end.

(** The state setter calls among the events of a trace. *)
Fixpoint updates {U} (t : list (event U)) : list U :=
  match t with
  | [] => []
  | EvSet u :: t' => u :: updates t'
  | _ :: t' => updates t'
  end.

(** *** Code that respects the cleanup of its effect *)

Section Unmounting.
Context {U : Type}.

(** The actions at which the code is suspended. *)
Definition is_await (a : action U) : bool :=
  match a with
  | Fetch _ | FetchBoth _ _ | ReadJson _ | ReadJsonBoth _ _ | Yield => true
  | _ => false
  end.

(** The events that follow the cleanup, if it ran. *)
Fixpoint after_cleanup (t : list (event U)) : list (event U) :=
  match t with
  | [] => []
  | EvCleanup :: t' => t'
  | _ :: t' => after_cleanup t'
  end.

(** [silent m]: where [isMounted] reads [false], [m] calls no state
    setter. *)
Fixpoint silent {A} (m : Async U A) : Prop :=
  match m with
  | Ret _ | Throw _ => True
  | Do a k =>
      match a return (result a -> Async U A) -> Prop with
      | SetState _ => fun _ => False
      | IsMounted => fun k => silent (k false)
      | _ => fun k => ∀ r, silent (k r)
      end k
  end.

(** [guarded m]: what [m] does after each of its suspensions is
    [silent]. *)
Fixpoint guarded {A} (m : Async U A) : Prop :=
  match m with
  | Ret _ | Throw _ => True
  | Do a k => (∀ r, guarded (k r)) ∧ (is_await a = true → ∀ r, silent (k r))
  end.

(** A world whose effect has been cleaned up. *)
Definition unmounted (w : World) : Prop := mounted w = false ∧ cleanup_at w = None.

End Unmounting.

(** ** The session-aware fetch helper ([@/lib/api]) *)

Module Api.
Section Api.
Context {U : Type} `{Platform}.

(** [RequestInit & { skipAuthRefresh?: boolean }] *)
Record ApiFetchOptions := {
  options_init : RequestInit;
  skipAuthRefresh : option bool;
}.

(** The default [options = {}]. *)
Definition no_options : ApiFetchOptions :=
  {| options_init := {| method := None; headers := []; body := None; credentials := None |};
     skipAuthRefresh := None |}.

(** [import.meta.env.PUBLIC_BASE_URL || ""] *)
Definition baseUrl : string :=
  match PUBLIC_BASE_URL with
  | Some s => if Js.truthy s then s else ""
  | None => ""
  end.

Definition buildUrl (pathOrUrl : string) : string :=
  if Js.startsWith pathOrUrl "http://" || Js.startsWith pathOrUrl "https://"
  then pathOrUrl
  else baseUrl +:+ pathOrUrl.

Definition shouldSkipRefresh (url : string) (options : option ApiFetchOptions) : bool :=
  if match options with
     | Some o => match skipAuthRefresh o with Some b => b | None => false end
     | None => false
     end then true
  else if Js.includes url "/auth/login" then true
  else if Js.includes url "/auth/refresh" then true
  else false.

(** [{ credentials: "include", ...options }] *)
Definition with_credentials (options : ApiFetchOptions) : RequestInit :=
  let i := options_init options in
  {| method := method i; headers := headers i; body := body i;
     credentials := match credentials i with Some c => Some c | None => Some "include" end |}.

(** [{ method: "POST", credentials: "include" }] *)
Definition refresh_init : RequestInit :=
  {| method := Some "POST"; headers := []; body := None; credentials := Some "include" |}.

Definition apiFetch (pathOrUrl : string) (options : ApiFetchOptions) : Async U Response :=
  let url := buildUrl pathOrUrl in
  response ← fetch url (with_credentials options);
  if negb (status response =? 401)%Z || shouldSkipRefresh url (Some options)
  then mret response
  else
    let refreshUrl := buildUrl "/auth/refresh" in
    refresh ← fetch refreshUrl refresh_init;
    if negb (ok refresh)
    then mret response
    else fetch url (with_credentials options).

(** The exclusions of a call: the option is set, or the URL names the
    login or the refresh endpoint. *)
Definition excluded (pathOrUrl : string) (options : ApiFetchOptions) : Prop :=
  skipAuthRefresh options = Some true ∨
  Js.includes (buildUrl pathOrUrl) "/auth/login" = true ∨
  Js.includes (buildUrl pathOrUrl) "/auth/refresh" = true.

(** The request [apiFetch] sends first, and again when it replays. *)
Definition original (pathOrUrl : string) (options : ApiFetchOptions) : Request :=
  {| req_url := buildUrl pathOrUrl; req_init := with_credentials options |}.

(** The token-refresh call. *)
Definition refresh_call : Request :=
  {| req_url := buildUrl "/auth/refresh"; req_init := refresh_init |}.

End Api.
End Api.

(** ** [URLSearchParams] *)

Module URLSearchParams.

(** The pairs, in the order they were appended. *)
Definition t : Type := list (string * string).

Definition append (p : t) (name value : string) : t := p ++ [(name, value)].

Definition hexDigit (n : nat) : ascii :=
  ascii_of_nat (if (n <? 10)%nat then 48 + n else 55 + n).

(** The bytes the form-urlencoded serializer leaves as they are:
    letters, digits, [*], [-], [.] and [_]. *)
Definition unreserved (c : ascii) : bool :=
  let n := nat_of_ascii c in
  ((48 <=? n) && (n <=? 57) || (65 <=? n) && (n <=? 90) || (97 <=? n) && (n <=? 122)
   || (n =? 42) || (n =? 45) || (n =? 46) || (n =? 95))%nat.

Fixpoint encode (s : string) : string :=
  match s with
  | EmptyString => EmptyString
  | String c s' =>
      let n := nat_of_ascii c in
      if unreserved c then String c (encode s')
      else if (n =? 32)%nat then String "+" (encode s')
      else String "%" (String (hexDigit (n / 16)) (String (hexDigit (n mod 16)) (encode s')))
  end.

Fixpoint toString (p : t) : string :=
  match p with
  | [] => ""
  | [(k, v)] => encode k +:+ "=" +:+ encode v
  | (k, v) :: rest => encode k +:+ "=" +:+ encode v +:+ "&" +:+ toString rest
  end.

End URLSearchParams.

(** ** The state of a report panel and of its filters *)

(** The state setters of a panel. *)
Inductive PanelUpdate : Type :=
| SetData (rows : json)
| SetAggregates (aggregates : json)
| SetError (message : option string)
| SetLoading (loading : bool).

Record PanelState := {
  st_data : json;
  st_aggregates : json;
  st_error : option string;
  st_loading : bool;
}.

Definition apply_update (s : PanelState) (u : PanelUpdate) : PanelState :=
  match u with
  | SetData d =>
      {| st_data := d; st_aggregates := st_aggregates s; st_error := st_error s;
         st_loading := st_loading s |}
  | SetAggregates a =>
      {| st_data := st_data s; st_aggregates := a; st_error := st_error s;
         st_loading := st_loading s |}
  | SetError e =>
      {| st_data := st_data s; st_aggregates := st_aggregates s; st_error := e;
         st_loading := st_loading s |}
  | SetLoading b =>
      {| st_data := st_data s; st_aggregates := st_aggregates s; st_error := st_error s;
         st_loading := b |}
  end.

(** react-day-picker's [DateRange]; a [Date] is its epoch milliseconds. *)
Record DateRange := { from : option Z; to : option Z }.

(** The filter state variables of the panels.  A panel declares some of
    them and reads no other. *)
Record Filters := {
  dateRange : option DateRange;
  timeRange : string;
  peaje : string;
  turno : string;
}.

(** [err instanceof Error ? err.message : fallback] *)
Definition message_or (fallback : string) (err : exn) : string :=
  match err with
  | JsError m => m
  | NonError => fallback
  end.

(** [String(n)] of an integer. *)
Definition digit (n : Z) : ascii := ascii_of_nat (48 + Z.to_nat n).

(** The decimal digits of [n], most significant first, before [acc];
    [fuel] bounds their number. *)
Fixpoint digits (fuel : nat) (n : Z) (acc : string) : string :=
  match fuel with
  | O => acc
  | S fuel' =>
      let acc' := String (digit (n mod 10)) acc in
      if (n / 10 =? 0)%Z then acc' else digits fuel' (n / 10) acc'
  end.

Definition String_of_Z (n : Z) : string :=
  let m := Z.abs n in
  let s := digits (S (Z.to_nat (Z.log2 m))) m "" in
  if (n <? 0)%Z then String "-" s else s.

Section Dynamic.
Context {U : Type} `{Platform}.

(** [`${BASE_URL}`] in a template: an unset variable reads ["undefined"]. *)
Definition BASE_URL : string :=
  match PUBLIC_BASE_URL with
  | Some s => s
  | None => "undefined"
  end.

(** [v.name] of a value that may be [null]: reading a property of
    [null] throws a [TypeError]. *)
Definition member (v : json) (name : string) : Async U (option json) :=
  match v with
  | JNull => Throw (JsError "Cannot read properties of null")
  | _ => mret (prop v name)
  end.

(** ["name" in v]: a [TypeError] unless [v] is an object or an array. *)
Definition has_property (name : string) (v : json) : Async U bool :=
  match v with
  | JObj fields => mret (bool_decide (is_Some (assoc name fields)))
  | JArr _ => mret false
  | _ => Throw (JsError "Cannot use 'in' operator")
  end.

(** [JSON.parse(s)] *)
Definition parse (s : string) : Async U json :=
  match JSON_parse s with
  | Some v => mret v
  | None => Throw (JsError "Unexpected token in JSON")
  end.

(** The numeric value of a JSON value or [undefined] in arithmetic,
    [None] for [NaN]. *)
Definition ToNumber (v : option json) : option Z :=
  match v with
  | None => None
  | Some JNull => Some 0
  | Some (JBool b) => Some (if b then 1 else 0)
  | Some (JNum n) => Some n
  | Some other => ToNumber_other other
  end.

(** The [desde] and [hasta] parameters of a date range. *)
Definition append_range (params : URLSearchParams.t) (range : option DateRange)
  : URLSearchParams.t :=
  match range with
  | Some {| from := Some f; to := t |} =>
      let desde := format_yyyy_MM_dd f in
      let hasta := match t with Some t => format_yyyy_MM_dd t | None => desde end in
      URLSearchParams.append (URLSearchParams.append params "desde" desde) "hasta" hasta
  | _ => params
  end.

(** [getDateRangeKey] of the statistical and the temporal report. *)
Definition getDateRangeKey (range : option DateRange) : string :=
  match range with
  | Some {| from := Some f; to := t |} =>
      let desde := format_yyyy_MM_dd f in
      let hasta := match t with Some t => format_yyyy_MM_dd t | None => desde end in
      desde +:+ "_" +:+ hasta
  | _ => "sin-fecha"
  end.

(** A [fetch(url)] without options. *)
Definition no_init : RequestInit :=
  {| method := None; headers := []; body := None; credentials := None |}.

End Dynamic.

(** [v ?? fallback] *)
Definition orElse (v : option json) (fallback : json) : json :=
  match v with
  | None | Some JNull => fallback
  | Some x => x
  end.

(** ** The statistical report: cache and fetch effect
    ([ChartEstadistico], endpoint [/r-estadistico]) *)

Module ChartEstadistico.
Section ChartEstadistico.
Context `{Platform}.

Definition ENDPOINT : string := "/r-estadistico".
Definition CACHE_PREFIX : string := "estadistico-cache-".
Definition CACHE_EXPIRY : Z := 30 * 60 * 1000.
Definition includeData : bool := false.

(** [EstadisticoResponse]: the rows and the optional aggregates
    ([None] when the property is absent). *)
Record EstadisticoResponse := { data : json; aggregates : option json }.

Definition getCachedData {U} (key : string) : Async U (option EstadisticoResponse) :=
  try_catch
    (cached ← sessionStorage_getItem (CACHE_PREFIX +:+ key);
     match cached with
     | None => mret None
     | Some cached =>
         if negb (Js.truthy cached) then mret None
         else
           entry ← parse cached;
           data ← member entry "data";
           aggregates ← member entry "aggregates";
           timestamp ← member entry "timestamp";
           now ← Date_now;
           if match ToNumber timestamp with
              | Some t => CACHE_EXPIRY <? now - t
              | None => false
              end
           then sessionStorage_removeItem (CACHE_PREFIX +:+ key);; mret None
           else
             match data with
             | Some (JArr rows) =>
                 mret (Some {| data := JArr rows; aggregates := Some (orNull aggregates) |})
             | _ => mret None
             end
     end)
    (fun _ => mret None).

(** The object [setCachedData] serializes. *)
Definition cache_entry (payload : EstadisticoResponse) (now : Z) : json :=
  JObj [("data", data payload);
        ("aggregates", orNull (aggregates payload));
        ("timestamp", JNum now)].

Definition setCachedData {U} (key : string) (payload : EstadisticoResponse) : Async U unit :=
  try_catch
    (now ← Date_now;
     sessionStorage_setItem (CACHE_PREFIX +:+ key) (JSON_stringify (cache_entry payload now)))
    (fun _ => mret tt).

Definition params (f : Filters) : URLSearchParams.t :=
  let params := append_range [] (dateRange f) in
  let params :=
    if negb (String.eqb (peaje f) "all")
    then URLSearchParams.append params "idPeaje" (peaje f) else params in
  if includeData then URLSearchParams.append params "includeData" "true" else params.

Definition cacheKey (f : Filters) : string :=
  getDateRangeKey (dateRange f) +:+ "-" +:+ peaje f.

Definition url (f : Filters) : string :=
  BASE_URL +:+ ENDPOINT +:+ "?" +:+ URLSearchParams.toString (params f).

(** [Array.isArray(json) ? { data: json, aggregates: null }
     : { data: json.data ?? [], aggregates: json.aggregates ?? null }] *)
Definition payload_of {U} (parsed : json) : Async U EstadisticoResponse :=
  match parsed with
  | JArr _ => mret {| data := parsed; aggregates := Some JNull |}
  | _ =>
      d ← member parsed "data";
      a ← member parsed "aggregates";
      mret {| data := orElse d (JArr []); aggregates := Some (orNull a) |}
  end.

Definition fetchData (f : Filters) : Async PanelUpdate unit :=
  set (SetLoading true);;
  try_finally
    (try_catch
       (cachedData ← getCachedData (cacheKey f);
        match cachedData with
        | Some cachedData =>
            m ← isMounted;
            when m
              (set (SetData (data cachedData));;
               set (SetAggregates (orNull (aggregates cachedData)));;
               set (SetError None);;
               set (SetLoading false))
        | None =>
            response ← fetch (url f) no_init;
            if negb (ok response)
            then Throw (JsError ("Error " +:+ String_of_Z (status response)))
            else
              parsed ← response_json response;
              payload ← payload_of parsed;
              m ← isMounted;
              when m
                (setCachedData (cacheKey f) payload;;
                 set (SetData (data payload));;
                 set (SetAggregates (orNull (aggregates payload)));;
                 set (SetError None))
        end)
       (fun err =>
          m ← isMounted;
          when m (set (SetError (Some (message_or "Error inesperado" err))))))
    (m ← isMounted; when m (set (SetLoading false))).

End ChartEstadistico.
End ChartEstadistico.

(** ** The booth report: cache and fetch effect
    ([ChartCabinas], endpoint [/r-estadistico/analisis-cabinas]) *)

Module ChartCabinas.
Section ChartCabinas.
Context `{Platform}.

Definition ENDPOINT : string := "/r-estadistico/analisis-cabinas".
Definition CACHE_PREFIX : string := "cabinas-cache-".
Definition CACHE_EXPIRY : Z := 30 * 60 * 1000.

(** Returns the cached aggregates, [JNull] for [null]. *)
Definition getCachedData {U} (key : string) : Async U json :=
  try_catch
    (cached ← sessionStorage_getItem (CACHE_PREFIX +:+ key);
     match cached with
     | None => mret JNull
     | Some cached =>
         if negb (Js.truthy cached) then mret JNull
         else
           entry ← parse cached;
           aggregates ← member entry "aggregates";
           timestamp ← member entry "timestamp";
           now ← Date_now;
           if match ToNumber timestamp with
              | Some t => CACHE_EXPIRY <? now - t
              | None => false
              end
           then sessionStorage_removeItem (CACHE_PREFIX +:+ key);; mret JNull
           else mret (orNull aggregates)
     end)
    (fun _ => mret JNull).

Definition cache_entry (aggregates : json) (now : Z) : json :=
  JObj [("aggregates", aggregates); ("timestamp", JNum now)].

Definition setCachedData {U} (key : string) (aggregates : json) : Async U unit :=
  try_catch
    (now ← Date_now;
     sessionStorage_setItem (CACHE_PREFIX +:+ key) (JSON_stringify (cache_entry aggregates now)))
    (fun _ => mret tt).

Definition params (f : Filters) : URLSearchParams.t :=
  let all := String.eqb (peaje f) "all" in
  let params :=
    if String.eqb (timeRange f) "ultimos7d" then
      URLSearchParams.append [] "take" (if all then "10000" else "10000")
    else if String.eqb (timeRange f) "mesActual" then
      URLSearchParams.append (URLSearchParams.append [] "rango" "mesActual")
        "take" (if all then "30000" else "30000")
    else if String.eqb (timeRange f) "ultimoMes" then
      URLSearchParams.append (URLSearchParams.append [] "rango" "ultimoMes")
        "take" (if all then "30000" else "35000")
    else if String.eqb (timeRange f) "ultimos90d" then
      URLSearchParams.append (URLSearchParams.append [] "rango" "ultimos90d")
        "take" (if all then "30000" else "30000")
    else [] in
  if negb all then URLSearchParams.append params "idPeaje" (peaje f) else params.

Definition cacheKey (f : Filters) : string := timeRange f +:+ "-" +:+ peaje f.

Definition url (f : Filters) : string :=
  BASE_URL +:+ ENDPOINT +:+ "?" +:+ URLSearchParams.toString (params f).

Definition fetchData (f : Filters) : Async PanelUpdate unit :=
  set (SetLoading true);;
  try_finally
    (try_catch
       (cachedData ← getCachedData (cacheKey f);
        if truthy (Some cachedData) then
          m ← isMounted;
          when m
            (set (SetAggregates cachedData);;
             set (SetError None);;
             set (SetLoading false))
        else
          response ← fetch (url f) no_init;
          if negb (ok response)
          then Throw (JsError ("Error " +:+ String_of_Z (status response)))
          else
            parsed ← response_json response;
            a ← member parsed "aggregates";
            let aggregatesPayload := orNull a in
            m ← isMounted;
            when m
              (setCachedData (cacheKey f) aggregatesPayload;;
               set (SetAggregates aggregatesPayload);;
               set (SetError None)))
       (fun err =>
          m ← isMounted;
          when m (set (SetError (Some (message_or "Error inesperado" err))))))
    (m ← isMounted; when m (set (SetLoading false))).

End ChartCabinas.
End ChartCabinas.

(** ** The temporal report: cache and fetch effect
    ([ChartTemporal], endpoint [/r-estadistico/analisis-temporal]) *)

Module ChartTemporal.
Section ChartTemporal.
Context `{Platform}.

Definition ENDPOINT : string := "/r-estadistico/analisis-temporal".
Definition CACHE_PREFIX : string := "temporal-cache-".
Definition CACHE_EXPIRY : Z := 30 * 60 * 1000.

Definition getCacheKey (key : string) : string := CACHE_PREFIX +:+ key.

(** Takes the storage key as [getCacheKey] built it. *)
Definition getCachedData {U} (key : string) : Async U json :=
  try_catch
    (cached ← sessionStorage_getItem key;
     match cached with
     | None => mret JNull
     | Some cached =>
         if negb (Js.truthy cached) then mret JNull
         else
           entry ← parse cached;
           aggregates ← member entry "aggregates";
           timestamp ← member entry "timestamp";
           now ← Date_now;
           if match ToNumber timestamp with
              | Some t => CACHE_EXPIRY <? now - t
              | None => false
              end
           then sessionStorage_removeItem key;; mret JNull
           else mret (orNull aggregates)
     end)
    (fun _ => mret JNull).

Definition cache_entry (aggregates : json) (now : Z) : json :=
  JObj [("aggregates", aggregates); ("timestamp", JNum now)].

Definition setCachedData {U} (key : string) (aggregates : json) : Async U unit :=
  try_catch
    (now ← Date_now;
     sessionStorage_setItem key (JSON_stringify (cache_entry aggregates now)))
    (fun _ => mret tt).

Definition params (f : Filters) : URLSearchParams.t :=
  let params := append_range [] (dateRange f) in
  if negb (String.eqb (peaje f) "all")
  then URLSearchParams.append params "idPeaje" (peaje f) else params.

Definition cacheKey (f : Filters) : string :=
  getCacheKey (getDateRangeKey (dateRange f) +:+ "-" +:+ peaje f).

Definition url (f : Filters) : string :=
  BASE_URL +:+ ENDPOINT +:+ "?" +:+ URLSearchParams.toString (params f).

Definition fetchTemporalAggregates {U} (f : Filters) : Async U json :=
  cached ← getCachedData (cacheKey f);
  if truthy (Some cached) then mret cached
  else
    response ← fetch (url f) no_init;
    if negb (ok response)
    then Throw (JsError ("Error al cargar datos: " +:+ statusText response))
    else
      parsed ← response_json response;
      a ← member parsed "aggregates";
      let aggregates := orNull a in
      setCachedData (cacheKey f) aggregates;;
      mret aggregates.

(** [loadData] of the effect. *)
Definition fetchData (f : Filters) : Async PanelUpdate unit :=
  set (SetLoading true);;
  set (SetError None);;
  try_finally
    (try_catch
       (result ← await_call (fetchTemporalAggregates f);
        m ← isMounted;
        when m (set (SetAggregates result)))
       (fun err =>
          m ← isMounted;
          when m (set (SetError (Some (message_or "Error desconocido" err))))))
    (m ← isMounted; when m (set (SetLoading false))).

End ChartTemporal.
End ChartTemporal.

(** ** The panels without a cache *)

Section Uncached.
Context `{Platform}.

(** What every fetch effect does with a thrown value and at its end. *)
Definition report_error (err : exn) : Async PanelUpdate unit :=
  m ← isMounted;
  when m (set (SetError (Some (message_or "Error inesperado" err)))).

Definition stop_loading : Async PanelUpdate unit :=
  m ← isMounted; when m (set (SetLoading false)).

(** [if (!response.ok) throw new Error(`Error ${response.status}`)] *)
Definition check_ok (response : Response) : Async PanelUpdate unit :=
  if negb (ok response)
  then Throw (JsError ("Error " +:+ String_of_Z (status response)))
  else mret tt.

(** ["aggregates" in json ? json.aggregates ?? null : null] *)
Definition aggregates_in (parsed : json) : Async PanelUpdate json :=
  has_property "aggregates" parsed ≫= λ present : bool,
  if present then a ← member parsed "aggregates"; mret (orNull a) else mret JNull.

End Uncached.

(** The invoice table with preset ranges ([TableFacturacion] of
    [table-facturacion.tsx], endpoint [/facturacion]).  Its third
    filter, [turno], is read by [filteredData] only. *)
Module TableFacturacion.
Section TableFacturacion.
Context `{Platform}.

Definition ENDPOINT : string := "/facturacion".

Definition params (f : Filters) : URLSearchParams.t :=
  let params :=
    if String.eqb (timeRange f) "7d" then
      URLSearchParams.append (URLSearchParams.append [] "rango" "ultimos7d") "take" "1000"
    else if String.eqb (timeRange f) "30d" then
      URLSearchParams.append (URLSearchParams.append [] "rango" "ultimoMes") "take" "3000"
    else if String.eqb (timeRange f) "mesActual" then
      URLSearchParams.append (URLSearchParams.append [] "rango" "mesActual") "take" "3000"
    else URLSearchParams.append [] "take" "5000" in
  if negb (String.eqb (peaje f) "all")
  then URLSearchParams.append params "nombrePeaje" (peaje f) else params.

Definition url (f : Filters) : string :=
  BASE_URL +:+ ENDPOINT +:+ "?" +:+ URLSearchParams.toString (params f).

Definition fetchData (f : Filters) : Async PanelUpdate unit :=
  set (SetLoading true);;
  try_finally
    (try_catch
       (response ← fetch (url f) no_init;
        check_ok response;;
        parsed ← response_json response;
        m ← isMounted;
        when m (set (SetData parsed);; set (SetError None)))
       report_error)
    stop_loading.

End TableFacturacion.
End TableFacturacion.

(** The invoice table with a date range ([TableFacturacion] of the
    second document of [chart-radial-stacked.tsx]); it goes through
    [apiFetch]. *)
Module TableFacturacionRango.
Section TableFacturacionRango.
Context `{Platform}.

Definition ENDPOINT : string := "/facturacion".

Definition params (f : Filters) : URLSearchParams.t :=
  let params := append_range [] (dateRange f) in
  if negb (String.eqb (peaje f) "all")
  then URLSearchParams.append params "nombrePeaje" (peaje f) else params.

Definition url (f : Filters) : string :=
  BASE_URL +:+ ENDPOINT +:+ "?" +:+ URLSearchParams.toString (params f).

Definition fetchData (f : Filters) : Async PanelUpdate unit :=
  set (SetLoading true);;
  try_finally
    (try_catch
       (response ← await_call (Api.apiFetch (url f) Api.no_options);
        check_ok response;;
        parsed ← response_json response;
        m ← isMounted;
        when m (set (SetData parsed);; set (SetError None)))
       report_error)
    stop_loading.

End TableFacturacionRango.
End TableFacturacionRango.

(** The tag-sales chart with preset ranges ([ChartRadialStacked] of
    [chart-radial-stacked.tsx], endpoint [/ventas-tag]). *)
Module ChartRadialStacked.
Section ChartRadialStacked.
Context `{Platform}.

Definition ENDPOINT : string := "/ventas-tag".
Definition includeData : bool := false.

Definition params (f : Filters) : URLSearchParams.t :=
  let '(rangoParam, params) :=
    if String.eqb (timeRange f) "7d" then
      ("ultimos7dAnterior", URLSearchParams.append [] "take" "1000")
    else if String.eqb (timeRange f) "30d" then
      ("ultimoMesAnterior", URLSearchParams.append [] "take" "5000")
    else if String.eqb (timeRange f) "90d" then
      ("ultimos90dAnterior", URLSearchParams.append [] "take" "10000")
    else if String.eqb (timeRange f) "mesActual" then
      ("mesActual", URLSearchParams.append [] "take" "5000")
    else ("", []) in
  let params :=
    if includeData then URLSearchParams.append params "includeData" "true" else params in
  URLSearchParams.append params "rango" rangoParam.

Definition url (f : Filters) : string :=
  BASE_URL +:+ ENDPOINT +:+ "?" +:+ URLSearchParams.toString (params f).

Definition fetchData (f : Filters) : Async PanelUpdate unit :=
  set (SetLoading true);;
  try_finally
    (try_catch
       (response ← fetch (url f) no_init;
        check_ok response;;
        parsed ← response_json response;
        aggregatesPayload ← aggregates_in parsed;
        m ← isMounted;
        when m (set (SetAggregates aggregatesPayload);; set (SetError None)))
       report_error)
    stop_loading.

End ChartRadialStacked.
End ChartRadialStacked.

(** The tag-sales chart with a date range ([ChartRadialStacked] of the
    second document of [part_000]); it goes through [apiFetch]. *)
Module ChartRadialStackedRango.
Section ChartRadialStackedRango.
Context `{Platform}.

Definition ENDPOINT : string := "/ventas-tag".
Definition includeData : bool := false.

Definition params (f : Filters) : URLSearchParams.t :=
  let params := append_range [] (dateRange f) in
  if includeData then URLSearchParams.append params "includeData" "true" else params.

Definition url (f : Filters) : string :=
  BASE_URL +:+ ENDPOINT +:+ "?" +:+ URLSearchParams.toString (params f).

Definition fetchData (f : Filters) : Async PanelUpdate unit :=
  set (SetLoading true);;
  try_finally
    (try_catch
       (response ← await_call (Api.apiFetch (url f) Api.no_options);
        check_ok response;;
        parsed ← response_json response;
        aggregatesPayload ← aggregates_in parsed;
        m ← isMounted;
        when m (set (SetAggregates aggregatesPayload);; set (SetError None)))
       report_error)
    stop_loading.

End ChartRadialStackedRango.
End ChartRadialStackedRango.

(** The revenue chart ([ChartAreaInteractive], endpoint [/recaudacion]). *)
Module ChartAreaInteractive.
Section ChartAreaInteractive.
Context `{Platform}.

Definition ENDPOINT : string := "/recaudacion".
Definition includeData : bool := false.

Definition params (f : Filters) : URLSearchParams.t :=
  let '(rangoParam, params) :=
    if String.eqb (timeRange f) "7d" then
      ("ultimos7dAnterior", URLSearchParams.append [] "take" "1000")
    else if String.eqb (timeRange f) "30d" then
      ("ultimoMesAnterior", URLSearchParams.append [] "take" "2000")
    else if String.eqb (timeRange f) "90d" then
      ("ultimos90dAnterior", URLSearchParams.append [] "take" "5000")
    else if String.eqb (timeRange f) "mesActual" then
      ("mesActual", URLSearchParams.append [] "take" "2000")
    else ("", []) in
  let params :=
    if negb (String.eqb (turno f) "all")
    then URLSearchParams.append params "turno" (turno f) else params in
  let params :=
    if includeData then URLSearchParams.append params "includeData" "true" else params in
  URLSearchParams.append params "rango" rangoParam.

Definition url (f : Filters) : string :=
  BASE_URL +:+ ENDPOINT +:+ "?" +:+ URLSearchParams.toString (params f).

Definition fetchData (f : Filters) : Async PanelUpdate unit :=
  set (SetLoading true);;
  try_finally
    (try_catch
       (response ← fetch (url f) no_init;
        check_ok response;;
        parsed ← response_json response;
        aggregatesPayload ← aggregates_in parsed;
        m ← isMounted;
        when m (set (SetAggregates aggregatesPayload);; set (SetError None)))
       report_error)
    stop_loading.

End ChartAreaInteractive.
End ChartAreaInteractive.

(** The traffic chart ([ChartTransito], endpoint [/transitos]): one
    request per toll station, in parallel. *)
Module ChartTransito.
Section ChartTransito.
Context `{Platform}.

(** The rows [applyAggregates] and the sort by date build from the two
    bodies (lines 117-140 of the effect), or what they throw.  No
    property below depends on which rows these are. *)
Context (combine : json -> json -> settled json).

Definition ENDPOINT : string := "/transitos".

Definition baseParams (f : Filters) : URLSearchParams.t :=
  let params :=
    if String.eqb (timeRange f) "7d" then
      URLSearchParams.append (URLSearchParams.append [] "rango" "ultimos7d") "take" "50000"
    else if String.eqb (timeRange f) "30d" then
      URLSearchParams.append (URLSearchParams.append [] "rango" "ultimoMes") "take" "50000"
    else if String.eqb (timeRange f) "mesActual" then
      URLSearchParams.append (URLSearchParams.append [] "rango" "mesActual") "take" "50000"
    else URLSearchParams.append [] "take" "50000" in
  if negb (String.eqb (turno f) "all")
  then URLSearchParams.append params "turno" (turno f) else params.

Definition urlConoma (f : Filters) : string :=
  BASE_URL +:+ ENDPOINT +:+ "?" +:+
  URLSearchParams.toString (URLSearchParams.append (baseParams f) "nombrePeaje" "CONGOMA").

Definition urlLosAngeles (f : Filters) : string :=
  BASE_URL +:+ ENDPOINT +:+ "?" +:+
  URLSearchParams.toString (URLSearchParams.append (baseParams f) "nombrePeaje" "LOS ANGELES").

Definition fetchData (f : Filters) : Async PanelUpdate unit :=
  set (SetLoading true);;
  try_finally
    (try_catch
       ('(responseConoma, responseLosAngeles) ←
          fetchBoth {| req_url := urlConoma f; req_init := no_init |}
                    {| req_url := urlLosAngeles f; req_init := no_init |};
        (if negb (ok responseConoma) || negb (ok responseLosAngeles)
         then Throw (JsError ("Error " +:+
                String_of_Z (if negb (ok responseConoma) then status responseConoma
                             else status responseLosAngeles)))
         else mret tt);;
        '(jsonConoma, jsonLosAngeles) ← response_jsonBoth responseConoma responseLosAngeles;
        m ← isMounted;
        when m
          (result ← settle (combine jsonConoma jsonLosAngeles);
           set (SetData result);;
           set (SetError None)))
       report_error)
    stop_loading.

End ChartTransito.
End ChartTransito.

(** ** Panels as React components

    A panel declares filter state variables, wires each to a control,
    and runs its fetch effect under a dependency array. *)

Inductive Filter : Type := FDateRange | FTimeRange | FPeaje | FTurno.

#[global] Instance DateRange_eq_dec : EqDecision DateRange.
Proof. solve_decision. Defined.

#[global] Instance Filter_eq_dec : EqDecision Filter.
Proof. solve_decision. Defined.

(** The state variable [x] has another value in [new] than in [old]. *)
Definition changed (x : Filter) (old new : Filters) : bool :=
  match x with
  | FDateRange => negb (bool_decide (dateRange old = dateRange new))
  | FTimeRange => negb (String.eqb (timeRange old) (timeRange new))
  | FPeaje => negb (String.eqb (peaje old) (peaje new))
  | FTurno => negb (String.eqb (turno old) (turno new))
  end.

Record Panel := {
  (** the state variables its controls set *)
  controls : list Filter;
  (** the dependency array of its fetch effect *)
  dependencies : list Filter;
  (** the body of the effect, closed over the filters of the render *)
  effect : Filters -> Async PanelUpdate unit;
  (** the GET requests the effect builds from the filters *)
  gets : Filters -> list Request;
  (** the session storage key of the filters, for a panel with a cache *)
  cache_key : option (Filters -> string);
}.

Definition get (url : string) : Request := {| req_url := url; req_init := no_init |}.

Section Panels.
Context `{Platform} (combine : json -> json -> settled json).

Definition chartEstadistico : Panel :=
  {| controls := [FPeaje; FDateRange];
     dependencies := [FDateRange; FPeaje];
     effect := ChartEstadistico.fetchData;
     gets f := [get (ChartEstadistico.url f)];
     cache_key := Some (fun f => ChartEstadistico.CACHE_PREFIX +:+ ChartEstadistico.cacheKey f) |}.

Definition chartCabinas : Panel :=
  {| controls := [FPeaje; FTimeRange];
     dependencies := [FTimeRange; FPeaje];
     effect := ChartCabinas.fetchData;
     gets f := [get (ChartCabinas.url f)];
     cache_key := Some (fun f => ChartCabinas.CACHE_PREFIX +:+ ChartCabinas.cacheKey f) |}.

Definition chartTemporal : Panel :=
  {| controls := [FPeaje; FDateRange];
     dependencies := [FDateRange; FPeaje];
     effect := ChartTemporal.fetchData;
     gets f := [get (ChartTemporal.url f)];
     cache_key := Some ChartTemporal.cacheKey |}.

Definition tableFacturacion : Panel :=
  {| controls := [FTimeRange; FPeaje; FTurno];
     dependencies := [FTimeRange; FPeaje];
     effect := TableFacturacion.fetchData;
     gets f := [get (TableFacturacion.url f)];
     cache_key := None |}.

Definition tableFacturacionRango : Panel :=
  {| controls := [FDateRange; FPeaje; FTurno];
     dependencies := [FDateRange; FPeaje];
     effect := TableFacturacionRango.fetchData;
     gets f := [Api.original (TableFacturacionRango.url f) Api.no_options];
     cache_key := None |}.

Definition chartRadialStacked : Panel :=
  {| controls := [FTimeRange];
     dependencies := [FTimeRange];
     effect := ChartRadialStacked.fetchData;
     gets f := [get (ChartRadialStacked.url f)];
     cache_key := None |}.

Definition chartRadialStackedRango : Panel :=
  {| controls := [FDateRange];
     dependencies := [FDateRange];
     effect := ChartRadialStackedRango.fetchData;
     gets f := [Api.original (ChartRadialStackedRango.url f) Api.no_options];
     cache_key := None |}.

Definition chartAreaInteractive : Panel :=
  {| controls := [FTimeRange; FTurno];
     dependencies := [FTimeRange; FTurno];
     effect := ChartAreaInteractive.fetchData;
     gets f := [get (ChartAreaInteractive.url f)];
     cache_key := None |}.

Definition chartTransito : Panel :=
  {| controls := [FTimeRange; FTurno];
     dependencies := [FTimeRange; FTurno];
     effect := ChartTransito.fetchData combine;
     gets f := [get (ChartTransito.urlConoma f); get (ChartTransito.urlLosAngeles f)];
     cache_key := None |}.

(** The data panels of the dashboard. *)
Definition panels : list Panel :=
  [chartEstadistico; chartCabinas; chartTemporal; tableFacturacion; tableFacturacionRango;
   chartRadialStacked; chartRadialStackedRango; chartAreaInteractive; chartTransito].

(** The effect starts: [let isMounted = true]. *)
Definition start (w : World) : World :=
  {| storage := storage w; quota := quota w; clock := clock w; network := network w;
     mounted := true; cleanup_at := cleanup_at w |}.

(** The render that follows a change of the filters from [old] to
    [new]: React runs the effect again when an entry of its dependency
    array differs from the previous render, and not otherwise. *)
Definition rerender (p : Panel) (old new : Filters) (w : World) : Run PanelUpdate unit :=
  if existsb (fun x => changed x old new) (dependencies p)
  then run (effect p new) (start w)
  else {| out := Returned tt; final := w; events := [] |}.

(** The session storage holds nothing under the key of the filters. *)
Definition no_cached_entry (p : Panel) (f : Filters) (w : World) : Prop :=
  match cache_key p with
  | Some key => storage w !! key f = None
  | None => True
  end.

(** The setters of the loading and the error state, which say nothing
    of the rows or the aggregates. *)
Definition status_only (u : PanelUpdate) : bool :=
  match u with
  | SetLoading _ | SetError _ => true
  | SetData _ | SetAggregates _ => false
  end.

(** What the effect of a panel shows first: status updates, then the
    GET requests built from the filters. *)
Definition fetches_first (p : Panel) (f : Filters) (w : World) : Prop :=
  ∃ pre post,
    events (run (effect p f) (start w)) = map EvSet pre ++ map EvFetch (gets p f) ++ post ∧
    forallb status_only pre = true.

(** The specification's wording: a change of the value of a filter a
    panel owns makes the panel send a request. *)
Definition refetches (p : Panel) (x : Filter) (old new : Filters) (w : World) : Prop :=
  p ∈ panels → x ∈ controls p → changed x old new = true →
  requests (events (rerender p old new w)) ≠ [].

End Panels.

(** ** Answers from the cache *)

Section CacheHits.
Context `{Platform}.

(** The panel is one of the three with a cache and [getCachedData]
    returns, for the key of the filters, what the effect answers from:
    a payload in the statistical report, aggregates that are not
    [null] in the booth and the temporal report. *)
Definition answers_from_cache (p : Panel) (f : Filters) (w : World) : Prop :=
  (p = chartEstadistico ∧
   ∃ payload,
     out (run (U := PanelUpdate)
            (ChartEstadistico.getCachedData (ChartEstadistico.cacheKey f)) w)
     = Returned (Some payload)) ∨
  (p = chartCabinas ∧
   ∃ aggregates,
     out (run (U := PanelUpdate) (ChartCabinas.getCachedData (ChartCabinas.cacheKey f)) w)
     = Returned aggregates ∧ truthy (Some aggregates) = true) ∨
  (p = chartTemporal ∧
   ∃ aggregates,
     out (run (U := PanelUpdate) (ChartTemporal.getCachedData (ChartTemporal.cacheKey f)) w)
     = Returned aggregates ∧ truthy (Some aggregates) = true).

End CacheHits.

(** ** The route middleware ([onRequest]) *)

Module Middleware.

(** What the middleware answers: [next()], or [redirect(location)]. *)
Inductive Answer : Type :=
| Next
| Redirect (location : string).

(** What the middleware reads of the request: the path of its URL and
    its cookies, by name. *)
Record APIContext := {
  pathname : string;
  cookies : gmap string string;
}.

(** [\w]: a letter, a digit or the underscore. *)
Definition isWordChar (c : ascii) : bool :=
  let n := nat_of_ascii c in
  ((48 <=? n) && (n <=? 57) || (65 <=? n) && (n <=? 90) || (97 <=? n) && (n <=? 122)
   || (n =? 95))%nat.

Fixpoint allWordChars (s : string) : bool :=
  match s with
  | EmptyString => true
  | String c s' => isWordChar c && allWordChars s'
  end.

(** [PUBLIC_FILE.test(s)] for [PUBLIC_FILE = /\.[\w]+$/]: some dot of
    [s] is followed by one or more word characters up to the end. *)
Fixpoint PUBLIC_FILE_test (s : string) : bool :=
  match s with
  | EmptyString => false
  | String c s' =>
      (Ascii.eqb c "." && Js.truthy s' && allWordChars s') || PUBLIC_FILE_test s'
  end.

(** [Boolean(cookies.get("access_token")?.value)] *)
Definition isAuthed (ctx : APIContext) : bool :=
  match cookies ctx !! "access_token" with
  | Some value => Js.truthy value
  | None => false
  end.

Definition onRequest (ctx : APIContext) : Answer :=
  if Js.startsWith (pathname ctx) "/login"
     || Js.startsWith (pathname ctx) "/auth"
     || Js.startsWith (pathname ctx) "/_astro"
     || PUBLIC_FILE_test (pathname ctx)
  then Next
  else if negb (isAuthed ctx) then Redirect "/login"
  else Next.

(** The path ends in a file extension: a dot, then one or more
    letters, digits or underscores, then nothing. *)
Definition ends_in_extension (path : string) : Prop :=
  ∃ stem ext : string,
    path = stem +:+ "." +:+ ext ∧ ext ≠ "" ∧ allWordChars ext = true.

(** The paths the middleware leaves alone. *)
Definition public (path : string) : Prop :=
  Js.startsWith path "/login" = true ∨
  Js.startsWith path "/auth" = true ∨
  Js.startsWith path "/_astro" = true ∨
  ends_in_extension path.

End Middleware.

(** ** The login form ([LoginForm]) *)

Module LoginForm.

(** What the submit handler does to the page. *)
Inductive LoginUpdate : Type :=
| PreventDefault
| SetError (message : option string)
| SetSuccess (success : bool)
| SetLoading (loading : bool)
| RedirectAfter (ms : Z) (href : string).   (* setTimeout(() => location.href = href, ms) *)

Record LoginState := {
  error : option string;
  success : bool;
  loading : bool;
}.

Definition apply_update (s : LoginState) (u : LoginUpdate) : LoginState :=
  match u with
  | SetError e => {| error := e; success := success s; loading := loading s |}
  | SetSuccess b => {| error := error s; success := b; loading := loading s |}
  | SetLoading b => {| error := error s; success := success s; loading := b |}
  | PreventDefault | RedirectAfter _ _ => s
  end.

(** What [formData.get(name)] returns. *)
Inductive FormDataEntryValue : Type :=
| FormString (s : string)
| FormFile.

(** [String(v || "")] *)
Definition String_or_empty (v : option FormDataEntryValue) : string :=
  match v with
  | Some (FormString s) => s
  | Some FormFile => "[object File]"
  | None => ""
  end.

Section LoginForm.
Context `{Platform}.

Definition login_options (usuario clave : string) : Api.ApiFetchOptions :=
  {| Api.options_init :=
       {| method := Some "POST";
          headers := [("Content-Type", "application/json")];
          body := Some (JSON_stringify
                          (JObj [("username", JStr usuario); ("password", JStr clave)]));
          credentials := None |};
     Api.skipAuthRefresh := Some true |}.

Definition handleSubmit (formData : gmap string FormDataEntryValue)
  : Async LoginUpdate unit :=
  set PreventDefault;;
  let usuario := Js.trim (String_or_empty (formData !! "usuario")) in
  let clave := Js.trim (String_or_empty (formData !! "clave")) in
  if negb (Js.truthy usuario) || negb (Js.truthy clave)
  then set (SetError (Some "Ingresa usuario y clave para continuar."))
  else
    set (SetError None);;
    set (SetSuccess false);;
    set (SetLoading true);;
    try_finally
      (try_catch
         (response ← await_call (Api.apiFetch "/auth/login" (login_options usuario clave));
          if negb (ok response)
          then
            if (status response =? 401) || (status response =? 400)
            then Throw (JsError "Usuario o clave incorrectos.")
            else Throw (JsError "No se pudo iniciar sesion. Intenta nuevamente.")
          else
            set (SetSuccess true);;
            set (RedirectAfter 700 "/dashboard"))
         (fun err => set (SetError (Some (message_or "Error al iniciar sesion" err)))))
      (set (SetLoading false)).

End LoginForm.

End LoginForm.

(** ** The KPIs of the statistical report ([computedKpis], [kpis])

    The typed layer: rows and aggregates as their TypeScript types
    declare them.  A [number] is an IEEE 754 double, with the
    arithmetic and the comparisons of the processor; [null] is
    [None]. *)

Module ChartEstadisticoKpis.

Import PrimFloat.
Local Open Scope float_scope.

(** A JavaScript [number]. *)
Definition number : Set := float.

(** The fields of [EstadisticoRow] that the KPIs read.  A [VALOR_n]
    may be [null]. *)
Record EstadisticoRow := {
  FORMA_DE_PAGO : string;
  CAT1 : number; CAT2 : number; CAT3 : number; CAT4 : number; CAT5 : number;
  CAT6 : number; CAT7 : number; CAT8 : number; CAT9 : number;
  VALOR_1 : option number; VALOR_2 : option number; VALOR_3 : option number;
  VALOR_4 : option number; VALOR_5 : option number; VALOR_6 : option number;
  VALOR_7 : option number; VALOR_8 : option number; VALOR_9 : option number;
}.

(** The KPI fields of [EstadisticoAggregates]; its chart series are
    not read by [kpis]. *)
Record EstadisticoAggregates := {
  agg_ingresoTotal : number;
  agg_vehiculosEfec : number;
  agg_vehiculosExentos : number;
  agg_vehiculosRfid100 : number;
  agg_porcentajeExentos : number;
}.

Record Kpis := {
  ingresoTotal : number;
  vehiculosEfec : number;
  vehiculosExentos : number;
  vehiculosRfid100 : number;
  porcentajeExentos : number;
}.

(** [v || 0]: [null], [0], [-0] and [NaN] are falsy. *)
Definition orZero (v : option number) : number :=
  match v with
  | Some x => if (x =? 0) || is_nan x then 0 else x
  | None => 0
  end.

(** [rows.reduce((sum, row) => sum + (row.VALOR_1 || 0) + ... + (row.VALOR_9 || 0), 0)] *)
Definition ingreso (rows : list EstadisticoRow) : number :=
  fold_left
    (fun sum row =>
       sum + orZero (VALOR_1 row) + orZero (VALOR_2 row) + orZero (VALOR_3 row)
       + orZero (VALOR_4 row) + orZero (VALOR_5 row) + orZero (VALOR_6 row)
       + orZero (VALOR_7 row) + orZero (VALOR_8 row) + orZero (VALOR_9 row))
    rows 0.

(** [rows.reduce((sum, row) => sum + row.CAT1 + ... + row.CAT9, 0)] *)
Definition vehiculos (rows : list EstadisticoRow) : number :=
  fold_left
    (fun sum row =>
       sum + CAT1 row + CAT2 row + CAT3 row + CAT4 row + CAT5 row + CAT6 row
       + CAT7 row + CAT8 row + CAT9 row)
    rows 0.

Definition efec (data : list EstadisticoRow) : list EstadisticoRow :=
  List.filter (fun row => String.eqb (FORMA_DE_PAGO row) "EFEC.") data.
Definition rfid0 (data : list EstadisticoRow) : list EstadisticoRow :=
  List.filter (fun row => String.eqb (FORMA_DE_PAGO row) "RFID 0 %") data.
Definition rfid50 (data : list EstadisticoRow) : list EstadisticoRow :=
  List.filter (fun row => String.eqb (FORMA_DE_PAGO row) "RFID 50 %") data.
Definition rfid100 (data : list EstadisticoRow) : list EstadisticoRow :=
  List.filter (fun row => String.eqb (FORMA_DE_PAGO row) "RFID 100 %") data.
Definition exentos (data : list EstadisticoRow) : list EstadisticoRow :=
  List.filter
    (fun row => negb (String.eqb (FORMA_DE_PAGO row) "EFEC.")
                && negb (Js.startsWith (FORMA_DE_PAGO row) "RFID")) data.

Definition computedKpis (data : list EstadisticoRow) : Kpis :=
  let ingresoEfec := ingreso (efec data) in
  let ingresoRfid0 := ingreso (rfid0 data) in
  let ingresoRfid50 := ingreso (rfid50 data) in
  let ingresoTotal := ingresoEfec + ingresoRfid0 + ingresoRfid50 in
  let vehiculosEfec := vehiculos (efec data) in
  let vehiculosExentos := vehiculos (exentos data) in
  let vehiculosRfid100 := vehiculos (rfid100 data) in
  let totalVehiculos := vehiculosEfec + vehiculosExentos + vehiculosRfid100 in
  let porcentajeExentos :=
    if 0 <? totalVehiculos
    then (vehiculosExentos + vehiculosRfid100) / totalVehiculos * 100
    else 0 in
  {| ingresoTotal := ingresoTotal;
     vehiculosEfec := vehiculosEfec;
     vehiculosExentos := vehiculosExentos;
     vehiculosRfid100 := vehiculosRfid100;
     porcentajeExentos := porcentajeExentos |}.

(** The KPIs the panel shows: those of the aggregates state when it
    is not [null], the computed ones otherwise. *)
Definition kpis (aggregates : option EstadisticoAggregates) (data : list EstadisticoRow)
  : Kpis :=
  match aggregates with
  | Some aggregates =>
      {| ingresoTotal := agg_ingresoTotal aggregates;
         vehiculosEfec := agg_vehiculosEfec aggregates;
         vehiculosExentos := agg_vehiculosExentos aggregates;
         vehiculosRfid100 := agg_vehiculosRfid100 aggregates;
         porcentajeExentos := agg_porcentajeExentos aggregates |}
  | None => computedKpis data
  end.

(** The rows the report is about: no vehicle count of the row is
    negative or [NaN]. *)
Definition counts_nonnegative (row : EstadisticoRow) : Prop :=
  (0 <=? CAT1 row) = true ∧ (0 <=? CAT2 row) = true ∧ (0 <=? CAT3 row) = true ∧
  (0 <=? CAT4 row) = true ∧ (0 <=? CAT5 row) = true ∧ (0 <=? CAT6 row) = true ∧
  (0 <=? CAT7 row) = true ∧ (0 <=? CAT8 row) = true ∧ (0 <=? CAT9 row) = true.

(** A double that is not negative and not [NaN], by its IEEE 754
    form. *)
Definition not_negative (x : SpecFloat.spec_float) : Prop :=
  match x with
  | SpecFloat.S754_zero _ => True
  | SpecFloat.S754_infinity s | SpecFloat.S754_finite s _ _ => s = false
  | SpecFloat.S754_nan => False
  end.

End ChartEstadisticoKpis.

(** ** A platform to evaluate on

    An executable [Platform]: a printer and a recursive-descent reader
    for the JSON texts of the model's values (integers only; of the
    escapes, those of the quote, the backslash, and the letters n, r
    and t), and the civil calendar in UTC for the date format. *)

Module Browser.

Definition has_code (n : nat) (c : ascii) : bool := (nat_of_ascii c =? n)%nat.
Definition dquote : ascii := ascii_of_nat 34.
Definition backslash : ascii := ascii_of_nat 92.

Fixpoint escape (s : string) : string :=
  match s with
  | EmptyString => EmptyString
  | String c s' =>
      if has_code 34 c then String backslash (String dquote (escape s'))
      else if has_code 92 c then String backslash (String backslash (escape s'))
      else if has_code 10 c then String backslash (String "n" (escape s'))
      else if has_code 13 c then String backslash (String "r" (escape s'))
      else if has_code 9 c then String backslash (String "t" (escape s'))
      else String c (escape s')
  end.

Definition quote (s : string) : string :=
  String dquote (escape s +:+ String dquote "").

Fixpoint join (sep : string) (l : list string) : string :=
  match l with
  | [] => ""
  | [x] => x
  | x :: rest => x +:+ sep +:+ join sep rest
  end.

Fixpoint stringify (v : json) : string :=
  match v with
  | JNull => "null"
  | JBool true => "true"
  | JBool false => "false"
  | JNum n => String_of_Z n
  | JStr s => quote s
  | JArr items => "[" +:+ join "," (map stringify items) +:+ "]"
  | JObj fields =>
      "{" +:+ join "," (map (fun kv => quote (fst kv) +:+ ":" +:+ stringify (snd kv)) fields)
      +:+ "}"
  end.

(** The white space of JSON: TAB, LF, CR and SPACE. *)
Definition isWhiteSpace (c : ascii) : bool :=
  let n := nat_of_ascii c in
  ((n =? 9) || (n =? 10) || (n =? 13) || (n =? 32))%nat.

Fixpoint skip_ws (s : string) : string :=
  match s with
  | String c s' => if isWhiteSpace c then skip_ws s' else s
  | EmptyString => EmptyString
  end.

(** The characters of a string literal after its opening quote, and
    what follows its closing quote. *)
Fixpoint read_chars (s : string) : option (string * string) :=
  match s with
  | EmptyString => None
  | String c s' =>
      if has_code 34 c then Some ("", s')
      else if has_code 92 c then
        match s' with
        | String e s'' =>
            let unescaped :=
              if has_code 110 e then Some (ascii_of_nat 10)
              else if has_code 114 e then Some (ascii_of_nat 13)
              else if has_code 116 e then Some (ascii_of_nat 9)
              else if has_code 34 e || has_code 92 e || has_code 47 e then Some e
              else None in
            match unescaped, read_chars s'' with
            | Some u, Some (str, rest) => Some (String u str, rest)
            | _, _ => None
            end
        | EmptyString => None
        end
      else
        match read_chars s' with
        | Some (str, rest) => Some (String c str, rest)
        | None => None
        end
  end.

Definition isDigit (c : ascii) : bool :=
  let n := nat_of_ascii c in ((48 <=? n) && (n <=? 57))%nat.

Fixpoint read_digits (s : string) (acc : Z) : Z * string :=
  match s with
  | String c s' =>
      if isDigit c then read_digits s' (10 * acc + Z.of_nat (nat_of_ascii c - 48))
      else (acc, s)
  | EmptyString => (acc, s)
  end.

(** An integer literal; a fraction or an exponent after it is refused. *)
Definition read_number (s : string) : option (Z * string) :=
  let '(negative, s) :=
    match s with
    | String "-" s' => (true, s')
    | _ => (false, s)
    end in
  match s with
  | String c _ =>
      if isDigit c then
        let '(n, rest) := read_digits s 0 in
        match rest with
        | String "." _ | String "e" _ | String "E" _ => None
        | _ => Some (if negative then - n else n, rest)
        end
      else None
  | EmptyString => None
  end.

Definition expect (word : string) (v : json) (s : string) : option (json * string) :=
  if Js.startsWith s word
  then Some (v, String.substring (String.length word) (String.length s) s)
  else None.

Fixpoint read_value (fuel : nat) (s : string) : option (json * string) :=
  match fuel with
  | O => None
  | S fuel =>
      let read_items :=
        fix read_items (n : nat) (s : string) : option (list json * string) :=
          match n with
          | O => None
          | S n =>
              match read_value fuel s with
              | Some (v, rest) =>
                  match skip_ws rest with
                  | String "," rest' =>
                      match read_items n (skip_ws rest') with
                      | Some (vs, rest'') => Some (v :: vs, rest'')
                      | None => None
                      end
                  | String "]" rest' => Some ([v], rest')
                  | _ => None
                  end
              | None => None
              end
          end in
      let read_fields :=
        fix read_fields (n : nat) (s : string) : option (list (string * json) * string) :=
          match n with
          | O => None
          | S n =>
              match s with
              | String q s1 =>
                  if negb (has_code 34 q) then None else
                  match read_chars s1 with
                  | Some (k, s2) =>
                      match skip_ws s2 with
                      | String ":" s3 =>
                          match read_value fuel (skip_ws s3) with
                          | Some (v, rest) =>
                              match skip_ws rest with
                              | String "," rest' =>
                                  match read_fields n (skip_ws rest') with
                                  | Some (fs, rest'') => Some ((k, v) :: fs, rest'')
                                  | None => None
                                  end
                              | String "}" rest' => Some ([(k, v)], rest')
                              | _ => None
                              end
                          | None => None
                          end
                      | _ => None
                      end
                  | None => None
                  end
              | _ => None
              end
          end in
      match s with
      | String "n" _ => expect "null" JNull s
      | String "t" _ => expect "true" (JBool true) s
      | String "f" _ => expect "false" (JBool false) s
      | String "[" s' =>
          match skip_ws s' with
          | String "]" rest => Some (JArr [], rest)
          | s'' =>
              match read_items (String.length s) s'' with
              | Some (vs, rest) => Some (JArr vs, rest)
              | None => None
              end
          end
      | String "{" s' =>
          match skip_ws s' with
          | String "}" rest => Some (JObj [], rest)
          | s'' =>
              match read_fields (String.length s) s'' with
              | Some (fs, rest) => Some (JObj fs, rest)
              | None => None
              end
          end
      | String c s' =>
          if has_code 34 c then
            match read_chars s' with
            | Some (str, rest) => Some (JStr str, rest)
            | None => None
            end
          else
            match read_number s with
            | Some (n, rest) => Some (JNum n, rest)
            | None => None
            end
      | EmptyString => None
      end
  end.

Definition parse (s : string) : option json :=
  match read_value (S (String.length s)) (skip_ws s) with
  | Some (v, rest) => if Js.truthy (skip_ws rest) then None else Some v
  | None => None
  end.

(** The number a string stands for in arithmetic: white space is zero,
    an integer literal is itself, anything else is [NaN]. *)
Definition number_of_string (s : string) : option Z :=
  match Js.trim s with
  | EmptyString => Some 0
  | t =>
      match read_number t with
      | Some (n, EmptyString) => Some n
      | _ => None
      end
  end.

Definition number_of_other (v : json) : option Z :=
  match v with
  | JStr s => number_of_string s
  | JArr [] => Some 0
  | JArr [JNum n] => Some n
  | JArr [JStr s] => number_of_string s
  | _ => None
  end.

(** Year, month and day of a day count from 1970-01-01. *)
Definition civil (days : Z) : Z * Z * Z :=
  let z := days + 719468 in
  let era := z / 146097 in
  let doe := z - era * 146097 in
  let yoe := (doe - doe / 1460 + doe / 36524 - doe / 146096) / 365 in
  let doy := doe - (365 * yoe + yoe / 4 - yoe / 100) in
  let mp := (5 * doy + 2) / 153 in
  let d := doy - (153 * mp + 2) / 5 + 1 in
  let m := if mp <? 10 then mp + 3 else mp - 9 in
  let y := yoe + era * 400 + (if m <=? 2 then 1 else 0) in
  (y, m, d).

Definition two (n : Z) : string :=
  if n <? 10 then "0" +:+ String_of_Z n else String_of_Z n.

Definition yyyy_MM_dd (ms : Z) : string :=
  let '(y, m, d) := civil (ms / 86400000) in
  String_of_Z y +:+ "-" +:+ two m +:+ "-" +:+ two d.

Definition platform (base : option string) : Platform :=
  {| PUBLIC_BASE_URL := base;
     JSON_parse := parse;
     JSON_parse_empty := eq_refl;
     JSON_stringify := stringify;
     ToNumber_other := number_of_other;
     format_yyyy_MM_dd := yyyy_MM_dd |}.

End Browser.

(** ** Sample inputs *)

Module Samples.

Definition browser : Platform := Browser.platform (Some "https://peajes.example").
#[local] Existing Instance browser.

Definition respond (code : Z) (text : string) : Response :=
  {| status := code; statusText := ""; res_body := text |}.

(** A quiet browser: empty session storage, no answer pending. *)
Definition idle : World :=
  {| storage := ∅; quota := 4096; clock := 1700000000000; network := [];
     mounted := true; cleanup_at := None |}.

Definition with_network (answers : list (Z * settled Response)) (w : World) : World :=
  {| storage := storage w; quota := quota w; clock := clock w; network := answers;
     mounted := mounted w; cleanup_at := cleanup_at w |}.

Definition with_storage (s : gmap string string) (w : World) : World :=
  {| storage := s; quota := quota w; clock := clock w; network := network w;
     mounted := mounted w; cleanup_at := cleanup_at w |}.

Definition at_time (now : Z) (w : World) : World :=
  {| storage := storage w; quota := quota w; clock := now; network := network w;
     mounted := mounted w; cleanup_at := cleanup_at w |}.

Definition unmounting_at (n : nat) (w : World) : World :=
  {| storage := storage w; quota := quota w; clock := clock w; network := network w;
     mounted := mounted w; cleanup_at := Some n |}.

(** The session has expired: a 401, a successful refresh, then the data. *)
Definition expired_session : World :=
  with_network [(40, Fulfilled (respond 401 ""));
                (25, Fulfilled (respond 204 ""));
                (60, Fulfilled (respond 200 "[]"))] idle.

(** The login endpoint answers 401. *)
Definition login_refused : World :=
  with_network [(40, Fulfilled (respond 401 ""))] idle.

Definition login_call : Api.ApiFetchOptions :=
  LoginForm.login_options "ana" "secreta".

(** A cache entry written at 1 700 000 000 000. *)
Definition entry_fields : list (string * json) :=
  [("data", JArr [JObj [("CABINA", JNum 3)]]);
   ("aggregates", JObj [("ingresoTotal", JNum 120)]);
   ("timestamp", JNum 1700000000000)].

Definition entry_text : string := Browser.stringify (JObj entry_fields).

(** The entry under the same key in the three caches, read 31 minutes
    after it was written. *)
Definition cached_world : World :=
  at_time (1700000000000 + 31 * 60 * 1000)
    (with_storage
       (<["estadistico-cache-2024-01-01_2024-01-07-all" := entry_text]>
          (<["cabinas-cache-2024-01-01_2024-01-07-all" := entry_text]>
             (<["temporal-cache-2024-01-01_2024-01-07-all" := entry_text]> ∅)))
       idle).

Definition payload : ChartEstadistico.EstadisticoResponse :=
  {| ChartEstadistico.data := JArr [JObj [("CABINA", JNum 3)]];
     ChartEstadistico.aggregates := None |}.

(** Twenty minutes after [payload] was stored from [idle]. *)
Definition twenty_minutes_later : World :=
  at_time (1700000000000 + 20 * 60 * 1000)
    (final (run (U := PanelUpdate)
              (ChartEstadistico.setCachedData "2024-01-01_2024-01-07-all" payload) idle)).

Definition filters : Filters :=
  {| dateRange := None; timeRange := "7d"; peaje := "all"; turno := "all" |}.

Definition other_shift : Filters :=
  {| dateRange := None; timeRange := "7d"; peaje := "all"; turno := "2" |}.

Definition other_station : Filters :=
  {| dateRange := None; timeRange := "7d"; peaje := "CONGOMA"; turno := "all" |}.

(** A stand-in for the row combination of the traffic chart. *)
Definition combine (a b : json) : settled json := Fulfilled (JArr [a; b]).

(** The invoices arrive after the table was unmounted. *)
Definition late_answer : World :=
  unmounting_at 0 (with_network [(900, Fulfilled (respond 200 "[]"))] idle).

(** The booth report has cached the aggregates of [other_station] a
    minute ago. *)
Definition cabinas_cached : World :=
  at_time (1700000000000 + 60 * 1000)
    (with_storage
       (<["cabinas-cache-7d-CONGOMA" :=
            Browser.stringify
              (ChartCabinas.cache_entry (JObj [("totalTransitos", JNum 42)]) 1700000000000)]> ∅)
       idle).

Definition blank_form : gmap string LoginForm.FormDataEntryValue :=
  <["usuario" := LoginForm.FormString "   "]>
    (<["clave" := LoginForm.FormString "secreta"]> ∅).

(** A user name of a no-break space, a byte order mark and a line
    separator. *)
Definition no_break_form : gmap string LoginForm.FormDataEntryValue :=
  <["usuario" := LoginForm.FormString (Js.text [0xA0; 0xFEFF; 0x2028]%N)]>
    (<["clave" := LoginForm.FormString "secreta"]> ∅).

End Samples.

(** ** Runs in sequence *)

Section Sequencing.
Context {U : Type}.

(** The run [r], after the events [es] that came before it. *)
Definition after_events {A} (es : list (event U)) (r : Run U A) : Run U A :=
  {| out := out r; final := final r; events := es ++ events r |}.

(** The state of a panel after a list of events. *)
Definition state_after (es : list (event PanelUpdate)) (s : PanelState) : PanelState :=
  fold_left apply_update (updates es) s.

End Sequencing.

(** ** Groups of panels *)

Section PanelGroups.
Context `{Platform}.

(** The panels that send one request with [fetch] and report a
    response that is not [ok] as [Error <status>]. *)
Definition direct_panels : list Panel :=
  [chartEstadistico; chartCabinas; tableFacturacion; chartRadialStacked;
   chartAreaInteractive].

(** The panels whose state is the aggregates of the response alone. *)
Definition aggregate_panels : list Panel := [chartRadialStacked; chartAreaInteractive].

End PanelGroups.


(** ** The page layout: session check and logout ([SidebarLayout]) *)

Module SidebarLayout.

(** What the layout does to the page. *)
Inductive LayoutUpdate : Type :=
| SetValidating (validating : bool)
| Navigate (href : string).   (* window.location.href = href *)

Section SidebarLayout.
Context `{Platform}.

(** The [try] block returns from the function when the session is
    valid: its value here is whether it did. *)
Definition ensureSession : Async LayoutUpdate unit :=
  returned ←
    try_catch
      (me ← await_call (Api.apiFetch "/auth/me" Api.no_options);
       if ok me then set (SetValidating false);; mret true else mret false)
      (fun _ => mret false);
  if returned : bool then mret tt
  else set (SetValidating false);; set (Navigate "/login").

(** [{ method: "POST", skipAuthRefresh: true }] *)
Definition logout_options : Api.ApiFetchOptions :=
  {| Api.options_init :=
       {| method := Some "POST"; headers := []; body := None; credentials := None |};
     Api.skipAuthRefresh := Some true |}.

Definition handleLogout : Async LayoutUpdate unit :=
  try_finally
    (await_call (Api.apiFetch "/auth/logout" logout_options);; mret tt)
    (set (Navigate "/login")).

End SidebarLayout.
End SidebarLayout.

(** ** The welcome notice ([DashboardWelcome]) *)

Module DashboardWelcome.

Inductive WelcomeUpdate : Type :=
| SetNombre (nombre : json)     (* [JNull] for [null] *)
| SetLoaded (loaded : bool).

(** [a || b] *)
Definition or (a b : option json) : option json := if truthy a then a else b.

(** [v?.name] *)
Definition optional (v : option json) (name : string) : option json :=
  match v with
  | None | Some JNull => None
  | Some x => prop x name
  end.

(** [payload.user?.nombre || payload.user?.usuario || payload.nombre
     || payload.usuario || null], given [payload.user] *)
Definition displayName (payload : json) (user : option json) : json :=
  orNull (or (or (or (or (optional user "nombre") (optional user "usuario"))
                     (prop payload "nombre"))
                 (prop payload "usuario"))
             (Some JNull)).

(** The first of the candidates that is truthy, [null] without one. *)
Fixpoint first_truthy (candidates : list (option json)) : json :=
  match candidates with
  | [] => JNull
  | c :: rest => if truthy c then orNull c else first_truthy rest
  end.

Section DashboardWelcome.
Context `{Platform}.

Definition loadUser : Async WelcomeUpdate unit :=
  try_catch
    (response ← await_call (Api.apiFetch "/auth/me" Api.no_options);
     if negb (ok response) then set (SetLoaded true)
     else
       payload ← response_json response;
       user ← member payload "user";
       set (SetNombre (displayName payload user));;
       set (SetLoaded true))
    (fun _ => set (SetLoaded true)).

End DashboardWelcome.

(** The effect under [loaded, nombre]: the notice it shows, if it
    shows one, and [hasShownRef.current] after it. *)
Definition welcome (loaded : bool) (nombre : json) (hasShown : bool) : option json * bool :=
  if negb loaded || hasShown then (None, hasShown)
  else (Some (orElse (Some nombre) (JStr "Usuario")), true).

(** The descriptions of the notices shown over the renders of the
    component, each given by the [loaded] and [nombre] it renders
    with. *)
Fixpoint notices (renders : list (bool * json)) (hasShown : bool) : list json :=
  match renders with
  | [] => []
  | (loaded, nombre) :: rest =>
      let '(shown, hasShown') := welcome loaded nombre hasShown in
      match shown with
      | Some description => description :: notices rest hasShown'
      | None => notices rest hasShown'
      end
  end.

End DashboardWelcome.

(** ** Calls that set no state *)

Section Quiet.
Context {U : Type}.

(** [quiet m]: [m] calls no state setter. *)
Fixpoint quiet {A} (m : Async U A) : Prop :=
  match m with
  | Ret _ | Throw _ => True
  | Do a k =>
      match a with SetState _ => False | _ => True end ∧ ∀ r, quiet (k r)
  end.

End Quiet.

(** ** The dominant payment method of the booth report ([metodoDominante])

    The typed layer: the rows of [pagoPorCabina] as [CabinasAggregates]
    declares them, a payment method being one of its three literals.
    The counts are rationals: the function adds them up and compares
    the sums.  The [porcentaje] of the result, a quotient of doubles,
    is left out. *)

Module ChartCabinasKpis.

Local Open Scope Q_scope.

Inductive Metodo : Type := EFEC | RFID | EXENTO.

(** A row of [pagoPorCabina]. *)
Record PagoCabina := {
  pago_cabina : Q;
  metodo : Metodo;
  cantidad : Q;
}.

(** The field of [CabinasAggregates] that [metodoDominante] reads. *)
Record CabinasAggregates := {
  pagoPorCabina : list PagoCabina;
}.

(** [{ EFEC, RFID, EXENTO }] *)
Record Totales := { t_EFEC : Q; t_RFID : Q; t_EXENTO : Q }.

(** [acc[row.metodo] += row.cantidad] *)
Definition sumar (acc : Totales) (row : PagoCabina) : Totales :=
  match metodo row with
  | EFEC => {| t_EFEC := t_EFEC acc + cantidad row; t_RFID := t_RFID acc;
               t_EXENTO := t_EXENTO acc |}
  | RFID => {| t_EFEC := t_EFEC acc; t_RFID := t_RFID acc + cantidad row;
               t_EXENTO := t_EXENTO acc |}
  | EXENTO => {| t_EFEC := t_EFEC acc; t_RFID := t_RFID acc;
                 t_EXENTO := t_EXENTO acc + cantidad row |}
  end.

Definition totales (rows : list PagoCabina) : Totales :=
  fold_left sumar rows {| t_EFEC := 0; t_RFID := 0; t_EXENTO := 0 |}.

(** [Object.entries(totales)], in the order of the literal. *)
Definition entries (t : Totales) : list (Metodo * Q) :=
  [(EFEC, t_EFEC t); (RFID, t_RFID t); (EXENTO, t_EXENTO t)].

(** [cantidad > max.cantidad ? { metodo, cantidad } : max] *)
Definition mayor (max entry : Metodo * Q) : Metodo * Q :=
  if Qlt_le_dec (snd max) (snd entry) then entry else max.

(** [maxMetodo], the [metodo] and the [cantidad] of the result. *)
Record Dominante := {
  dom_metodo : Metodo;
  dom_cantidad : Q;
}.

Definition metodoDominante (aggregates : option CabinasAggregates) : option Dominante :=
  match aggregates with
  | None => None
  | Some aggregates =>
      let totales := totales (pagoPorCabina aggregates) in
      let maxMetodo := fold_left mayor (entries totales) (EFEC, 0) in
      Some {| dom_metodo := fst maxMetodo; dom_cantidad := snd maxMetodo |}
  end.

(** The total of a method. *)
Definition total_of (m : Metodo) (t : Totales) : Q :=
  match m with EFEC => t_EFEC t | RFID => t_RFID t | EXENTO => t_EXENTO t end.

End ChartCabinasKpis.

(** ** More inputs to evaluate on *)

Module MoreSamples.

Import Samples PrimFloat.
#[local] Existing Instance browser.

(** The server answers 500. *)
Definition server_error : World :=
  with_network [(30, Fulfilled (respond 500 ""))] idle.

(** The connection fails. *)
Definition connection_reset : World :=
  with_network [(30, Rejected (JsError "net::ERR_CONNECTION_RESET"))] idle.

Definition answering (body : json) : World :=
  with_network [(50, Fulfilled (respond 200 (Browser.stringify body)))] idle.

Definition invoices : json := JArr [JObj [("TOTAL", JNum 5)]; JObj [("TOTAL", JNum 7)]].

Definition with_aggregates : json :=
  JObj [("aggregates", JObj [("totalTransitos", JNum 42)])].

Definition statistics : json :=
  JObj [("data", JArr [JObj [("CABINA", JNum 3)]]);
        ("aggregates", JObj [("ingresoTotal", JNum 120)])].

(** Ten minutes after the statistical report was answered from
    [answering statistics]. *)
Definition ten_minutes_later : World :=
  at_time (1700000000000 + 10 * 60 * 1000)
    (final (run (effect chartEstadistico filters) (start (answering statistics)))).

(** The booth report has cached [null] for [filters] a minute ago. *)
Definition cabinas_cached_null : World :=
  at_time (1700000000000 + 60 * 1000)
    (with_storage
       (<["cabinas-cache-7d-all" :=
            Browser.stringify (ChartCabinas.cache_entry JNull 1700000000000)]> ∅)
       (answering with_aggregates)).

(** Five minutes after aggregates were cached from [idle]. *)
Definition five_minutes_later : World :=
  at_time (1700000000000 + 5 * 60 * 1000)
    (final (run (U := PanelUpdate)
              (ChartCabinas.setCachedData "7d-all" (JObj [("totalTransitos", JNum 42)]))
              idle)).

(** The session has expired and the refresh call fails. *)
Definition refresh_unreachable : World :=
  with_network [(40, Fulfilled (respond 401 ""));
                (25, Rejected (JsError "net::ERR_CONNECTION_RESET"))] idle.

Definition filled_form : gmap string LoginForm.FormDataEntryValue :=
  <["usuario" := LoginForm.FormString " ana "]>
    (<["clave" := LoginForm.FormString "secreta"]> ∅).

Definition login_accepted : World :=
  with_network [(40, Fulfilled (respond 200 ""))] idle.

Definition fresh_form : LoginForm.LoginState :=
  {| LoginForm.error := Some "Usuario o clave incorrectos."; LoginForm.success := false;
     LoginForm.loading := false |}.

(** The user record names the login and leaves the name empty. *)
Definition me : json :=
  JObj [("user", JObj [("nombre", JStr ""); ("usuario", JStr "ana")]);
        ("nombre", JStr "Ana Paredes")].

Definition row (kind : string) (count : float) (amount : option float)
  : ChartEstadisticoKpis.EstadisticoRow :=
  {| ChartEstadisticoKpis.FORMA_DE_PAGO := kind;
     ChartEstadisticoKpis.CAT1 := count; ChartEstadisticoKpis.CAT2 := 0;
     ChartEstadisticoKpis.CAT3 := 0; ChartEstadisticoKpis.CAT4 := 0;
     ChartEstadisticoKpis.CAT5 := 0; ChartEstadisticoKpis.CAT6 := 0;
     ChartEstadisticoKpis.CAT7 := 0; ChartEstadisticoKpis.CAT8 := 0;
     ChartEstadisticoKpis.CAT9 := 0;
     ChartEstadisticoKpis.VALOR_1 := amount; ChartEstadisticoKpis.VALOR_2 := None;
     ChartEstadisticoKpis.VALOR_3 := None; ChartEstadisticoKpis.VALOR_4 := None;
     ChartEstadisticoKpis.VALOR_5 := None; ChartEstadisticoKpis.VALOR_6 := None;
     ChartEstadisticoKpis.VALOR_7 := None; ChartEstadisticoKpis.VALOR_8 := None;
     ChartEstadisticoKpis.VALOR_9 := None |}%float.

(** Six cash vehicles, one exempt and one with the full discount. *)
Definition day_rows : list ChartEstadisticoKpis.EstadisticoRow :=
  [row "EFEC." 6 (Some 9.5); row "EXONERADO" 1 None; row "RFID 100 %" 1 (Some 2)]%float.

(** Counts whose sum is beyond the largest double. *)
Definition overflowing_rows : list ChartEstadisticoKpis.EstadisticoRow :=
  [row "EXONERADO" 1e308 None; row "RFID 100 %" 1e308 None]%float.

(** One station answers, the other one fails with 503. *)
Definition one_station_down : World :=
  with_network [(30, Fulfilled (respond 200 "{}")); (35, Fulfilled (respond 503 ""))] idle.

Definition unavailable : World :=
  with_network
    [(30, Fulfilled {| status := 503; statusText := "Service Unavailable"; res_body := "" |})]
    idle.

End MoreSamples.

(** * Properties *)

(** ** The session-aware fetch helper *)

Section ApiFacts.
Context {U : Type} `{Platform}.
Implicit Types (w : World) (options : Api.ApiFetchOptions).

#[local] Abbreviation original := Api.original.
#[local] Abbreviation refresh_call := Api.refresh_call.

#[local] Abbreviation excluded := Api.excluded.

Lemma shouldSkipRefresh_excluded pathOrUrl options :
  Api.shouldSkipRefresh (Api.buildUrl pathOrUrl) (Some options) = true ↔
  excluded pathOrUrl options.
Proof.
  unfold Api.shouldSkipRefresh, Api.excluded.
  destruct (Api.skipAuthRefresh options) as [[|]|];
    destruct (Js.includes _ "/auth/login"), (Js.includes _ "/auth/refresh");
    intuition congruence.
Qed.

Lemma requests_app (t1 t2 : list (event U)) :
  requests (t1 ++ t2) = requests t1 ++ requests t2.
Proof.
  induction t1 as [|e t1 IH]; simpl; [done|].
  destruct e; simpl; by rewrite ?IH.
Qed.

Lemma requests_suspend w : requests (U := U) (suspend w).2 = [].
Proof. unfold suspend. by destruct (cleanup_at w) as [[|n]|]. Qed.

Lemma network_suspend w : network (suspend (U := U) w).1 = network w.
Proof. unfold suspend. by destruct (cleanup_at w) as [[|n]|]. Qed.

(** One awaited [fetch], step by step. *)
Lemma run_fetch {A} url init (k : Response → Async U A) w :
  run (fetch url init ≫= k) w =
  let r := {| req_url := url; req_init := init |} in
  let '(x, w1) := send r w in
  let '(w2, c) := suspend w1 in
  match x with
  | Fulfilled a =>
      let rest := run (k a) w2 in
      {| out := out rest; final := final rest; events := (EvFetch r :: c) ++ events rest |}
  | Rejected e => {| out := Threw e; final := w2; events := (EvFetch r :: c) ++ [] |}
  end.
Proof.
  unfold mbind, Async_bind, fetch. simpl.
  destruct (send _ w) as [x w1]. destruct (suspend w1) as [w2 c].
  by destruct x.
Qed.

Lemma run_fetch_last url init w :
  run (U := U) (fetch url init) w =
  let r := {| req_url := url; req_init := init |} in
  let '(x, w1) := send r w in
  let '(w2, c) := suspend w1 in
  {| out := match x with Fulfilled a => Returned a | Rejected e => Threw e end;
     final := w2; events := (EvFetch r :: c) ++ [] |}.
Proof.
  unfold fetch. simpl.
  destruct (send _ w) as [x w1]. destruct (suspend w1) as [w2 c].
  by destruct x.
Qed.

Lemma send_network (r : Request) w :
  send r w =
  match network w with
  | [] => (Rejected (JsError "Failed to fetch"), w)
  | (ms, answer) :: rest =>
      (answer,
       {| storage := storage w; quota := quota w; clock := clock w + ms; network := rest;
          mounted := mounted w; cleanup_at := cleanup_at w |})
  end.
Proof. reflexivity. Qed.

(** After an awaited [fetch] the world has the rest of the network's
    answers, and the cleanup that may have run sent nothing. *)
Ltac fetch_suspended U w c :=
  let Hs := fresh "Hs" in
  let Hr := fresh "Hr" in
  let Hw := fresh "Hw" in
  match goal with
  | |- context [suspend ?x] =>
      pose proof (requests_suspend x) as Hr;
      pose proof (network_suspend x) as Hw;
      destruct (suspend (U := U) x) as [w c] eqn:Hs;
      simpl in Hr, Hw
  end.

Ltac await_fetch U w c :=
  first [rewrite run_fetch | rewrite run_fetch_last]; cbv zeta; rewrite send_network;
  repeat match goal with
    | Hn : network ?x = _ |- context [network ?x] => rewrite Hn
    end;
  try fetch_suspended U w c.

(** Collects the requests of a list of events in which the events of
    the suspensions are known to hold none. *)
Ltac collect_requests :=
  repeat (rewrite ?requests_app, ?app_nil_r; simpl;
          repeat match goal with
            | Hr : requests ?c = [] |- context [requests ?c] => rewrite Hr
            end; simpl).

(** The first response is not a 401, or an exclusion applies: it is
    returned and nothing else is sent. *)
Lemma apiFetch_first_response pathOrUrl options w ms first rest :
  network w = (ms, Fulfilled first) :: rest →
  status first ≠ 401 ∨ excluded pathOrUrl options →
  let r := run (Api.apiFetch (U := U) pathOrUrl options) w in
  out r = Returned first ∧ requests (events r) = [original pathOrUrl options].
Proof.
  intros Hn Hex. cbv zeta. unfold Api.apiFetch.
  await_fetch U w1 c1.
  assert (negb (status first =? 401)%Z
          || Api.shouldSkipRefresh (Api.buildUrl pathOrUrl) (Some options) = true) as ->.
  { apply orb_true_iff. destruct Hex as [Hs401|Hex].
    - left. apply negb_true_iff, Z.eqb_neq, Hs401.
    - right. by apply shouldSkipRefresh_excluded. }
  simpl. by collect_requests.
Qed.

Lemma not_excluded_refreshes pathOrUrl options first :
  status first = 401 → ¬ excluded pathOrUrl options →
  negb (status first =? 401)%Z
  || Api.shouldSkipRefresh (Api.buildUrl pathOrUrl) (Some options) = false.
Proof.
  intros Hs Hex. apply orb_false_iff. split.
  - apply negb_false_iff, Z.eqb_eq, Hs.
  - apply not_true_iff_false. by rewrite shouldSkipRefresh_excluded.
Qed.

(** A 401 without exclusion, and the refresh call is answered with a
    status outside 200..299: the 401 response is returned. *)
Lemma apiFetch_refresh_refused pathOrUrl options w ms first ms' second rest :
  network w = (ms, Fulfilled first) :: (ms', Fulfilled second) :: rest →
  status first = 401 → ¬ excluded pathOrUrl options →
  ok second = false →
  let r := run (Api.apiFetch (U := U) pathOrUrl options) w in
  out r = Returned first ∧
  requests (events r) = [original pathOrUrl options; refresh_call].
Proof.
  intros Hn Hs Hex Hok. cbv zeta. unfold Api.apiFetch.
  await_fetch U w1 c1. rewrite (not_excluded_refreshes _ _ _ Hs Hex).
  simpl in Hw. await_fetch U w2 c2. rewrite Hok. simpl.
  by collect_requests.
Qed.

(** A 401 without exclusion, and the refresh call succeeds: the
    original request is sent once more and its answer is the result. *)
Lemma apiFetch_replay pathOrUrl options w ms first ms' second rest :
  network w = (ms, Fulfilled first) :: (ms', Fulfilled second) :: rest →
  status first = 401 → ¬ excluded pathOrUrl options →
  ok second = true →
  let r := run (Api.apiFetch (U := U) pathOrUrl options) w in
  requests (events r) =
    [original pathOrUrl options; refresh_call; original pathOrUrl options] ∧
  out r = match rest with
          | (_, Fulfilled third) :: _ => Returned third
          | (_, Rejected e) :: _ => Threw e
          | [] => Threw (JsError "Failed to fetch")
          end.
Proof.
  intros Hn Hs Hex Hok. cbv zeta. unfold Api.apiFetch.
  await_fetch U w1 c1. rewrite (not_excluded_refreshes _ _ _ Hs Hex).
  simpl in Hw. await_fetch U w2 c2. rewrite Hok. simpl negb. cbv iota.
  simpl in Hw0. await_fetch U w3 c3.
  destruct rest as [|[ms3 [third|e]] rest]; fetch_suspended U w3 c3.
  all: simpl; split; [by collect_requests|done].
Qed.

(** Whatever the network answers, [apiFetch] sends the original
    request, then at most the refresh call, then at most one replay. *)
Lemma apiFetch_sends pathOrUrl options w :
  let sent := requests (events (run (Api.apiFetch (U := U) pathOrUrl options) w)) in
  sent = [original pathOrUrl options] ∨
  sent = [original pathOrUrl options; refresh_call] ∨
  sent = [original pathOrUrl options; refresh_call; original pathOrUrl options].
Proof.
  cbv zeta. unfold Api.apiFetch.
  destruct (network w) as [|[ms [first|e]] rest] eqn:Hn; await_fetch U w1 c1;
    try (left; simpl; by collect_requests).
  destruct (negb _ || _); cbv iota; try (left; simpl; by collect_requests).
  simpl in Hw.
  destruct rest as [|[ms' [second|e]] rest]; await_fetch U w2 c2;
    try (right; left; simpl; by collect_requests).
  destruct (ok second); simpl negb; cbv iota;
    try (right; left; simpl; by collect_requests).
  simpl in Hw0.
  destruct rest as [|[ms'' [third|e]] rest]; await_fetch U w3 c3;
    right; right; simpl; by collect_requests.
Qed.

(** Under an exclusion only the caller's request is sent, whatever
    the network answers, and its outcome is the outcome of the call. *)
Lemma apiFetch_excluded pathOrUrl options w :
  excluded pathOrUrl options →
  let r := run (Api.apiFetch (U := U) pathOrUrl options) w in
  requests (events r) = [original pathOrUrl options] ∧
  out r = match network w with
          | (_, Fulfilled first) :: _ => Returned first
          | (_, Rejected e) :: _ => Threw e
          | [] => Threw (JsError "Failed to fetch")
          end.
Proof.
  intros Hex. cbv zeta. unfold Api.apiFetch.
  apply shouldSkipRefresh_excluded in Hex.
  destruct (network w) as [|[ms [first|e]] rest] eqn:Hn; await_fetch U w1 c1;
    try (simpl; split; [by collect_requests|done]).
  rewrite Hex, orb_true_r. simpl. split; [by collect_requests|done].
Qed.

(** C1.  Every call of [apiFetch] follows one of three courses.  When
    the first response is not a 401, or the URL names [/auth/login]
    or [/auth/refresh], or [skipAuthRefresh] is set, that response is
    returned and nothing more is sent.  When the first response is a
    401 and no exclusion applies, one POST goes to [/auth/refresh]:
    if its response is not [ok], the 401 response is returned; if it
    is [ok], the original request is sent once more and the response
    to the replay is returned.  In every run the requests sent are
    the original one, then at most the refresh call, then at most one
    replay. *)
Theorem apiFetch_refresh_and_replay_once pathOrUrl options w :
  let r := run (Api.apiFetch (U := U) pathOrUrl options) w in
  let sent := requests (events r) in
  let request := original pathOrUrl options in
  (∀ ms first rest,
      network w = (ms, Fulfilled first) :: rest →
      status first ≠ 401 ∨ excluded pathOrUrl options →
      out r = Returned first ∧ sent = [request]) ∧
  (∀ ms first ms' second rest,
      network w = (ms, Fulfilled first) :: (ms', Fulfilled second) :: rest →
      status first = 401 → ¬ excluded pathOrUrl options →
      (ok second = false →
         out r = Returned first ∧ sent = [request; refresh_call]) ∧
      (ok second = true →
         sent = [request; refresh_call; request] ∧
         ∀ ms'' replayed rest',
           rest = (ms'', Fulfilled replayed) :: rest' → out r = Returned replayed)) ∧
  (sent = [request] ∨
   sent = [request; refresh_call] ∨
   sent = [request; refresh_call; request]).
Proof.
  cbv zeta. split; [|split].
  - intros ms first rest Hn Hex. by apply (apiFetch_first_response _ _ _ ms first rest).
  - intros ms first ms' second rest Hn Hs Hex. split; intros Hok.
    + by apply (apiFetch_refresh_refused _ _ _ ms first ms' second rest).
    + destruct (apiFetch_replay _ _ _ ms first ms' second rest Hn Hs Hex Hok)
        as [Hsent Hout].
      split; [done|]. intros ms'' replayed rest' ->. exact Hout.
  - apply apiFetch_sends.
Qed.

(** C8.  For a request whose URL contains [/auth/login] or
    [/auth/refresh], or whose options set [skipAuthRefresh], the only
    request [apiFetch] sends is the caller's own, whatever the status
    of the response, and the first response is what it returns: a 401
    from such a request starts no refresh. *)
Theorem apiFetch_excluded_never_refreshes pathOrUrl options w :
  excluded pathOrUrl options →
  let r := run (Api.apiFetch (U := U) pathOrUrl options) w in
  requests (events r) = [original pathOrUrl options] ∧
  ∀ ms first rest,
    network w = (ms, Fulfilled first) :: rest → out r = Returned first.
Proof.
  intros Hex. cbv zeta.
  destruct (apiFetch_excluded pathOrUrl options w Hex) as [Hsent Hout].
  split; [done|]. intros ms first rest Hn. by rewrite Hout, Hn.
Qed.

(** X14.  A request that fails on the network makes [apiFetch] throw, at
    each of its three requests: the first one; the refresh call, in
    which case the caller gets the error and not the 401 response; and
    the replay. *)
Theorem apiFetch_network_errors_propagate pathOrUrl options w (e : exn) :
  let r := run (Api.apiFetch (U := U) pathOrUrl options) w in
  let sent := requests (events r) in
  let request := original pathOrUrl options in
  let fails (answers : list (Z * settled Response)) :=
    (answers = [] ∧ e = JsError "Failed to fetch") ∨
    (∃ ms rest, answers = (ms, Rejected e) :: rest) in
  (fails (network w) → out r = Threw e ∧ sent = [request]) ∧
  (∀ ms first rest,
      network w = (ms, Fulfilled first) :: rest →
      status first = 401 → ¬ excluded pathOrUrl options →
      fails rest →
      out r = Threw e ∧ sent = [request; refresh_call]) ∧
  (∀ ms first ms' second rest,
      network w = (ms, Fulfilled first) :: (ms', Fulfilled second) :: rest →
      status first = 401 → ¬ excluded pathOrUrl options →
      ok second = true →
      fails rest →
      out r = Threw e ∧ sent = [request; refresh_call; request]).
Proof.
  cbv zeta. split; [|split].
  - unfold Api.apiFetch.
    intros [[Hn ->]|(ms & rest & Hn)]; await_fetch U w1 c1;
      simpl; (split; [done|by collect_requests]).
  - intros ms first rest Hn Hs Hex Hfail. unfold Api.apiFetch.
    await_fetch U w1 c1. rewrite (not_excluded_refreshes _ _ _ Hs Hex).
    simpl in Hw.
    destruct Hfail as [[-> ->]|(ms' & rest' & ->)]; await_fetch U w2 c2;
      simpl; (split; [done|by collect_requests]).
  - intros ms first ms' second rest Hn Hs Hex Hok Hfail.
    destruct (apiFetch_replay _ _ _ ms first ms' second rest Hn Hs Hex Hok)
      as [Hsent Hout].
    split; [|done]. rewrite Hout.
    by destruct Hfail as [[-> ->]|(ms'' & rest' & ->)].
Qed.

End ApiFacts.

(** ** The route middleware *)

Section MiddlewareFacts.
Import Middleware.

Lemma truthy_nonempty (s : string) : Js.truthy s = true ↔ s ≠ "".
Proof. destruct s; simpl; split; congruence. Qed.

(** The regular expression accepts exactly the paths that end in a
    file extension. *)
Lemma PUBLIC_FILE_test_extension (path : string) :
  PUBLIC_FILE_test path = true ↔ ends_in_extension path.
Proof.
  unfold ends_in_extension. induction path as [|c path IH]; simpl.
  - split; [done|]. intros (stem & ext & Heq & _). by destruct stem.
  - rewrite orb_true_iff, !andb_true_iff, IH, truthy_nonempty. split.
    + intros [[[Hdot Hne] Hword]|(stem & ext & -> & Hne & Hword)].
      * apply Ascii.eqb_eq in Hdot as ->. by exists "", path.
      * by exists (String c stem), ext.
    + intros (stem & ext & Heq & Hne & Hword). destruct stem as [|d stem].
      * injection Heq as -> ->. left. by rewrite Ascii.eqb_refl.
      * injection Heq as -> ->. right. by exists stem, ext.
Qed.

Lemma public_guard (path : string) :
  Js.startsWith path "/login" || Js.startsWith path "/auth"
  || Js.startsWith path "/_astro" || PUBLIC_FILE_test path = true ↔ public path.
Proof.
  unfold public. rewrite !orb_true_iff, PUBLIC_FILE_test_extension. tauto.
Qed.

(** C2.  A request whose path starts with [/login], [/auth] or
    [/_astro], or ends in a file extension, is passed on; every other
    request is redirected to [/login] exactly when the [access_token]
    cookie is absent or empty, and passed on when the cookie holds a
    non-empty value. *)
Theorem onRequest_guards_session (ctx : APIContext) :
  (public (pathname ctx) → onRequest ctx = Next) ∧
  (¬ public (pathname ctx) →
     (onRequest ctx = Redirect "/login" ↔
        cookies ctx !! "access_token" = None ∨ cookies ctx !! "access_token" = Some "") ∧
     (∀ value, cookies ctx !! "access_token" = Some value → value ≠ "" →
               onRequest ctx = Next)).
Proof.
  unfold onRequest, isAuthed. split.
  - intros Hp. apply public_guard in Hp. by rewrite Hp.
  - intros Hp. rewrite <- public_guard in Hp. apply not_true_is_false in Hp.
    rewrite Hp. split.
    + destruct (cookies ctx !! "access_token") as [[|c value]|]; simpl;
        split; intros Hr; try done; try (by left); try (by right);
        destruct Hr; congruence.
    + intros value -> Hne. by destruct value.
Qed.

End MiddlewareFacts.

(** ** Doubles *)

Section Doubles.
Import PrimFloat SpecFloat FloatOps ChartEstadisticoKpis.
Local Open Scope float_scope.

Lemma leb_zero (x : float) : (0 <=? x) = true ↔ not_negative (Prim2SF x).
Proof.
  rewrite FloatAxioms.leb_spec. change (Prim2SF 0) with (S754_zero false).
  destruct (Prim2SF x) as [s|s| |s m e]; try destruct s; cbn; intuition congruence.
Qed.

Lemma shr_1_sign (mrs : shr_record) : (0 ≤ shr_m mrs → 0 ≤ shr_m (shr_1 mrs))%Z.
Proof. destruct mrs as [[|[p|p|]|[p|p|]] r s]; simpl; lia. Qed.

Lemma iter_shr_1_sign (n : positive) (mrs : shr_record) :
  (0 ≤ shr_m mrs → 0 ≤ shr_m (iter_pos shr_1 n mrs))%Z.
Proof.
  revert mrs. induction n as [n IH|n IH|]; intros mrs Hm; simpl.
  - apply IH, IH. by apply shr_1_sign.
  - by apply IH, IH.
  - by apply shr_1_sign.
Qed.

Lemma shr_fexp_sign (m e : Z) (l : location) :
  (0 ≤ m → 0 ≤ shr_m (shr_fexp prec emax m e l).1)%Z.
Proof.
  intros Hm. unfold shr_fexp, shr.
  assert (0 ≤ shr_m (shr_record_of_loc m l))%Z as Hrecord.
  { by destruct l as [|[]]. }
  destruct (fexp prec emax (Zdigits2 m + e) - e)%Z; simpl; [done| |done].
  by apply iter_shr_1_sign.
Qed.

Lemma round_nearest_even_sign (m : Z) (l : location) :
  (0 ≤ m → 0 ≤ round_nearest_even m l)%Z.
Proof. intros Hm. destruct l as [|[]]; simpl; [done| |done|lia]. destruct (Z.even m); lia. Qed.

Lemma binary_round_aux_sign (m e : Z) (l : location) :
  (0 ≤ m)%Z → not_negative (binary_round_aux prec emax false m e l).
Proof.
  intros Hm. unfold binary_round_aux.
  pose proof (shr_fexp_sign m e l Hm) as H1.
  destruct (shr_fexp prec emax m e l) as [mrs' e']. simpl in H1.
  pose proof (shr_fexp_sign _ e' loc_Exact
                (round_nearest_even_sign _ (loc_of_shr_record mrs') H1)) as H2.
  destruct (shr_fexp prec emax _ e' loc_Exact) as [mrs'' e'']. simpl in H2.
  destruct (shr_m mrs'') as [|p|p]; [done| |lia].
  by destruct (e'' <=? emax - prec)%Z.
Qed.

(** The sum of two doubles that are not negative is not negative:
    it may be infinite, and is never [NaN]. *)
Lemma add_not_negative (x y : float) :
  (0 <=? x) = true → (0 <=? y) = true → (0 <=? x + y) = true.
Proof.
  rewrite !leb_zero, FloatAxioms.add_spec. unfold FloatAxioms.SF64add, SFadd.
  destruct (Prim2SF x) as [sx|sx| |sx mx ex], (Prim2SF y) as [sy|sy| |sy my ey];
    simpl; try done; try (intros -> ->; done); try (by destruct sx, sy).
  intros -> ->. simpl. unfold binary_round.
  destruct (shl_align _ _ _) as [mz ez]. by apply binary_round_aux_sign.
Qed.

(** A double above zero and below [Infinity] is a positive finite
    one. *)
Lemma positive_finite (y : float) :
  (0 <? y) = true → (y <? infinity) = true →
  ∃ m e, Prim2SF y = S754_finite false m e.
Proof.
  rewrite !FloatAxioms.ltb_spec.
  change (Prim2SF 0) with (S754_zero false).
  change (Prim2SF infinity) with (S754_infinity false).
  destruct (Prim2SF y) as [s|s| |s m e]; try destruct s; cbn; try congruence.
  intros _ _. by exists m, e.
Qed.

(** The product of a double that is not negative with a positive
    finite one is not negative, and is not [NaN]. *)
Lemma mul_not_negative (x y : float) :
  (0 <=? x) = true → (0 <? y) = true → (y <? infinity) = true → (0 <=? x * y) = true.
Proof.
  intros Hx Hy Hfinite. destruct (positive_finite y Hy Hfinite) as (my & ey & Hy').
  revert Hx. rewrite !leb_zero, FloatAxioms.mul_spec, Hy'.
  unfold FloatAxioms.SF64mul, SFmul.
  destruct (Prim2SF x) as [sx|sx| |sx mx ex]; simpl; try done.
  - by intros ->.
  - intros ->. simpl. by apply binary_round_aux_sign.
Qed.

(** So is the quotient. *)
Lemma div_not_negative (x y : float) :
  (0 <=? x) = true → (0 <? y) = true → (y <? infinity) = true → (0 <=? x / y) = true.
Proof.
  intros Hx Hy Hfinite. destruct (positive_finite y Hy Hfinite) as (my & ey & Hy').
  revert Hx. rewrite !leb_zero, FloatAxioms.div_spec, Hy'.
  unfold FloatAxioms.SF64div, SFdiv.
  destruct (Prim2SF x) as [sx|sx| |sx mx ex]; simpl; try done.
  - by intros ->.
  - intros ->. simpl. unfold SFdiv_core_binary.
    set (m' := match _ with Zpos _ => Z.shiftl (Zpos mx) _ | Z0 => Zpos mx | Zneg _ => Z0 end).
    assert (0 ≤ m')%Z as Hm'.
    { subst m'. destruct (_ - _ - _)%Z; [lia| |lia]. apply Z.shiftl_nonneg. lia. }
    pose proof (Z.div_pos m' (Zpos my) Hm' eq_refl) as Hq.
    unfold Z.div in Hq. destruct (Z.div_eucl m' (Zpos my)) as [q r].
    by apply binary_round_aux_sign.
Qed.

End Doubles.

(** ** The KPIs of the statistical report *)

Section KpiFacts.
Import PrimFloat ChartEstadisticoKpis.
Local Open Scope float_scope.

(** C5.  With a [null] aggregates state the KPIs shown are the ones
    [computedKpis] derives from the rows; with aggregates from the
    server they are the fields of the aggregates, whatever the rows
    are. *)
Theorem kpis_prefer_server_aggregates (data : list EstadisticoRow) :
  kpis None data = computedKpis data ∧
  ∀ aggregates : EstadisticoAggregates,
    ingresoTotal (kpis (Some aggregates) data) = agg_ingresoTotal aggregates ∧
    vehiculosEfec (kpis (Some aggregates) data) = agg_vehiculosEfec aggregates ∧
    vehiculosExentos (kpis (Some aggregates) data) = agg_vehiculosExentos aggregates ∧
    vehiculosRfid100 (kpis (Some aggregates) data) = agg_vehiculosRfid100 aggregates ∧
    porcentajeExentos (kpis (Some aggregates) data) = agg_porcentajeExentos aggregates ∧
    ∀ other : list EstadisticoRow,
      kpis (Some aggregates) other = kpis (Some aggregates) data.
Proof. split; [reflexivity|]. intros aggregates. repeat split. Qed.

(** A double equal to zero, [0] or [-0], is not above zero. *)
Lemma zero_is_not_positive (x : float) : (x =? 0) = true → (0 <? x) = false.
Proof.
  rewrite FloatAxioms.eqb_spec, FloatAxioms.ltb_spec.
  change (FloatOps.Prim2SF 0) with (SpecFloat.S754_zero false).
  destruct (FloatOps.Prim2SF x) as [s|s| |s m e]; try destruct s; cbn; congruence.
Qed.

(** A double that is not below zero, not [NaN] and not equal to zero
    is above zero. *)
Lemma nonzero_is_positive (x : float) :
  (0 <=? x) = true → (x =? 0) = false → (0 <? x) = true.
Proof.
  rewrite FloatAxioms.eqb_spec, FloatAxioms.ltb_spec, FloatAxioms.leb_spec.
  change (FloatOps.Prim2SF 0) with (SpecFloat.S754_zero false).
  destruct (FloatOps.Prim2SF x) as [s|s| |s m e]; try destruct s; cbn; congruence.
Qed.

Lemma porcentajeExentos_computed (data : list EstadisticoRow) :
  let k := computedKpis data in
  let total := vehiculosEfec k + vehiculosExentos k + vehiculosRfid100 k in
  porcentajeExentos k =
  if 0 <? total then (vehiculosExentos k + vehiculosRfid100 k) / total * 100 else 0.
Proof. reflexivity. Qed.

Lemma vehiculos_not_negative (rows : list EstadisticoRow) :
  Forall counts_nonnegative rows → (0 <=? vehiculos rows) = true.
Proof.
  unfold vehiculos. intros Hrows.
  assert (∀ sum, (0 <=? sum) = true →
                 (0 <=? fold_left
                          (fun sum row =>
                             sum + CAT1 row + CAT2 row + CAT3 row + CAT4 row + CAT5 row
                             + CAT6 row + CAT7 row + CAT8 row + CAT9 row) rows sum) = true)
    as Hfold.
  { induction Hrows as [|row rows Hrow _ IH]; intros sum Hsum; [done|].
    simpl. apply IH. destruct Hrow as (H1 & H2 & H3 & H4 & H5 & H6 & H7 & H8 & H9).
    repeat apply add_not_negative; assumption. }
  by apply Hfold.
Qed.

Lemma filter_counts (keep : EstadisticoRow → bool) rows :
  Forall counts_nonnegative rows → Forall counts_nonnegative (List.filter keep rows).
Proof.
  rewrite !List.Forall_forall. intros Hall row Hin. apply filter_In in Hin as [Hin _]. auto.
Qed.


End KpiFacts.

(** ** [trim] *)

Section TrimFacts.

(** White space at the start of a text is dropped, whichever of the
    code points of [whiteSpace] it is. *)
Lemma trimStart_white_space (cp : N) (s : string) :
  In cp Js.whiteSpace → Js.trimStart (Js.utf8 cp +:+ s) = Js.trimStart s.
Proof.
  intros Hin. unfold Js.whiteSpace in Hin. simpl in Hin.
  repeat (destruct Hin as [<- | Hin]; [reflexivity|]). destruct Hin.
Qed.

(** A text of white space only is trimmed to the empty string. *)
Lemma trim_white_space (cps : list N) :
  Forall (fun cp => In cp Js.whiteSpace) cps → Js.trim (Js.text cps) = "".
Proof.
  intros Hws. unfold Js.trim.
  assert (Js.trimStart (Js.text cps) = "") as ->; [|reflexivity].
  induction Hws as [|cp cps Hcp _ IH]; [reflexivity|].
  simpl. by rewrite trimStart_white_space.
Qed.

Example trim_of_a_name :
  Js.trim (Js.text [0xA0; 0x20]%N +:+ "ana" +:+ Js.text [0x2028; 0x09; 0xFEFF]%N) = "ana".
Proof. reflexivity. Qed.

End TrimFacts.

(** ** The login form *)

Section LoginFacts.
Context `{Platform}.
Import LoginForm.

(** C10.  When the trimmed [usuario] or the trimmed [clave] is empty,
    the submit handler sends nothing: it sets the error message and
    returns, and [loading] and [success] keep their values. *)
Theorem handleSubmit_requires_both_fields
    (formData : gmap string FormDataEntryValue) (w : World) (s : LoginState) :
  Js.trim (String_or_empty (formData !! "usuario")) = "" ∨
  Js.trim (String_or_empty (formData !! "clave")) = "" →
  let r := run (handleSubmit formData) w in
  let s' := fold_left apply_update (updates (events r)) s in
  requests (events r) = [] ∧
  updates (events r) =
    [PreventDefault; SetError (Some "Ingresa usuario y clave para continuar.")] ∧
  out r = Returned tt ∧
  loading s' = loading s ∧ success s' = success s.
Proof.
  intros Hempty. cbv zeta. unfold handleSubmit.
  assert (negb (Js.truthy (Js.trim (String_or_empty (formData !! "usuario"))))
          || negb (Js.truthy (Js.trim (String_or_empty (formData !! "clave")))) = true)
    as Hguard.
  { destruct Hempty as [-> | ->]; simpl; [done|apply orb_true_r]. }
  simpl. rewrite Hguard. by simpl.
Qed.

End LoginFacts.

(** ** The response caches *)

Section CacheFacts.
Context {U : Type} `{Platform}.

Lemma parsed_nonempty (cached : string) (v : json) :
  JSON_parse cached = Some v → Js.truthy cached = true.
Proof.
  destruct cached; [|done]. rewrite JSON_parse_empty. discriminate.
Qed.

(** The statistical report's cache: an entry older than the expiry is
    removed and read as [null]; a younger one whose [data] is an
    array is returned. *)
Lemma estadistico_getCachedData_entry key cached fields ts (w : World) :
  storage w !! (ChartEstadistico.CACHE_PREFIX +:+ key) = Some cached →
  JSON_parse cached = Some (JObj fields) →
  ToNumber (assoc "timestamp" fields) = Some ts →
  let r := run (ChartEstadistico.getCachedData (U := U) key) w in
  (ChartEstadistico.CACHE_EXPIRY < clock w - ts →
     out r = Returned None ∧
     storage (final r) = delete (ChartEstadistico.CACHE_PREFIX +:+ key) (storage w)) ∧
  (clock w - ts ≤ ChartEstadistico.CACHE_EXPIRY →
     ∀ rows, assoc "data" fields = Some (JArr rows) →
       out r = Returned (Some {| ChartEstadistico.data := JArr rows;
                                 ChartEstadistico.aggregates :=
                                   Some (orNull (assoc "aggregates" fields)) |}) ∧
       final r = w).
Proof.
  intros Hget Hparse Hts. cbv zeta.
  unfold ChartEstadistico.getCachedData. simpl. rewrite Hget.
  rewrite (parsed_nonempty _ _ Hparse). simpl.
  unfold parse. rewrite Hparse. cbn -[ToNumber]. rewrite Hts. simpl. split.
  - intros Hold. apply Z.ltb_lt in Hold. rewrite Hold. by simpl.
  - intros Hyoung rows Hdata. apply Z.ltb_ge in Hyoung. rewrite Hyoung, Hdata.
    simpl. by destruct w.
Qed.

(** The booth report's cache: an entry older than the expiry is
    removed and read as [null]; a younger one yields its aggregates. *)
Lemma cabinas_getCachedData_entry key cached fields ts (w : World) :
  storage w !! (ChartCabinas.CACHE_PREFIX +:+ key) = Some cached →
  JSON_parse cached = Some (JObj fields) →
  ToNumber (assoc "timestamp" fields) = Some ts →
  let r := run (ChartCabinas.getCachedData (U := U) key) w in
  (ChartCabinas.CACHE_EXPIRY < clock w - ts →
     out r = Returned JNull ∧
     storage (final r) = delete (ChartCabinas.CACHE_PREFIX +:+ key) (storage w)) ∧
  (clock w - ts ≤ ChartCabinas.CACHE_EXPIRY →
     out r = Returned (orNull (assoc "aggregates" fields)) ∧ final r = w).
Proof.
  intros Hget Hparse Hts. cbv zeta.
  unfold ChartCabinas.getCachedData. simpl. rewrite Hget.
  rewrite (parsed_nonempty _ _ Hparse). simpl.
  unfold parse. rewrite Hparse. cbn -[ToNumber]. rewrite Hts. simpl. split.
  - intros Hold. apply Z.ltb_lt in Hold. rewrite Hold. by simpl.
  - intros Hyoung. apply Z.ltb_ge in Hyoung. rewrite Hyoung. simpl. by destruct w.
Qed.

(** The temporal report's cache, under the storage key that
    [getCacheKey] builds. *)
Lemma temporal_getCachedData_entry key cached fields ts (w : World) :
  storage w !! ChartTemporal.getCacheKey key = Some cached →
  JSON_parse cached = Some (JObj fields) →
  ToNumber (assoc "timestamp" fields) = Some ts →
  let r := run (ChartTemporal.getCachedData (U := U) (ChartTemporal.getCacheKey key)) w in
  (ChartTemporal.CACHE_EXPIRY < clock w - ts →
     out r = Returned JNull ∧
     storage (final r) = delete (ChartTemporal.getCacheKey key) (storage w)) ∧
  (clock w - ts ≤ ChartTemporal.CACHE_EXPIRY →
     out r = Returned (orNull (assoc "aggregates" fields)) ∧ final r = w).
Proof.
  intros Hget Hparse Hts. cbv zeta.
  unfold ChartTemporal.getCachedData. simpl. rewrite Hget.
  rewrite (parsed_nonempty _ _ Hparse). simpl.
  unfold parse. rewrite Hparse. cbn -[ToNumber]. rewrite Hts. simpl. split.
  - intros Hold. apply Z.ltb_lt in Hold. rewrite Hold. by simpl.
  - intros Hyoung. apply Z.ltb_ge in Hyoung. rewrite Hyoung. simpl. by destruct w.
Qed.

(** The expiry is thirty minutes in each panel. *)
Lemma CACHE_EXPIRY_thirty_minutes :
  ChartEstadistico.CACHE_EXPIRY = 1800000 ∧
  ChartCabinas.CACHE_EXPIRY = 1800000 ∧
  ChartTemporal.CACHE_EXPIRY = 1800000.
Proof. done. Qed.

(** C3.  In each of the three caches (prefixes [estadistico-cache-],
    [cabinas-cache-] and [temporal-cache-]), for every key and every
    stored entry, an object whose [timestamp] has a numeric value:
    [getCachedData] returns [null] and removes the entry when the
    timestamp is more than 30 * 60 * 1000 milliseconds before now;
    otherwise it returns the stored payload and leaves the storage as
    it is: the rows with the aggregates in the statistical report,
    when [data] is an array, and the aggregates in the other two. *)
Theorem getCachedData_expires_after_thirty_minutes
    key cached fields ts (w : World) :
  JSON_parse cached = Some (JObj fields) →
  ToNumber (assoc "timestamp" fields) = Some ts →
  let expired := 30 * 60 * 1000 < clock w - ts in
  (storage w !! ("estadistico-cache-" +:+ key) = Some cached →
   let r := run (ChartEstadistico.getCachedData (U := U) key) w in
   (expired →
      out r = Returned None ∧
      storage (final r) = delete ("estadistico-cache-" +:+ key) (storage w)) ∧
   (¬ expired →
      ∀ rows, assoc "data" fields = Some (JArr rows) →
        out r = Returned (Some {| ChartEstadistico.data := JArr rows;
                                  ChartEstadistico.aggregates :=
                                    Some (orNull (assoc "aggregates" fields)) |}) ∧
        final r = w)) ∧
  (storage w !! ("cabinas-cache-" +:+ key) = Some cached →
   let r := run (ChartCabinas.getCachedData (U := U) key) w in
   (expired →
      out r = Returned JNull ∧
      storage (final r) = delete ("cabinas-cache-" +:+ key) (storage w)) ∧
   (¬ expired →
      out r = Returned (orNull (assoc "aggregates" fields)) ∧ final r = w)) ∧
  (storage w !! ("temporal-cache-" +:+ key) = Some cached →
   let r := run (ChartTemporal.getCachedData (U := U) (ChartTemporal.getCacheKey key)) w in
   (expired →
      out r = Returned JNull ∧
      storage (final r) = delete ("temporal-cache-" +:+ key) (storage w)) ∧
   (¬ expired →
      out r = Returned (orNull (assoc "aggregates" fields)) ∧ final r = w)).
Proof.
  intros Hparse Hts. cbv zeta. split; [|split]; intros Hget.
  - destruct (estadistico_getCachedData_entry key cached fields ts w Hget Hparse Hts)
      as [Hold Hyoung].
    split; [exact Hold|]. intros Hne. apply Hyoung. apply Z.nlt_ge, Hne.
  - destruct (cabinas_getCachedData_entry key cached fields ts w Hget Hparse Hts)
      as [Hold Hyoung].
    split; [exact Hold|]. intros Hne. apply Hyoung. apply Z.nlt_ge, Hne.
  - destruct (temporal_getCachedData_entry key cached fields ts w Hget Hparse Hts)
      as [Hold Hyoung].
    split; [exact Hold|]. intros Hne. apply Hyoung. apply Z.nlt_ge, Hne.
Qed.

(** What [setCachedData] leaves in the storage when [setItem] does
    not fail. *)
Lemma estadistico_setCachedData_stores key payload (w : World) :
  let k := ChartEstadistico.CACHE_PREFIX +:+ key in
  let v := JSON_stringify (ChartEstadistico.cache_entry payload (clock w)) in
  (storage_size (<[k := v]> (storage w)) ≤ quota w)%nat →
  let r := run (ChartEstadistico.setCachedData (U := U) key payload) w in
  out r = Returned tt ∧ events r = [] ∧ storage (final r) !! k = Some v.
Proof.
  cbv zeta. intros Hroom. apply Nat.leb_le in Hroom.
  unfold ChartEstadistico.setCachedData. simpl. rewrite Hroom. simpl.
  by rewrite lookup_insert_eq.
Qed.

(** C4.  After [setCachedData(key, payload)] with rows that are an
    array, a [getCachedData(key)] at most 30 minutes later returns the
    payload, its aggregates [null] when they were missing -- provided
    the entry was stored (no quota failure), is still the one under
    its key, and its JSON text parses back to it. *)
Theorem cache_round_trip key payload rows (w later : World) :
  let entry := ChartEstadistico.cache_entry payload (clock w) in
  let stored := final (run (ChartEstadistico.setCachedData (U := U) key payload) w) in
  let k := "estadistico-cache-" +:+ key in
  ChartEstadistico.data payload = JArr rows →
  JSON_parse (JSON_stringify entry) = Some entry →
  (storage_size (<[k := JSON_stringify entry]> (storage w)) ≤ quota w)%nat →
  storage later !! k = storage stored !! k →
  clock later - clock w ≤ 30 * 60 * 1000 →
  let r := run (ChartEstadistico.getCachedData (U := U) key) later in
  out r = Returned (Some {| ChartEstadistico.data := ChartEstadistico.data payload;
                            ChartEstadistico.aggregates :=
                              Some (orNull (ChartEstadistico.aggregates payload)) |}) ∧
  final r = later.
Proof.
  cbv zeta. intros Hrows Hcodec Hroom Hsame Hsoon.
  change ("estadistico-cache-" +:+ key)
    with (ChartEstadistico.CACHE_PREFIX +:+ key) in Hroom, Hsame.
  destruct (estadistico_setCachedData_stores key payload w Hroom) as (_ & _ & Hstored).
  rewrite Hstored in Hsame.
  destruct (estadistico_getCachedData_entry key _ _ (clock w) later Hsame Hcodec eq_refl)
    as [_ Hyoung].
  destruct (Hyoung Hsoon rows) as [Hout Hfinal].
  { simpl. by rewrite Hrows. }
  split; [|done]. rewrite Hout. simpl. rewrite Hrows.
  by destruct (ChartEstadistico.aggregates payload) as [[]|].
Qed.

End CacheFacts.

(** ** Fetch effects and the cleanup *)

Section UnmountFacts.
Context {U : Type} `{Platform}.

Lemma updates_app (t1 t2 : list (event U)) :
  updates (t1 ++ t2) = updates t1 ++ updates t2.
Proof.
  induction t1 as [|e t1 IH]; simpl; [done|].
  destruct e; simpl; by rewrite ?IH.
Qed.

Lemma send_unmounted (r : Request) (w : World) :
  unmounted w → unmounted (send r w).2.
Proof.
  intros [Hm Hc]. unfold send. by destruct (network w) as [|[ms answer] rest].
Qed.

Lemma suspend_unmounted (w : World) :
  unmounted w → suspend (U := U) w = (w, []).
Proof. intros [Hm Hc]. unfold suspend. by rewrite Hc. Qed.

Lemma perform_unmounted (a : action U) (w : World) :
  unmounted w →
  unmounted (perform a w).1.2 ∧
  (match a with SetState _ => False | _ => True end → updates (perform a w).2 = []).
Proof.
  intros Hw. destruct a; simpl.
  - pose proof (send_unmounted r w Hw) as Hs. destruct (send r w) as [x w1].
    simpl in Hs. by rewrite (suspend_unmounted _ Hs).
  - pose proof (send_unmounted r1 w Hw) as Hs1. destruct (send r1 w) as [x w1].
    simpl in Hs1.
    pose proof (send_unmounted r2 w1 Hs1) as Hs2. destruct (send r2 w1) as [y w2].
    simpl in Hs2. by rewrite (suspend_unmounted _ Hs2).
  - by rewrite (suspend_unmounted _ Hw).
  - by rewrite (suspend_unmounted _ Hw).
  - by rewrite (suspend_unmounted _ Hw).
  - tauto.
  - done.
  - done.
  - done.
  - destruct (_ <=? _)%nat; [|done]. split; [|done]. by destruct Hw.
  - split; [|done]. by destruct Hw.
Qed.

Lemma perform_mounted_false (w : World) :
  unmounted w → (perform (U := U) IsMounted w).1.1 = false.
Proof. by intros [Hm _]. Qed.

(** Silent code calls no state setter in a world that is unmounted. *)
Lemma silent_run {A} (m : Async U A) (w : World) :
  silent m → unmounted w → updates (events (run m w)) = [].
Proof.
  revert w. induction m as [a|e|a k IH]; intros w Hs Hw; [done|done|].
  simpl. destruct (perform a w) as [[r w'] es] eqn:Hp. simpl.
  pose proof (perform_unmounted a w Hw) as [Hw' Hes]. rewrite Hp in Hw', Hes.
  simpl in Hw', Hes. rewrite updates_app.
  destruct a; simpl in Hs; try done;
    try (rewrite Hes by done; simpl; apply IH; [apply Hs|done]).
  pose proof (perform_mounted_false w Hw) as Hr. rewrite Hp in Hr. simpl in Hr.
  subst r. rewrite Hes by done. simpl. by apply IH.
Qed.

(** At a suspension either the cleanup does not run, or it runs last
    and leaves the world unmounted. *)
Lemma suspend_cleanup (w : World) :
  (suspend (U := U) w).2 = [] ∨
  ((suspend (U := U) w).2 = [EvCleanup] ∧ unmounted (suspend (U := U) w).1).
Proof.
  unfold suspend. destruct (cleanup_at w) as [[|n]|]; simpl; auto.
  right. by split.
Qed.

Lemma perform_cleanup (a : action U) (w : World) :
  (∀ t, after_cleanup ((perform a w).2 ++ t) = after_cleanup t) ∨
  (is_await a = true ∧ unmounted (perform a w).1.2 ∧
   ∀ t, after_cleanup ((perform a w).2 ++ t) = t).
Proof.
  destruct a; simpl; try (left; done).
  - destruct (send r w) as [x w1].
    destruct (suspend_cleanup w1) as [E|[E Hu]];
      destruct (suspend w1) as [w2 c]; simpl in *; subst c; [by left|by right].
  - destruct (send r1 w) as [x w1]. destruct (send r2 w1) as [y w2].
    destruct (suspend_cleanup w2) as [E|[E Hu]];
      destruct (suspend w2) as [w3 c]; simpl in *; subst c; [by left|by right].
  - destruct (suspend_cleanup w) as [E|[E Hu]];
      destruct (suspend w) as [w3 c]; simpl in *; subst c; [by left|by right].
  - destruct (suspend_cleanup w) as [E|[E Hu]];
      destruct (suspend w) as [w3 c]; simpl in *; subst c; [by left|by right].
  - destruct (suspend_cleanup w) as [E|[E Hu]];
      destruct (suspend w) as [w3 c]; simpl in *; subst c; [by left|by right].
  - left. by destruct (_ <=? _)%nat.
Qed.

(** Guarded code calls no state setter after the cleanup of its
    effect has run. *)
Lemma guarded_run {A} (m : Async U A) (w : World) :
  guarded m → updates (after_cleanup (events (run m w))) = [].
Proof.
  revert w. induction m as [a|e|a k IH]; intros w Hg; [done|done|].
  destruct Hg as [Hk Hs]. simpl.
  pose proof (perform_cleanup a w) as Hp.
  destruct (perform a w) as [[r w'] es]. simpl in *.
  destruct Hp as [Hp|(Ha & Hu & Hp)]; rewrite Hp.
  - by apply IH.
  - apply silent_run; [by apply Hs|done].
Qed.

End UnmountFacts.

(** ** The fetch effects of the panels *)

Create HintDb async.
#[local] Hint Unfold mbind mret Async_bind Async_ret settle when set isMounted fetch fetchBoth
  response_json response_jsonBoth Date_now sessionStorage_getItem sessionStorage_setItem
  sessionStorage_removeItem check_ok report_error stop_loading aggregates_in member
  has_property parse await_call Api.apiFetch : async.

Section PanelFacts.
Context `{Platform} (combine : json → json → settled json).

(** Walks the tree of an effect: every action is entered, every
    answer of the browser is split into its cases. *)
Ltac walk :=
  repeat (autounfold with async; simpl; intros;
          match goal with
          | |- True => exact I
          | |- _ ∧ _ => split
          | Hf : false = true |- _ => discriminate Hf
          | |- context [match ?x with _ => _ end] => destruct x
          end).

Lemma TableFacturacion_guarded f : guarded (TableFacturacion.fetchData f).
Proof. unfold TableFacturacion.fetchData. walk. Qed.

Lemma TableFacturacionRango_guarded f : guarded (TableFacturacionRango.fetchData f).
Proof. unfold TableFacturacionRango.fetchData. walk. Qed.

Lemma ChartRadialStacked_guarded f : guarded (ChartRadialStacked.fetchData f).
Proof. unfold ChartRadialStacked.fetchData. walk. Qed.

Lemma ChartRadialStackedRango_guarded f : guarded (ChartRadialStackedRango.fetchData f).
Proof. unfold ChartRadialStackedRango.fetchData. walk. Qed.

Lemma ChartAreaInteractive_guarded f : guarded (ChartAreaInteractive.fetchData f).
Proof. unfold ChartAreaInteractive.fetchData. walk. Qed.

Lemma ChartTransito_guarded f : guarded (ChartTransito.fetchData combine f).
Proof. unfold ChartTransito.fetchData. walk. Qed.

Lemma ChartCabinas_guarded f : guarded (ChartCabinas.fetchData f).
Proof.
  unfold ChartCabinas.fetchData, ChartCabinas.getCachedData, ChartCabinas.setCachedData.
  walk.
Qed.

Lemma ChartTemporal_guarded f : guarded (ChartTemporal.fetchData f).
Proof.
  unfold ChartTemporal.fetchData, ChartTemporal.fetchTemporalAggregates,
    ChartTemporal.getCachedData, ChartTemporal.setCachedData.
  walk.
Qed.

Lemma ChartEstadistico_guarded f : guarded (ChartEstadistico.fetchData f).
Proof.
  unfold ChartEstadistico.fetchData, ChartEstadistico.getCachedData,
    ChartEstadistico.setCachedData, ChartEstadistico.payload_of.
  walk.
Qed.

Lemma panels_guarded (p : Panel) f : p ∈ panels combine → guarded (effect p f).
Proof.
  unfold panels. rewrite !elem_of_cons, elem_of_nil.
  intros [->|[->|[->|[->|[->|[->|[->|[->|[->|[]]]]]]]]]].
  - exact (ChartEstadistico_guarded f).
  - exact (ChartCabinas_guarded f).
  - exact (ChartTemporal_guarded f).
  - exact (TableFacturacion_guarded f).
  - exact (TableFacturacionRango_guarded f).
  - exact (ChartRadialStacked_guarded f).
  - exact (ChartRadialStackedRango_guarded f).
  - exact (ChartAreaInteractive_guarded f).
  - exact (ChartTransito_guarded f).
Qed.

(** The first events of an effect whose first action is a state
    setter or a request. *)
Lemma events_set {A} (u : PanelUpdate) (k : unit → Async PanelUpdate A) (w : World) :
  events (run (Do (SetState u) k) w) = EvSet u :: events (run (k tt) w).
Proof. reflexivity. Qed.

Lemma events_fetch {A} (r : Request) (k : settled Response → Async PanelUpdate A)
    (w : World) :
  ∃ post, events (run (Do (Fetch r) k) w) = EvFetch r :: post.
Proof.
  simpl. destruct (send r w) as [x w1]. destruct (suspend w1) as [w2 c]. simpl. eauto.
Qed.

Lemma events_fetchBoth {A} (r1 r2 : Request)
    (k : settled (Response * Response) → Async PanelUpdate A) (w : World) :
  ∃ post, events (run (Do (FetchBoth r1 r2) k) w) = EvFetch r1 :: EvFetch r2 :: post.
Proof.
  simpl. destruct (send r1 w) as [x w1]. destruct (send r2 w1) as [y w2].
  destruct (suspend w2) as [w3 c]. simpl. eauto.
Qed.

Lemma events_getItem {A} (key : string) (k : option string → Async PanelUpdate A)
    (w : World) :
  events (run (Do (GetItem key) k) w) = events (run (k (storage w !! key)) w).
Proof. reflexivity. Qed.

(** Runs an effect up to its first request. *)
Ltac to_first_request :=
  autounfold with async; cbn [bind try_catch try_finally];
  repeat first
    [ rewrite events_set
    | rewrite events_getItem;
      cbn [storage start];
      match goal with Hmiss : _ !! _ = None |- _ => rewrite Hmiss end;
      cbn [bind try_catch try_finally truthy]
    | match goal with
      | |- context [events (run (Do (Fetch ?r) ?k) ?w)] =>
          destruct (events_fetch r k w) as [? ->]
      | |- context [events (run (Do (FetchBoth ?r1 ?r2) ?k) ?w)] =>
          destruct (events_fetchBoth r1 r2 k w) as [? ->]
      end ];
  eexists; reflexivity.

Lemma fetches_first_intro (p : Panel) f w (pre : list PanelUpdate) :
  forallb status_only pre = true →
  (∃ post, events (run (effect p f) (start w))
           = map EvSet pre ++ map EvFetch (gets p f) ++ post) →
  fetches_first p f w.
Proof. intros Hpre [post Hev]. by exists pre, post. Qed.

Lemma TableFacturacion_fetches f w : fetches_first tableFacturacion f w.
Proof.
  apply (fetches_first_intro _ _ _ [SetLoading true]); [done|].
  cbn [effect gets tableFacturacion map app]. unfold TableFacturacion.fetchData.
  to_first_request.
Qed.

Lemma TableFacturacionRango_fetches f w : fetches_first tableFacturacionRango f w.
Proof.
  apply (fetches_first_intro _ _ _ [SetLoading true]); [done|].
  cbn [effect gets tableFacturacionRango map app]. unfold TableFacturacionRango.fetchData.
  to_first_request.
Qed.

Lemma ChartRadialStacked_fetches f w : fetches_first chartRadialStacked f w.
Proof.
  apply (fetches_first_intro _ _ _ [SetLoading true]); [done|].
  cbn [effect gets chartRadialStacked map app]. unfold ChartRadialStacked.fetchData.
  to_first_request.
Qed.

Lemma ChartRadialStackedRango_fetches f w : fetches_first chartRadialStackedRango f w.
Proof.
  apply (fetches_first_intro _ _ _ [SetLoading true]); [done|].
  cbn [effect gets chartRadialStackedRango map app]. unfold ChartRadialStackedRango.fetchData.
  to_first_request.
Qed.

Lemma ChartAreaInteractive_fetches f w : fetches_first chartAreaInteractive f w.
Proof.
  apply (fetches_first_intro _ _ _ [SetLoading true]); [done|].
  cbn [effect gets chartAreaInteractive map app]. unfold ChartAreaInteractive.fetchData.
  to_first_request.
Qed.

Lemma ChartTransito_fetches f w : fetches_first (chartTransito combine) f w.
Proof.
  apply (fetches_first_intro _ _ _ [SetLoading true]); [done|].
  cbn [effect gets chartTransito map app]. unfold ChartTransito.fetchData.
  to_first_request.
Qed.

(** The requests of every panel are GETs: no method is set. *)
Lemma panels_get (p : Panel) f :
  p ∈ panels combine → Forall (fun r => method (req_init r) = None) (gets p f).
Proof.
  unfold panels. rewrite !elem_of_cons, elem_of_nil.
  intros [->|[->|[->|[->|[->|[->|[->|[->|[->|[]]]]]]]]]]; simpl;
    repeat constructor.
Qed.

(** The only control outside the dependency array of its panel is the
    shift filter of the two invoice tables. *)
Lemma panels_client_side_filter (p : Panel) (x : Filter) :
  p ∈ panels combine → x ∈ controls p → x ∉ dependencies p →
  x = FTurno ∧ (p = tableFacturacion ∨ p = tableFacturacionRango).
Proof.
  unfold panels. rewrite !elem_of_cons, elem_of_nil.
  intros [->|[->|[->|[->|[->|[->|[->|[->|[->|[]]]]]]]]]]; simpl;
    rewrite ?elem_of_cons, ?elem_of_nil; intros Hc Hd;
    destruct x; try (exfalso; intuition discriminate); auto.
Qed.

Lemma dependency_changed (p : Panel) (x : Filter) old new :
  x ∈ dependencies p → changed x old new = true →
  existsb (fun y => changed y old new) (dependencies p) = true.
Proof.
  intros Hx Hc. apply existsb_exists. exists x. split; [|done].
  by apply list_elem_of_In.
Qed.

Lemma dependencies_unchanged (p : Panel) (x : Filter) old new :
  x ∉ dependencies p → (∀ y, y ≠ x → changed y old new = false) →
  existsb (fun y => changed y old new) (dependencies p) = false.
Proof.
  intros Hx Hothers. apply not_true_is_false. intros He.
  apply existsb_exists in He as (y & Hy & Hc). apply list_elem_of_In in Hy.
  rewrite Hothers in Hc; [done|]. by intros ->.
Qed.

(** C7.  In every data panel, once the cleanup of the effect has run
    ([isMounted] is [false]), the fetch that completes afterwards
    calls no state setter: it writes neither the data, the
    aggregates, the error nor the loading state, and so leaves the
    state of the panel as it was when the cleanup ran. *)
Theorem no_state_update_after_cleanup (p : Panel) (f : Filters) (w : World) :
  p ∈ panels combine →
  let late := after_cleanup (events (run (effect p f) (start w))) in
  updates late = [] ∧
  ∀ s : PanelState, fold_left apply_update (updates late) s = s.
Proof.
  intros Hp. cbv zeta.
  rewrite (guarded_run _ _ (panels_guarded p f Hp)). by split.
Qed.

End PanelFacts.

(** ** The properties on sample inputs *)

Section Evaluation.
Import Samples.
#[local] Existing Instance browser.

#[local] Abbreviation cache_key_sample := "2024-01-01_2024-01-07-all" (only parsing).

Example expired_session_replays_once :
  let r := run (U := PanelUpdate)
             (Api.apiFetch "/facturacion" Api.no_options) expired_session in
  out r = Returned (respond 200 "[]") ∧ length (requests (events r)) = 3%nat.
Proof. vm_compute. done. Qed.

(** An expired session: the 401 is followed by one refresh call and
    one replay, whose response is returned. *)
Lemma apiFetch_refresh_and_replay_once_witness :
  let r := run (U := PanelUpdate)
             (Api.apiFetch "/facturacion" Api.no_options) expired_session in
  requests (events r) =
    [Api.original "/facturacion" Api.no_options; Api.refresh_call;
     Api.original "/facturacion" Api.no_options] ∧
  out r = Returned (respond 200 "[]").
Proof.
  destruct (apiFetch_refresh_and_replay_once (U := PanelUpdate)
              "/facturacion" Api.no_options expired_session) as (_ & Hreplay & _).
  destruct (Hreplay 40 (respond 401 "") 25 (respond 204 "")
              [(60, Fulfilled (respond 200 "[]"))] eq_refl eq_refl) as [_ Hok].
  { unfold Api.excluded. vm_compute. intros [E|[E|E]]; discriminate E. }
  destruct (Hok eq_refl) as [Hsent Hout].
  split; [exact Hsent|exact (Hout 60 (respond 200 "[]") [] eq_refl)].
Defined.

(** The login call carries [skipAuthRefresh]: its 401 is returned and
    no refresh call is made. *)
Lemma apiFetch_excluded_never_refreshes_witness :
  let r := run (U := LoginForm.LoginUpdate)
             (Api.apiFetch "/auth/login" login_call) login_refused in
  requests (events r) = [Api.original "/auth/login" login_call] ∧
  out r = Returned (respond 401 "").
Proof.
  destruct (apiFetch_excluded_never_refreshes (U := LoginForm.LoginUpdate)
              "/auth/login" login_call login_refused) as [Hsent Hout].
  { left. reflexivity. }
  split; [exact Hsent|exact (Hout 40 (respond 401 "") [] eq_refl)].
Defined.

(** An entry read 31 minutes after it was written is removed and read
    as [null]. *)
Lemma getCachedData_expires_after_thirty_minutes_witness :
  let r := run (U := PanelUpdate)
             (ChartEstadistico.getCachedData cache_key_sample) cached_world in
  out r = Returned None ∧
  storage (final r) =
    delete ("estadistico-cache-" +:+ cache_key_sample) (storage cached_world).
Proof.
  destruct (getCachedData_expires_after_thirty_minutes (U := PanelUpdate)
              cache_key_sample entry_text entry_fields 1700000000000 cached_world)
    as [Hestadistico _].
  { vm_compute. reflexivity. }
  { reflexivity. }
  destruct Hestadistico as [Hold _].
  { vm_compute. reflexivity. }
  apply Hold. reflexivity.
Defined.

(** A payload stored without aggregates is read back, twenty minutes
    later, with [null] aggregates. *)
Lemma cache_round_trip_witness :
  out (run (U := PanelUpdate)
         (ChartEstadistico.getCachedData cache_key_sample) twenty_minutes_later)
  = Returned (Some {| ChartEstadistico.data := JArr [JObj [("CABINA", JNum 3)]];
                      ChartEstadistico.aggregates := Some JNull |}).
Proof.
  refine (proj1 (cache_round_trip (U := PanelUpdate) cache_key_sample payload
                   [JObj [("CABINA", JNum 3)]] idle twenty_minutes_later
                   eq_refl _ _ _ _)).
  - vm_compute. reflexivity.
  - apply Nat.leb_le. vm_compute. reflexivity.
  - vm_compute. reflexivity.
  - vm_compute. discriminate.
Defined.

Lemma tableFacturacion_is_panel : tableFacturacion ∈ panels combine.
Proof. unfold panels. rewrite !elem_of_cons. tauto. Qed.


(** With a fresh cache entry for the new filters the booth report sets
    its state from the cache and sends nothing. *)
Example cached_filters_send_no_request :
  events (rerender chartCabinas filters other_station cabinas_cached)
  = map EvSet [SetLoading true;
               SetAggregates (JObj [("totalTransitos", JNum 42)]);
               SetError None; SetLoading false; SetLoading false].
Proof. vm_compute. reflexivity. Qed.

(** The invoices arrive after the table was unmounted: nothing is
    written. *)
Lemma no_state_update_after_cleanup_witness :
  updates (after_cleanup
             (events (run (effect tableFacturacion filters) (start late_answer)))) = [].
Proof.
  exact (proj1 (no_state_update_after_cleanup combine tableFacturacion filters
                  late_answer tableFacturacion_is_panel)).
Defined.

Example late_answer_is_discarded :
  events (run (effect tableFacturacion filters) (start late_answer))
  = [EvSet (SetLoading true); EvFetch (get (TableFacturacion.url filters)); EvCleanup].
Proof. vm_compute. reflexivity. Qed.

(** A user name of a no-break space, a byte order mark and a line
    separator is empty once trimmed: the handler sets the error and
    sends nothing. *)
Lemma handleSubmit_requires_both_fields_witness :
  let r := run (LoginForm.handleSubmit no_break_form) idle in
  requests (events r) = [] ∧
  updates (events r) =
    [LoginForm.PreventDefault;
     LoginForm.SetError (Some "Ingresa usuario y clave para continuar.")].
Proof.
  destruct (handleSubmit_requires_both_fields no_break_form idle
              {| LoginForm.error := None; LoginForm.success := false;
                 LoginForm.loading := false |})
    as (Hsent & Hupdates & _).
  { left. vm_compute. reflexivity. }
  split; [exact Hsent|exact Hupdates].
Defined.

(** So is a user name of blanks. *)
Example handleSubmit_refuses_blanks :
  events (run (LoginForm.handleSubmit blank_form) idle)
  = [EvSet LoginForm.PreventDefault;
     EvSet (LoginForm.SetError (Some "Ingresa usuario y clave para continuar."))].
Proof. vm_compute. reflexivity. Qed.

Example static_asset_passes :
  Middleware.onRequest {| Middleware.pathname := "/favicon.svg"; Middleware.cookies := ∅ |}
  = Middleware.Next.
Proof. reflexivity. Qed.

Example dashboard_without_cookie_redirects :
  Middleware.onRequest {| Middleware.pathname := "/dashboard"; Middleware.cookies := ∅ |}
  = Middleware.Redirect "/login".
Proof. reflexivity. Qed.

End Evaluation.

(** ** How runs compose *)

Section RunFacts.
Context {U : Type} `{Platform}.

Lemma run_bind {A B} (m : Async U A) (f : A → Async U B) (w : World) :
  run (bind m f) w =
  match out (run m w) with
  | Returned a => after_events (events (run m w)) (run (f a) (final (run m w)))
  | Threw e => {| out := Threw e; final := final (run m w); events := events (run m w) |}
  end.
Proof.
  revert w. induction m as [a|e|a k IH]; intros w; simpl.
  - by destruct (run (f a) w).
  - done.
  - destruct (perform a w) as [[r w'] es]. rewrite IH. simpl.
    destruct (out (run (k r) w')); unfold after_events; simpl;
      [by rewrite (assoc_L (++))|done].
Qed.

Lemma run_try_catch {A} (m : Async U A) (h : exn → Async U A) (w : World) :
  run (try_catch m h) w =
  match out (run m w) with
  | Returned a => run m w
  | Threw e => after_events (events (run m w)) (run (h e) (final (run m w)))
  end.
Proof.
  revert w. induction m as [a|e|a k IH]; intros w; simpl.
  - done.
  - by destruct (run (h e) w).
  - destruct (perform a w) as [[r w'] es]. rewrite IH. simpl.
    destruct (out (run (k r) w')) eqn:E; unfold after_events; simpl;
      [by rewrite E|by rewrite (assoc_L (++))].
Qed.

Lemma run_try_finally {A} (m : Async U A) (fin : Async U unit) (w : World) :
  run (try_finally m fin) w =
  let r := run m w in
  let r' := run fin (final r) in
  {| out := match out r' with Returned _ => out r | Threw e => Threw e end;
     final := final r';
     events := events r ++ events r' |}.
Proof.
  revert w. induction m as [a|e|a k IH]; intros w; simpl.
  - rewrite run_bind. destruct (out (run fin w)); [|done].
    unfold after_events. simpl. by rewrite app_nil_r.
  - rewrite run_bind. destruct (out (run fin w)); [|done].
    unfold after_events. simpl. by rewrite app_nil_r.
  - destruct (perform a w) as [[r w'] es]. rewrite IH. simpl.
    by rewrite (assoc_L (++)).
Qed.

End RunFacts.

(** ** The life cycle of a fetch effect *)

Section LifeCycle.
Context `{Platform} (combine : json → json → settled json).

Lemma send_keeps_mounted (r : Request) (w : World) :
  mounted (send r w).2 = mounted w ∧ cleanup_at (send r w).2 = cleanup_at w.
Proof. unfold send. by destruct (network w) as [|[ms answer] rest]. Qed.

Lemma suspend_without_cleanup {U} (w : World) :
  cleanup_at w = None → suspend (U := U) w = (w, []).
Proof. intros Hc. unfold suspend. by rewrite Hc. Qed.

Lemma perform_stays_mounted {U} (a : action U) (w : World) :
  cleanup_at w = None →
  mounted (perform a w).1.2 = mounted w ∧ cleanup_at (perform a w).1.2 = None.
Proof.
  intros Hc. destruct a; simpl; try done.
  - destruct (send_keeps_mounted r w) as [Hm Hc']. destruct (send r w) as [x w1].
    simpl in *. rewrite suspend_without_cleanup by congruence. simpl. split; congruence.
  - destruct (send_keeps_mounted r1 w) as [Hm Hc']. destruct (send r1 w) as [x w1].
    simpl in *.
    destruct (send_keeps_mounted r2 w1) as [Hm2 Hc2]. destruct (send r2 w1) as [y w2].
    simpl in *. rewrite suspend_without_cleanup by congruence. simpl. split; congruence.
  - by rewrite suspend_without_cleanup.
  - by rewrite suspend_without_cleanup.
  - by rewrite suspend_without_cleanup.
  - by destruct (_ <=? _)%nat.
Qed.

(** Without a cleanup during the run, [isMounted] keeps its value. *)
Lemma run_stays_mounted {U A} (m : Async U A) (w : World) :
  cleanup_at w = None →
  mounted (final (run m w)) = mounted w ∧ cleanup_at (final (run m w)) = None.
Proof.
  revert w. induction m as [a|e|a k IH]; intros w Hc; [done|done|].
  simpl. destruct (perform_stays_mounted a w Hc) as [Hm Hc'].
  destruct (perform a w) as [[r w'] es]. simpl in *.
  destruct (IH r w' Hc') as [Hm' Hc'']. by rewrite Hm', Hm.
Qed.

Lemma report_error_returns err (w : World) : out (run (report_error err) w) = Returned tt.
Proof. unfold report_error. simpl. by destruct (mounted w). Qed.

Lemma stop_loading_returns (w : World) : out (run stop_loading w) = Returned tt.
Proof. unfold stop_loading. simpl. by destruct (mounted w). Qed.

Lemma stop_loading_mounted (w : World) :
  mounted w = true → events (run stop_loading w) = [EvSet (SetLoading false)].
Proof. intros Hm. unfold stop_loading. simpl. by rewrite Hm. Qed.

(** A body under a handler and a last step that do not throw never
    throws. *)
Lemma protected_returns (body : Async PanelUpdate unit) handler fin (w : World) :
  (∀ e w', out (run (handler e) w') = Returned tt) →
  (∀ w', out (run fin w') = Returned tt) →
  out (run (try_finally (try_catch body handler) fin) w) = Returned tt.
Proof.
  intros Hh Hf. rewrite run_try_finally. cbv zeta. cbn [out]. rewrite Hf.
  rewrite run_try_catch. destruct (out (run body w)) as [[]|e] eqn:E; [done|].
  simpl. apply Hh.
Qed.

Lemma protected_ends_loading (body : Async PanelUpdate unit) handler (w : World) :
  cleanup_at w = None → mounted w = true →
  events (run (try_finally (try_catch body handler) stop_loading) w) =
  events (run (try_catch body handler) w) ++ [EvSet (SetLoading false)].
Proof.
  intros Hc Hm. rewrite run_try_finally. cbv zeta. cbn [events].
  destruct (run_stays_mounted (try_catch body handler) w Hc) as [Hm' _].
  rewrite stop_loading_mounted; [done|]. by rewrite Hm'.
Qed.

Lemma out_after_set {A} (u : PanelUpdate) (k : unit → Async PanelUpdate A) (w : World) :
  out (run (set u ≫= k) w) = out (run (k tt) w).
Proof. reflexivity. Qed.

Lemma events_after_set {A} (u : PanelUpdate) (k : unit → Async PanelUpdate A) (w : World) :
  events (run (set u ≫= k) w) = EvSet u :: events (run (k tt) w).
Proof. reflexivity. Qed.

Ltac handler_returns :=
  intros; simpl;
  repeat match goal with |- context [mounted ?w] => destruct (mounted w); simpl end;
  done.

(** X1.  The effect of a panel never throws: a failed request, a body that
    is not JSON or a property read of [null] all end in the [catch]. *)
Theorem effects_never_reject (p : Panel) (f : Filters) (w : World) :
  p ∈ panels combine → out (run (effect p f) w) = Returned tt.
Proof.
  unfold panels. rewrite !elem_of_cons, elem_of_nil.
  intros [->|[->|[->|[->|[->|[->|[->|[->|[->|[]]]]]]]]]]; cbn [effect chartEstadistico chartCabinas chartTemporal tableFacturacion
         tableFacturacionRango chartRadialStacked chartRadialStackedRango
         chartAreaInteractive chartTransito].
  - unfold ChartEstadistico.fetchData. rewrite out_after_set.
    apply protected_returns; handler_returns.
  - unfold ChartCabinas.fetchData. rewrite out_after_set.
    apply protected_returns; handler_returns.
  - unfold ChartTemporal.fetchData. rewrite !out_after_set.
    apply protected_returns; handler_returns.
  - unfold TableFacturacion.fetchData. rewrite out_after_set.
    apply protected_returns; handler_returns.
  - unfold TableFacturacionRango.fetchData. rewrite out_after_set.
    apply protected_returns; handler_returns.
  - unfold ChartRadialStacked.fetchData. rewrite out_after_set.
    apply protected_returns; handler_returns.
  - unfold ChartRadialStackedRango.fetchData. rewrite out_after_set.
    apply protected_returns; handler_returns.
  - unfold ChartAreaInteractive.fetchData. rewrite out_after_set.
    apply protected_returns; handler_returns.
  - unfold ChartTransito.fetchData. rewrite out_after_set.
    apply protected_returns; handler_returns.
Qed.

(** X2.  While the panel stays mounted, the last state update of every run
    of its effect is [setLoading(false)]: whatever the network answers,
    the panel leaves its loading state. *)
Theorem effects_stop_loading (p : Panel) (f : Filters) (w : World) (s : PanelState) :
  p ∈ panels combine → cleanup_at w = None →
  (∃ before, updates (events (run (effect p f) (start w))) = before ++ [SetLoading false]) ∧
  st_loading (state_after (events (run (effect p f) (start w))) s) = false.
Proof.
  intros Hp Hc.
  assert (∃ before,
             updates (events (run (effect p f) (start w))) = before ++ [SetLoading false])
    as [before Hb].
  { revert Hp. unfold panels. rewrite !elem_of_cons, elem_of_nil.
    intros [->|[->|[->|[->|[->|[->|[->|[->|[->|[]]]]]]]]]]; cbn [effect chartEstadistico chartCabinas chartTemporal tableFacturacion
         tableFacturacionRango chartRadialStacked chartRadialStackedRango
         chartAreaInteractive chartTransito].
    - unfold ChartEstadistico.fetchData. rewrite events_after_set.
      rewrite (protected_ends_loading _ _ (start w) Hc eq_refl).
      cbn [updates]. rewrite updates_app. eexists (_ :: _). reflexivity.
    - unfold ChartCabinas.fetchData. rewrite events_after_set.
      rewrite (protected_ends_loading _ _ (start w) Hc eq_refl).
      cbn [updates]. rewrite updates_app. eexists (_ :: _). reflexivity.
    - unfold ChartTemporal.fetchData. rewrite !events_after_set.
      rewrite (protected_ends_loading _ _ (start w) Hc eq_refl).
      cbn [updates]. rewrite updates_app. eexists (_ :: _ :: _). reflexivity.
    - unfold TableFacturacion.fetchData. rewrite events_after_set.
      rewrite (protected_ends_loading _ _ (start w) Hc eq_refl).
      cbn [updates]. rewrite updates_app. eexists (_ :: _). reflexivity.
    - unfold TableFacturacionRango.fetchData. rewrite events_after_set.
      rewrite (protected_ends_loading _ _ (start w) Hc eq_refl).
      cbn [updates]. rewrite updates_app. eexists (_ :: _). reflexivity.
    - unfold ChartRadialStacked.fetchData. rewrite events_after_set.
      rewrite (protected_ends_loading _ _ (start w) Hc eq_refl).
      cbn [updates]. rewrite updates_app. eexists (_ :: _). reflexivity.
    - unfold ChartRadialStackedRango.fetchData. rewrite events_after_set.
      rewrite (protected_ends_loading _ _ (start w) Hc eq_refl).
      cbn [updates]. rewrite updates_app. eexists (_ :: _). reflexivity.
    - unfold ChartAreaInteractive.fetchData. rewrite events_after_set.
      rewrite (protected_ends_loading _ _ (start w) Hc eq_refl).
      cbn [updates]. rewrite updates_app. eexists (_ :: _). reflexivity.
    - unfold ChartTransito.fetchData. rewrite events_after_set.
      rewrite (protected_ends_loading _ _ (start w) Hc eq_refl).
      cbn [updates]. rewrite updates_app. eexists (_ :: _). reflexivity. }
  split; [by exists before|].
  unfold state_after. rewrite Hb, fold_left_app. reflexivity.
Qed.

End LifeCycle.

(** ** What a panel shows for each answer *)

Section Answers.
Context `{Platform} (combine : json → json → settled json).

(** Evaluates a run against what is known of the world. *)
Ltac answer :=
  autounfold with async;
  repeat (progress
            (try unfold send; try unfold suspend; simpl;
             repeat match goal with
               | Hx : ?x = _ |- context [?x] => rewrite Hx
               end)).

(** Unfolds the effect of the panel at hand. *)
Ltac open_effect :=
  cbn [effect gets chartEstadistico chartCabinas chartTemporal tableFacturacion
         tableFacturacionRango chartRadialStacked chartRadialStackedRango
         chartAreaInteractive chartTransito map app];
  unfold ChartEstadistico.fetchData, ChartEstadistico.getCachedData,
    ChartEstadistico.setCachedData, ChartEstadistico.payload_of,
    ChartCabinas.fetchData, ChartCabinas.getCachedData, ChartCabinas.setCachedData,
    TableFacturacion.fetchData, ChartRadialStacked.fetchData,
    ChartAreaInteractive.fetchData.

Ltac each_direct_panel Hp Hmiss :=
  revert Hp Hmiss; unfold direct_panels, no_cached_entry;
  rewrite !elem_of_cons, elem_of_nil;
  intros [->|[->|[->|[->|[->|[]]]]]] Hmiss; simpl in Hmiss.

(** X3.  A response that is not [ok]: the panel shows [Error <status>],
    reads no body, keeps its rows and aggregates and caches nothing. *)
Theorem http_error_is_reported (p : Panel) f (w : World) ms r rest :
  p ∈ direct_panels → no_cached_entry p f w → cleanup_at w = None →
  network w = (ms, Fulfilled r) :: rest → ok r = false →
  let result := run (effect p f) (start w) in
  events result =
    EvSet (SetLoading true) :: map EvFetch (gets p f)
    ++ [EvSet (SetError (Some ("Error " +:+ String_of_Z (status r))));
        EvSet (SetLoading false)] ∧
  storage (final result) = storage w.
Proof.
  intros Hp Hmiss Hc Hn Hok. cbv zeta.
  each_direct_panel Hp Hmiss; open_effect; answer; done.
Qed.

(** X4.  A request that fails, or a body that is not JSON: the panel shows
    the message of the error and keeps its rows and aggregates. *)
Theorem failed_fetch_is_reported (p : Panel) f (w : World) :
  p ∈ direct_panels → no_cached_entry p f w → cleanup_at w = None →
  let result := run (effect p f) (start w) in
  (∀ ms e rest, network w = (ms, Rejected e) :: rest →
     events result =
       EvSet (SetLoading true) :: map EvFetch (gets p f)
       ++ [EvSet (SetError (Some (message_or "Error inesperado" e)));
           EvSet (SetLoading false)]) ∧
  (∀ ms r rest, network w = (ms, Fulfilled r) :: rest → ok r = true →
     JSON_parse (res_body r) = None →
     ∃ message,
       events result =
         EvSet (SetLoading true) :: map EvFetch (gets p f)
         ++ [EvSet (SetError (Some message)); EvSet (SetLoading false)]).
Proof.
  intros Hp Hmiss Hc. cbv zeta. split.
  - intros ms e rest Hn.
    each_direct_panel Hp Hmiss; open_effect; answer; done.
  - intros ms r rest Hn Hok Hbody.
    each_direct_panel Hp Hmiss; open_effect; answer; unfold parse_body; answer; eauto.
Qed.

(** X5.  The invoice table takes the parsed body as its rows, whatever JSON
    value it is: nothing checks that it is an array. *)
Theorem invoice_rows_are_the_body f (w : World) ms r rest body :
  cleanup_at w = None →
  network w = (ms, Fulfilled r) :: rest → ok r = true →
  JSON_parse (res_body r) = Some body →
  events (run (TableFacturacion.fetchData f) (start w)) =
  [EvSet (SetLoading true); EvFetch (get (TableFacturacion.url f));
   EvSet (SetData body); EvSet (SetError None); EvSet (SetLoading false)].
Proof.
  intros Hc Hn Hok Hbody. unfold TableFacturacion.fetchData.
  answer. unfold parse_body. by answer.
Qed.

(** X6.  The tag-sales and the revenue chart take the [aggregates] property
    of an object body, [null] when it is absent or the body is an
    array; a body that is neither is an error. *)
Theorem aggregates_of_the_body (p : Panel) f (w : World) ms r rest body :
  p ∈ aggregate_panels → cleanup_at w = None →
  network w = (ms, Fulfilled r) :: rest → ok r = true →
  JSON_parse (res_body r) = Some body →
  let shown := events (run (effect p f) (start w)) in
  let stored aggregates :=
    EvSet (SetLoading true) :: map EvFetch (gets p f)
    ++ [EvSet (SetAggregates aggregates); EvSet (SetError None);
        EvSet (SetLoading false)] in
  match body with
  | JObj fields => shown = stored (orNull (assoc "aggregates" fields))
  | JArr _ => shown = stored JNull
  | _ => ∃ message,
           shown = EvSet (SetLoading true) :: map EvFetch (gets p f)
                   ++ [EvSet (SetError (Some message)); EvSet (SetLoading false)]
  end.
Proof.
  intros Hp Hc Hn Hok Hbody. cbv zeta.
  revert Hp. unfold aggregate_panels. rewrite !elem_of_cons, elem_of_nil.
  intros [->|[->|[]]]; open_effect; answer; unfold parse_body; answer;
    destruct body; simpl; eauto;
    match goal with
    | |- context [assoc "aggregates" ?fs] => by destruct (assoc "aggregates" fs)
    end.
Qed.

(** What the statistical report leaves in the storage on a
    successful answer. *)
Lemma estadistico_fetch_stores f (w : World) ms r rest body :
  no_cached_entry chartEstadistico f w → cleanup_at w = None →
  network w = (ms, Fulfilled r) :: rest → ok r = true →
  JSON_parse (res_body r) = Some body → body ≠ JNull →
  let payload :=
    match body with
    | JArr _ => {| ChartEstadistico.data := body; ChartEstadistico.aggregates := Some JNull |}
    | _ => {| ChartEstadistico.data := orElse (prop body "data") (JArr []);
              ChartEstadistico.aggregates := Some (orNull (prop body "aggregates")) |}
    end in
  let key := ChartEstadistico.CACHE_PREFIX +:+ ChartEstadistico.cacheKey f in
  let text := JSON_stringify (ChartEstadistico.cache_entry payload (clock w + ms)) in
  storage (final (run (ChartEstadistico.fetchData f) (start w))) =
    if (storage_size (<[key := text]> (storage w)) <=? quota w)%nat
    then <[key := text]> (storage w) else storage w.
Proof.
  intros Hmiss Hc Hn Hok Hbody Hnull. cbv zeta.
  unfold no_cached_entry in Hmiss. simpl in Hmiss.
  unfold ChartEstadistico.fetchData, ChartEstadistico.getCachedData,
    ChartEstadistico.setCachedData, ChartEstadistico.payload_of.
  answer. unfold parse_body. answer.
  destruct body; try done; answer;
    match goal with
    | |- context [(?a <=? ?b)%nat] => destruct (a <=? b)%nat
    end; simpl; done.
Qed.

(** X7.  The statistical report on a successful answer: the rows and the
    aggregates of the body are shown, and stored under the key of the
    filters when the storage has room; when it has none the storage
    stays as it is and the data is shown all the same. *)
Theorem estadistico_shows_and_caches f (w : World) ms r rest body :
  no_cached_entry chartEstadistico f w → cleanup_at w = None →
  network w = (ms, Fulfilled r) :: rest → ok r = true →
  JSON_parse (res_body r) = Some body → body ≠ JNull →
  let payload :=
    match body with
    | JArr _ => {| ChartEstadistico.data := body; ChartEstadistico.aggregates := Some JNull |}
    | _ => {| ChartEstadistico.data := orElse (prop body "data") (JArr []);
              ChartEstadistico.aggregates := Some (orNull (prop body "aggregates")) |}
    end in
  let key := ChartEstadistico.CACHE_PREFIX +:+ ChartEstadistico.cacheKey f in
  let text := JSON_stringify (ChartEstadistico.cache_entry payload (clock w + ms)) in
  let result := run (ChartEstadistico.fetchData f) (start w) in
  events result =
    [EvSet (SetLoading true); EvFetch (get (ChartEstadistico.url f));
     EvSet (SetData (ChartEstadistico.data payload));
     EvSet (SetAggregates (orNull (ChartEstadistico.aggregates payload)));
     EvSet (SetError None); EvSet (SetLoading false)] ∧
  storage (final result) =
    if (storage_size (<[key := text]> (storage w)) <=? quota w)%nat
    then <[key := text]> (storage w) else storage w.
Proof.
  intros Hmiss Hc Hn Hok Hbody Hnull. cbv zeta.
  unfold no_cached_entry in Hmiss. simpl in Hmiss.
  unfold ChartEstadistico.fetchData, ChartEstadistico.getCachedData,
    ChartEstadistico.setCachedData, ChartEstadistico.payload_of.
  answer. unfold parse_body. answer.
  destruct body; try done; answer;
    match goal with
    | |- context [(?a <=? ?b)%nat] => destruct (a <=? b)%nat
    end; simpl; split; try done;
    repeat match goal with
      | |- context [assoc ?k ?fs] => destruct (assoc k fs) as [[]|]
      end; done.
Qed.

(** With a fresh entry for the filters the statistical report sends
    nothing: it shows the cached rows and aggregates, and leaves the
    loading state twice, in the branch and in the [finally]. *)
Lemma estadistico_cache_hit f (w : World) cached fields ts rows :
  storage w !! (ChartEstadistico.CACHE_PREFIX +:+ ChartEstadistico.cacheKey f) = Some cached →
  JSON_parse cached = Some (JObj fields) →
  ToNumber (assoc "timestamp" fields) = Some ts →
  clock w - ts ≤ ChartEstadistico.CACHE_EXPIRY →
  assoc "data" fields = Some (JArr rows) →
  let result := run (ChartEstadistico.fetchData f) (start w) in
  events result =
    map EvSet [SetLoading true; SetData (JArr rows);
               SetAggregates (orNull (assoc "aggregates" fields));
               SetError None; SetLoading false; SetLoading false] ∧
  storage (final result) = storage w.
Proof.
  intros Hget Hparse Hts Hyoung Hdata. cbv zeta.
  pose proof (parsed_nonempty _ _ Hparse) as Htruthy.
  apply Z.ltb_ge in Hyoung.
  unfold ChartEstadistico.fetchData, ChartEstadistico.getCachedData.
  autounfold with async. simpl in Hget |- *. rewrite Hget. simpl. rewrite Htruthy. simpl.
  rewrite Hparse. cbn -[ToNumber]. rewrite Hts, Hyoung, Hdata. simpl.
  by destruct (assoc "aggregates" fields) as [[]|].
Qed.

(** X8.  The booth report never answers from a cached [null]: an entry whose
    aggregates are [null] or missing, however fresh, is followed by the
    request. *)
Theorem cabinas_cached_null_refetches f (w : World) cached fields ts :
  storage w !! (ChartCabinas.CACHE_PREFIX +:+ ChartCabinas.cacheKey f) = Some cached →
  JSON_parse cached = Some (JObj fields) →
  ToNumber (assoc "timestamp" fields) = Some ts →
  orNull (assoc "aggregates" fields) = JNull →
  ∃ post,
    events (run (ChartCabinas.fetchData f) (start w)) =
    EvSet (SetLoading true) :: EvFetch (get (ChartCabinas.url f)) :: post.
Proof.
  intros Hget Hparse Hts Hnull.
  pose proof (parsed_nonempty _ _ Hparse) as Htruthy.
  unfold ChartCabinas.fetchData, ChartCabinas.getCachedData.
  autounfold with async. simpl in Hget |- *. rewrite Hget. simpl. rewrite Htruthy. simpl.
  rewrite Hparse. cbn -[ToNumber]. rewrite Hts.
  destruct (ChartCabinas.CACHE_EXPIRY <? clock w - ts); simpl; rewrite ?Hnull; simpl;
    destruct (send _ _) as [x w1]; destruct (suspend w1) as [w2 c]; simpl; eauto.
Qed.

(** X9.  Fetch, then cache: after a successful answer with rows that are an
    array, the effect run again for the same filters within 30 minutes
    sends no request and shows the same rows and aggregates --
    provided the entry was stored, is still under its key and parses
    back. *)
Theorem estadistico_second_run_uses_cache f (w later : World) ms r rest body rows :
  no_cached_entry chartEstadistico f w → cleanup_at w = None →
  network w = (ms, Fulfilled r) :: rest → ok r = true →
  JSON_parse (res_body r) = Some body → body ≠ JNull →
  let payload :=
    match body with
    | JArr _ => {| ChartEstadistico.data := body; ChartEstadistico.aggregates := Some JNull |}
    | _ => {| ChartEstadistico.data := orElse (prop body "data") (JArr []);
              ChartEstadistico.aggregates := Some (orNull (prop body "aggregates")) |}
    end in
  let key := ChartEstadistico.CACHE_PREFIX +:+ ChartEstadistico.cacheKey f in
  let entry := ChartEstadistico.cache_entry payload (clock w + ms) in
  let first := run (ChartEstadistico.fetchData f) (start w) in
  let second := run (ChartEstadistico.fetchData f) (start later) in
  ChartEstadistico.data payload = JArr rows →
  JSON_parse (JSON_stringify entry) = Some entry →
  (storage_size (<[key := JSON_stringify entry]> (storage w)) ≤ quota w)%nat →
  storage later !! key = storage (final first) !! key →
  clock later - (clock w + ms) ≤ ChartEstadistico.CACHE_EXPIRY →
  requests (events second) = [] ∧
  updates (events second) =
    [SetLoading true; SetData (ChartEstadistico.data payload);
     SetAggregates (orNull (ChartEstadistico.aggregates payload));
     SetError None; SetLoading false; SetLoading false].
Proof.
  intros Hmiss Hc Hn Hok Hbody Hnull. cbv zeta. intros Hrows Hcodec Hroom Hsame Hsoon.
  pose proof (estadistico_fetch_stores f w ms r rest body Hmiss Hc Hn Hok Hbody Hnull)
    as Hstored.
  cbv zeta in Hstored. apply Nat.leb_le in Hroom. rewrite Hroom in Hstored.
  rewrite Hstored, lookup_insert_eq in Hsame. clear Hstored Hroom.
  set (payload := match body with JArr _ => _ | _ => _ end) in *.
  unfold ChartEstadistico.cache_entry in Hcodec, Hsame.
  destruct (estadistico_cache_hit f later _
              [("data", ChartEstadistico.data payload);
               ("aggregates", orNull (ChartEstadistico.aggregates payload));
               ("timestamp", JNum (clock w + ms))]
              (clock w + ms) rows Hsame Hcodec eq_refl Hsoon)
    as [Hev _].
  { simpl. by rewrite Hrows. }
  rewrite Hev. simpl. split; [done|]. rewrite Hrows.
  by destruct (ChartEstadistico.aggregates payload) as [[]|].
Qed.

(** X29.  The traffic chart asks for both toll stations at once.  When one
    of the two responses is not [ok], no body is read and the chart
    shows [Error <status>] with the status of the CONGOMA response if
    that one failed, of the LOS ANGELES response otherwise; it keeps
    its rows. *)
Theorem transito_reports_failed_status f (w : World) ms1 r1 ms2 r2 rest :
  cleanup_at w = None →
  network w = (ms1, Fulfilled r1) :: (ms2, Fulfilled r2) :: rest →
  ok r1 = false ∨ ok r2 = false →
  events (run (ChartTransito.fetchData combine f) (start w)) =
    [EvSet (SetLoading true);
     EvFetch {| req_url := ChartTransito.urlConoma f; req_init := no_init |};
     EvFetch {| req_url := ChartTransito.urlLosAngeles f; req_init := no_init |};
     EvSet (SetError (Some ("Error " +:+
                            String_of_Z (if ok r1 then status r2 else status r1))));
     EvSet (SetLoading false)].
Proof.
  intros Hc Hn Hok. unfold ChartTransito.fetchData.
  destruct (ok r1) eqn:E1; [destruct Hok as [?|E2]; [done|]|]; answer; done.
Qed.

(** X30.  The temporal report shows the status text of a response that is
    not [ok], not its status code, and caches nothing. *)
Theorem temporal_reports_status_text f (w : World) ms r rest :
  storage w !! ChartTemporal.cacheKey f = None → cleanup_at w = None →
  network w = (ms, Fulfilled r) :: rest → ok r = false →
  let result := run (ChartTemporal.fetchData f) (start w) in
  events result =
    [EvSet (SetLoading true); EvSet (SetError None);
     EvFetch {| req_url := ChartTemporal.url f; req_init := no_init |};
     EvSet (SetError (Some ("Error al cargar datos: " +:+ statusText r)));
     EvSet (SetLoading false)] ∧
  storage (final result) = storage w.
Proof.
  intros Hmiss Hc Hn Hok. cbv zeta.
  unfold ChartTemporal.fetchData, ChartTemporal.fetchTemporalAggregates,
    ChartTemporal.getCachedData.
  answer; done.
Qed.

End Answers.

(** ** More on the response caches *)

Section CacheMore.
Context {U : Type} `{Platform}.

(** Splits every case of a cache function. *)
Ltac cache_cases :=
  autounfold with async; simpl;
  repeat match goal with
    | |- context [match ?x with _ => _ end] => destruct x eqn:?; simpl
    end.

(** X10.  Writing to a cache never throws and shows nothing: the entry is
    stored when the storage has room, and the storage stays as it is
    when [setItem] fails. *)
Theorem setCachedData_swallows_storage_errors key payload aggregates (w : World) :
  let stores (r : Run U unit) k text :=
    out r = Returned tt ∧ events r = [] ∧
    storage (final r) =
      if (storage_size (<[k := text]> (storage w)) <=? quota w)%nat
      then <[k := text]> (storage w) else storage w in
  stores (run (ChartEstadistico.setCachedData key payload) w)
         (ChartEstadistico.CACHE_PREFIX +:+ key)
         (JSON_stringify (ChartEstadistico.cache_entry payload (clock w))) ∧
  stores (run (ChartCabinas.setCachedData key aggregates) w)
         (ChartCabinas.CACHE_PREFIX +:+ key)
         (JSON_stringify (ChartCabinas.cache_entry aggregates (clock w))) ∧
  stores (run (ChartTemporal.setCachedData key aggregates) w)
         key
         (JSON_stringify (ChartTemporal.cache_entry aggregates (clock w))).
Proof.
  cbv zeta.
  unfold ChartEstadistico.setCachedData, ChartCabinas.setCachedData,
    ChartTemporal.setCachedData.
  repeat split; simpl; by destruct (_ <=? _)%nat.
Qed.

Lemma estadistico_getCachedData_total key (w : World) :
  let r := run (ChartEstadistico.getCachedData (U := U) key) w in
  let k := ChartEstadistico.CACHE_PREFIX +:+ key in
  (∃ v, out r = Returned v) ∧ events r = [] ∧
  (storage (final r) = storage w ∨ storage (final r) = delete k (storage w)) ∧
  (storage w !! k = None → out r = Returned None ∧ final r = w) ∧
  (∀ cached, storage w !! k = Some cached → JSON_parse cached = None →
             out r = Returned None ∧ final r = w).
Proof.
  cbv zeta. unfold ChartEstadistico.getCachedData.
  split; [|split; [|split; [|split]]].
  - cache_cases; eauto.
  - cache_cases; eauto.
  - cache_cases; eauto.
  - intros Hmiss. autounfold with async; simpl. rewrite Hmiss. by destruct w.
  - intros cached Hget Hbad. autounfold with async; simpl. rewrite Hget. simpl. rewrite Hbad.
    destruct (Js.truthy cached); by destruct w.
Qed.

Lemma cabinas_getCachedData_total key (w : World) :
  let r := run (ChartCabinas.getCachedData (U := U) key) w in
  let k := ChartCabinas.CACHE_PREFIX +:+ key in
  (∃ v, out r = Returned v) ∧ events r = [] ∧
  (storage (final r) = storage w ∨ storage (final r) = delete k (storage w)) ∧
  (storage w !! k = None → out r = Returned JNull ∧ final r = w) ∧
  (∀ cached, storage w !! k = Some cached → JSON_parse cached = None →
             out r = Returned JNull ∧ final r = w).
Proof.
  cbv zeta. unfold ChartCabinas.getCachedData.
  split; [|split; [|split; [|split]]].
  - cache_cases; eauto.
  - cache_cases; eauto.
  - cache_cases; eauto.
  - intros Hmiss. autounfold with async; simpl. rewrite Hmiss. by destruct w.
  - intros cached Hget Hbad. autounfold with async; simpl. rewrite Hget. simpl. rewrite Hbad.
    destruct (Js.truthy cached); by destruct w.
Qed.

Lemma temporal_getCachedData_total k (w : World) :
  let r := run (ChartTemporal.getCachedData (U := U) k) w in
  (∃ v, out r = Returned v) ∧ events r = [] ∧
  (storage (final r) = storage w ∨ storage (final r) = delete k (storage w)) ∧
  (storage w !! k = None → out r = Returned JNull ∧ final r = w) ∧
  (∀ cached, storage w !! k = Some cached → JSON_parse cached = None →
             out r = Returned JNull ∧ final r = w).
Proof.
  cbv zeta. unfold ChartTemporal.getCachedData.
  split; [|split; [|split; [|split]]].
  - cache_cases; eauto.
  - cache_cases; eauto.
  - cache_cases; eauto.
  - intros Hmiss. autounfold with async; simpl. rewrite Hmiss. by destruct w.
  - intros cached Hget Hbad. autounfold with async; simpl. rewrite Hget. simpl. rewrite Hbad.
    destruct (Js.truthy cached); by destruct w.
Qed.

(** X11.  Reading a cache never throws and shows nothing, whatever the storage
    holds; the only change it makes to the storage is to remove the
    entry under its own key.  A key that is absent, and a text that
    does not parse, read as [null] and leave the storage as it is: a
    corrupt entry is not removed. *)
Theorem getCachedData_never_throws key (w : World) :
  let reads {A} (r : Run U A) (k : string) (null : A) :=
    (∃ v, out r = Returned v) ∧ events r = [] ∧
    (storage (final r) = storage w ∨ storage (final r) = delete k (storage w)) ∧
    (storage w !! k = None → out r = Returned null ∧ final r = w) ∧
    (∀ cached, storage w !! k = Some cached → JSON_parse cached = None →
               out r = Returned null ∧ final r = w) in
  reads (run (ChartEstadistico.getCachedData key) w)
        (ChartEstadistico.CACHE_PREFIX +:+ key) None ∧
  reads (run (ChartCabinas.getCachedData key) w)
        (ChartCabinas.CACHE_PREFIX +:+ key) JNull ∧
  reads (run (ChartTemporal.getCachedData key) w) key JNull.
Proof.
  cbv zeta. split; [|split].
  - apply estadistico_getCachedData_total.
  - apply cabinas_getCachedData_total.
  - apply temporal_getCachedData_total.
Qed.

Lemma append_injective (p a b : string) : p +:+ a = p +:+ b → a = b.
Proof. induction p as [|c p IH]; simpl; [done|]. intros E. injection E as E. auto. Qed.

(** What a read returns depends on the clock and on the text under
    its key alone. *)
Lemma estadistico_getCachedData_reads key (w1 w2 : World) :
  storage w1 !! (ChartEstadistico.CACHE_PREFIX +:+ key)
  = storage w2 !! (ChartEstadistico.CACHE_PREFIX +:+ key) →
  clock w1 = clock w2 →
  out (run (ChartEstadistico.getCachedData (U := U) key) w1)
  = out (run (ChartEstadistico.getCachedData (U := U) key) w2).
Proof.
  intros Hs Hc. unfold ChartEstadistico.getCachedData. autounfold with async. simpl.
  rewrite Hs.
  repeat (rewrite ?Hc;
          match goal with
          | |- context [match ?x with _ => _ end] => destruct x eqn:?; simpl
          end); done.
Qed.

Lemma cabinas_getCachedData_reads key (w1 w2 : World) :
  storage w1 !! (ChartCabinas.CACHE_PREFIX +:+ key)
  = storage w2 !! (ChartCabinas.CACHE_PREFIX +:+ key) →
  clock w1 = clock w2 →
  out (run (ChartCabinas.getCachedData (U := U) key) w1)
  = out (run (ChartCabinas.getCachedData (U := U) key) w2).
Proof.
  intros Hs Hc. unfold ChartCabinas.getCachedData. autounfold with async. simpl.
  rewrite Hs.
  repeat (rewrite ?Hc;
          match goal with
          | |- context [match ?x with _ => _ end] => destruct x eqn:?; simpl
          end); done.
Qed.

(** X12.  Entries under different keys do not disturb each other: a write for
    one key leaves what a read for another key returns unchanged. *)
Theorem cache_keys_are_independent key other payload aggregates (w : World) :
  key ≠ other →
  out (run (ChartEstadistico.getCachedData (U := U) other)
         (final (run (ChartEstadistico.setCachedData (U := U) key payload) w)))
  = out (run (ChartEstadistico.getCachedData (U := U) other) w) ∧
  out (run (ChartCabinas.getCachedData (U := U) other)
         (final (run (ChartCabinas.setCachedData (U := U) key aggregates) w)))
  = out (run (ChartCabinas.getCachedData (U := U) other) w).
Proof.
  intros Hne. split.
  - apply estadistico_getCachedData_reads.
    + unfold ChartEstadistico.setCachedData. simpl.
      destruct (_ <=? _)%nat; simpl; [|done].
      apply lookup_insert_ne. intros E. by apply append_injective in E.
    + unfold ChartEstadistico.setCachedData. simpl. by destruct (_ <=? _)%nat.
  - apply cabinas_getCachedData_reads.
    + unfold ChartCabinas.setCachedData. simpl.
      destruct (_ <=? _)%nat; simpl; [|done].
      apply lookup_insert_ne. intros E. by apply append_injective in E.
    + unfold ChartCabinas.setCachedData. simpl. by destruct (_ <=? _)%nat.
Qed.

(** X13.  The round trip of the booth and the temporal cache: aggregates
    written under a key are read back within 30 minutes, provided the
    entry was stored, is still under its key and parses back. *)
Theorem aggregates_cache_round_trip key aggregates (w later : World) :
  let entry := JObj [("aggregates", aggregates); ("timestamp", JNum (clock w))] in
  JSON_parse (JSON_stringify entry) = Some entry →
  clock later - clock w ≤ 30 * 60 * 1000 →
  ((storage_size (<[ChartCabinas.CACHE_PREFIX +:+ key := JSON_stringify entry]> (storage w))
    ≤ quota w)%nat →
   storage later !! (ChartCabinas.CACHE_PREFIX +:+ key)
   = storage (final (run (ChartCabinas.setCachedData (U := U) key aggregates) w))
     !! (ChartCabinas.CACHE_PREFIX +:+ key) →
   out (run (ChartCabinas.getCachedData (U := U) key) later) = Returned aggregates) ∧
  ((storage_size (<[ChartTemporal.getCacheKey key := JSON_stringify entry]> (storage w))
    ≤ quota w)%nat →
   storage later !! ChartTemporal.getCacheKey key
   = storage (final (run (ChartTemporal.setCachedData (U := U)
                            (ChartTemporal.getCacheKey key) aggregates) w))
     !! ChartTemporal.getCacheKey key →
   out (run (ChartTemporal.getCachedData (U := U) (ChartTemporal.getCacheKey key)) later)
   = Returned aggregates).
Proof.
  cbv zeta. intros Hcodec Hsoon. split; intros Hroom Hsame; apply Nat.leb_le in Hroom.
  - unfold ChartCabinas.setCachedData in Hsame. simpl in Hsame.
    unfold ChartCabinas.cache_entry in Hsame. rewrite Hroom in Hsame. simpl in Hsame. rewrite lookup_insert_eq in Hsame.
    destruct (cabinas_getCachedData_entry (U := U) key _ _ (clock w) later Hsame Hcodec eq_refl)
      as [_ Hyoung].
    destruct (Hyoung Hsoon) as [-> _]. simpl. by destruct aggregates.
  - unfold ChartTemporal.getCacheKey in *.
    unfold ChartTemporal.setCachedData in Hsame. simpl in Hsame.
    unfold ChartTemporal.cache_entry in Hsame. rewrite Hroom in Hsame. simpl in Hsame. rewrite lookup_insert_eq in Hsame.
    destruct (temporal_getCachedData_entry (U := U) key _ _ (clock w) later Hsame Hcodec eq_refl)
      as [_ Hyoung].
    destruct (Hyoung Hsoon) as [Hout _]. etrans; [exact Hout|]. simpl. by destruct aggregates.
Qed.

End CacheMore.

(** ** The paths of the login handler *)

Section LoginPaths.
Context `{Platform}.
Import LoginForm.

Lemma run_mbind {U A B} (m : Async U A) (f : A → Async U B) (w : World) :
  run (m ≫= f) w =
  match out (run m w) with
  | Returned a => after_events (events (run m w)) (run (f a) (final (run m w)))
  | Threw e => {| out := Threw e; final := final (run m w); events := events (run m w) |}
  end.
Proof. apply run_bind. Qed.

Lemma login_call_run usuario clave (w : World) :
  run (await_call (Api.apiFetch (U := LoginUpdate) "/auth/login" (login_options usuario clave))) w =
  let request := Api.original "/auth/login" (login_options usuario clave) in
  let '(x, w1) := send request w in
  let '(w2, c) := suspend w1 in
  let '(w3, c') := suspend w2 in
  {| out := match x with Fulfilled a => Returned a | Rejected e => Threw e end;
     final := w3; events := EvFetch request :: c ++ c' |}.
Proof.
  unfold await_call. rewrite run_try_finally. cbv zeta.
  unfold Api.apiFetch. rewrite run_fetch. cbv zeta.
  unfold Api.original.
  destruct (send _ w) as [[response|e] w1]. 
  - destruct (suspend w1) as [w2 c] eqn:E1.
    replace (negb (status response =? 401) || _) with true.
    2:{ unfold Api.shouldSkipRefresh. simpl. by rewrite orb_true_r. }
    simpl. destruct (suspend w2) as [w3 c0]. simpl. by rewrite !app_nil_r.
  - destruct (suspend w1) as [w2 c] eqn:E1. simpl.
    destruct (suspend w2) as [w3 c']. simpl. by rewrite ?app_nil_r.
Qed.

Lemma updates_suspend {U} (w : World) : updates (U := U) (suspend w).2 = [].
Proof. unfold suspend. by destruct (cleanup_at w) as [[|n]|]. Qed.

Lemma handleSubmit_sends (formData : gmap string FormDataEntryValue) (w : World) :
  let usuario := Js.trim (String_or_empty (formData !! "usuario")) in
  let clave := Js.trim (String_or_empty (formData !! "clave")) in
  usuario ≠ "" → clave ≠ "" →
  run (handleSubmit formData) w =
  after_events [EvSet PreventDefault; EvSet (SetError None); EvSet (SetSuccess false);
                EvSet (SetLoading true)]
    (run (try_finally
            (try_catch
               (response ← await_call (Api.apiFetch "/auth/login" (login_options usuario clave));
                if negb (ok response)
                then
                  if (status response =? 401) || (status response =? 400)
                  then Throw (JsError "Usuario o clave incorrectos.")
                  else Throw (JsError "No se pudo iniciar sesion. Intenta nuevamente.")
                else
                  set (SetSuccess true);;
                  set (RedirectAfter 700 "/dashboard"))
               (fun err => set (SetError (Some (message_or "Error al iniciar sesion" err)))))
            (set (SetLoading false))) w).
Proof.
  cbv zeta. intros Hu Hc. unfold handleSubmit.
  apply truthy_nonempty in Hu, Hc.
  change (run (set PreventDefault;; ?m) w) with (after_events [EvSet PreventDefault] (run m w)).
  rewrite Hu, Hc. simpl negb. cbv iota. simpl orb. cbv iota.
  reflexivity.
Qed.

(** A submit with both fields filled in, against any network. *)
Lemma handleSubmit_run (formData : gmap string FormDataEntryValue) (w : World) :
  let usuario := Js.trim (String_or_empty (formData !! "usuario")) in
  let clave := Js.trim (String_or_empty (formData !! "clave")) in
  usuario ≠ "" → clave ≠ "" →
  let r := run (handleSubmit formData) w in
  requests (events r) = [Api.original "/auth/login" (login_options usuario clave)] ∧
  out r = Returned tt ∧
  updates (events r) =
    [PreventDefault; SetError None; SetSuccess false; SetLoading true]
    ++ match network w with
       | (_, Fulfilled response) :: _ =>
           if ok response then [SetSuccess true; RedirectAfter 700 "/dashboard"]
           else [SetError (Some (if (status response =? 401) || (status response =? 400)
                                 then "Usuario o clave incorrectos."
                                 else "No se pudo iniciar sesion. Intenta nuevamente."))]
       | (_, Rejected e) :: _ => [SetError (Some (message_or "Error al iniciar sesion" e))]
       | [] => [SetError (Some "Failed to fetch")]
       end
    ++ [SetLoading false].
Proof.
  cbv zeta. intros Hu Hc. rewrite handleSubmit_sends by done.
  rewrite run_try_finally, run_try_catch, run_mbind, login_call_run. cbv zeta.
  rewrite send_network.
  pose proof (requests_suspend (U := LoginUpdate)) as Hr.
  pose proof (updates_suspend (U := LoginUpdate)) as Hup.
  destruct (network w) as [|[ms [response|e]] rest].
  all: match goal with |- context [suspend ?x] =>
    pose proof (Hr x) as Hr1; pose proof (Hup x) as Hu1;
    destruct (suspend (U := LoginUpdate) x) as [w2 c] end.
  all: pose proof (Hr w2) as Hr2; pose proof (Hup w2) as Hu2;
    destruct (suspend (U := LoginUpdate) w2) as [w3 c'].
  all: simpl in Hr1, Hr2, Hu1, Hu2; cbn [out final events].
  2: destruct (ok response); simpl negb; cbv iota;
    [|destruct ((status response =? 401) || (status response =? 400))].
  all: unfold after_events; simpl;
    repeat (rewrite ?requests_app, ?updates_app, ?Hr1, ?Hr2, ?Hu1, ?Hu2; simpl); done.
Qed.

(** X15.  An answered login: one request goes to [/auth/login] and none to
    [/auth/refresh], whatever the status.  A response that is [ok]
    shows the success notice and schedules the redirect to
    [/dashboard] after 700 ms; a 401 or a 400 shows that user or
    password are wrong, any other status the general message.
    [loading] is switched off last in every case and the handler does
    not throw. *)
Theorem handleSubmit_answered
    (formData : gmap string FormDataEntryValue) (w : World) ms response rest :
  let usuario := Js.trim (String_or_empty (formData !! "usuario")) in
  let clave := Js.trim (String_or_empty (formData !! "clave")) in
  usuario ≠ "" → clave ≠ "" →
  network w = (ms, Fulfilled response) :: rest →
  let r := run (handleSubmit formData) w in
  requests (events r) = [Api.original "/auth/login" (login_options usuario clave)] ∧
  out r = Returned tt ∧
  updates (events r) =
    [PreventDefault; SetError None; SetSuccess false; SetLoading true]
    ++ (if ok response then [SetSuccess true; RedirectAfter 700 "/dashboard"]
        else [SetError (Some (if (status response =? 401) || (status response =? 400)
                              then "Usuario o clave incorrectos."
                              else "No se pudo iniciar sesion. Intenta nuevamente."))])
    ++ [SetLoading false].
Proof.
  cbv zeta. intros Hu Hc Hn.
  destruct (handleSubmit_run formData w Hu Hc) as (Hsent & Hout & Hup).
  by rewrite Hn in Hup.
Qed.

(** X16.  A login request that fails on the network: the message of the
    error is shown, no success notice and no redirect follow, and
    [loading] is switched off. *)
Theorem handleSubmit_failed_request
    (formData : gmap string FormDataEntryValue) (w : World) (e : exn) :
  let usuario := Js.trim (String_or_empty (formData !! "usuario")) in
  let clave := Js.trim (String_or_empty (formData !! "clave")) in
  usuario ≠ "" → clave ≠ "" →
  (network w = [] ∧ e = JsError "Failed to fetch") ∨
  (∃ ms rest, network w = (ms, Rejected e) :: rest) →
  let r := run (handleSubmit formData) w in
  requests (events r) = [Api.original "/auth/login" (login_options usuario clave)] ∧
  out r = Returned tt ∧
  updates (events r) =
    [PreventDefault; SetError None; SetSuccess false; SetLoading true;
     SetError (Some (message_or "Error al iniciar sesion" e)); SetLoading false].
Proof.
  cbv zeta. intros Hu Hc Hn.
  destruct (handleSubmit_run formData w Hu Hc) as (Hsent & Hout & Hup).
  destruct Hn as [[Hn ->]|(ms & rest & Hn)]; by rewrite Hn in Hup.
Qed.

(** X17.  What the form shows after a submit with both fields filled in,
    from any state and against any network: [loading] is off; the
    success notice is shown exactly when the login was answered with
    an [ok] response, and exactly when no error is shown. *)
Theorem handleSubmit_final_state
    (formData : gmap string FormDataEntryValue) (w : World) (s : LoginState) :
  Js.trim (String_or_empty (formData !! "usuario")) ≠ "" →
  Js.trim (String_or_empty (formData !! "clave")) ≠ "" →
  let r := run (handleSubmit formData) w in
  let s' := fold_left apply_update (updates (events r)) s in
  loading s' = false ∧
  (success s' = true ↔
   ∃ ms response rest, network w = (ms, Fulfilled response) :: rest ∧ ok response = true) ∧
  (success s' = true ↔ error s' = None).
Proof.
  cbv zeta. intros Hu Hc.
  destruct (handleSubmit_run formData w Hu Hc) as (_ & _ & ->).
  destruct (network w) as [|[ms [response|e]] rest] eqn:Hn.
  - simpl. repeat split; try done. intros (? & ? & ? & ? & _). done.
  - destruct (ok response) eqn:Hok; simpl; repeat split; try done.
    + intros _. eauto.
    + intros (? & ? & ? & ? & ?). congruence.
  - simpl. repeat split; try done. intros (? & ? & ? & ? & _). done.
Qed.
End LoginPaths.

(** ** More on the middleware and on the computed KPIs *)

Section MiddlewareMore.
Import Middleware.

(** X18.  The middleware redirects to [/login] only, and only a request
    that is not public and carries no session; the page it redirects
    to is passed on whatever the cookies are, so that a redirect is
    never followed by another one. *)
Theorem onRequest_redirect_is_final (ctx : APIContext) (location : string) :
  onRequest ctx = Redirect location →
  location = "/login" ∧ ¬ public (pathname ctx) ∧ isAuthed ctx = false ∧
  ∀ jar, onRequest {| pathname := location; cookies := jar |} = Next.
Proof.
  unfold onRequest. intros Hr.
  destruct (_ || PUBLIC_FILE_test (pathname ctx)) eqn:Hpub; [done|].
  destruct (isAuthed ctx) eqn:Hauth; [done|]. simpl in Hr. injection Hr as <-.
  repeat split; try done.
  intros Hp. apply public_guard in Hp. congruence.
Qed.

End MiddlewareMore.

Section KpiMore.
Import PrimFloat ChartEstadisticoKpis.
Local Open Scope float_scope.

(** X20.  Which rows each KPI reads.  A row whose payment form starts with
    [RFID] without being one of [RFID 0 %], [RFID 50 %] and
    [RFID 100 %] is read by none of the five KPIs.  A row of
    [RFID 0 %] or [RFID 50 %] adds income only: it is not among the
    vehicles that the counts and the percentage are taken from.  A
    row of any form other than [EFEC.], [RFID 0 %] and [RFID 50 %]
    adds no income, whatever amounts it carries. *)
Theorem computedKpis_row_kinds (before after : list EstadisticoRow) (row : EstadisticoRow) :
  let kind := FORMA_DE_PAGO row in
  let with_row := computedKpis (before ++ row :: after) in
  let without := computedKpis (before ++ after) in
  (Js.startsWith kind "RFID" = true →
   kind ≠ "RFID 0 %" → kind ≠ "RFID 50 %" → kind ≠ "RFID 100 %" →
   with_row = without) ∧
  (kind = "RFID 0 %" ∨ kind = "RFID 50 %" →
   vehiculosEfec with_row = vehiculosEfec without ∧
   vehiculosExentos with_row = vehiculosExentos without ∧
   vehiculosRfid100 with_row = vehiculosRfid100 without ∧
   porcentajeExentos with_row = porcentajeExentos without) ∧
  (kind ≠ "EFEC." → kind ≠ "RFID 0 %" → kind ≠ "RFID 50 %" →
   ingresoTotal with_row = ingresoTotal without).
Proof.
  cbv zeta. unfold computedKpis, efec, rfid0, rfid50, rfid100, exentos.
  rewrite !List.filter_app. cbn [List.filter]. split; [|split].
  - intros Hrfid H0 H50 H100. rewrite Hrfid.
    apply String.eqb_neq in H0, H50, H100. rewrite H0, H50, H100.
    destruct (String.eqb (FORMA_DE_PAGO row) "EFEC.") eqn:E.
    { apply String.eqb_eq in E. rewrite E in Hrfid. discriminate. }
    done.
  - intros [E|E]; rewrite E; simpl; done.
  - intros He H0 H50. apply String.eqb_neq in He, H0, H50. by rewrite He, H0, H50.
Qed.

End KpiMore.

(** ** The session check, the logout and the welcome notice *)

Section QuietFacts.
Context {U : Type} `{Platform}.

Lemma quiet_run {A} (m : Async U A) (w : World) :
  quiet m → updates (events (run m w)) = [].
Proof.
  revert w. induction m as [a|e|a k IH]; intros w Hq; [done|done|].
  simpl in Hq. destruct Hq as [Ha Hk]. simpl.
  destruct (perform a w) as [[r w'] es] eqn:E. simpl.
  rewrite updates_app, (IH r w' (Hk r)), app_nil_r.
  destruct a; simpl in E; try done.
  - destruct (send r0 w) as [x w1]. pose proof (updates_suspend (U := U) w1) as Hs.
    destruct (suspend w1) as [w2 c]. injection E as <- <- <-. done.
  - destruct (send r1 w) as [x w1]. destruct (send r2 w1) as [y w2].
    pose proof (updates_suspend (U := U) w2) as Hs.
    destruct (suspend w2) as [w3 c]. injection E as <- <- <-. done.
  - pose proof (updates_suspend (U := U) w) as Hs.
    destruct (suspend w) as [w3 c]. injection E as <- <- <-. done.
  - pose proof (updates_suspend (U := U) w) as Hs.
    destruct (suspend w) as [w3 c]. injection E as <- <- <-. done.
  - pose proof (updates_suspend (U := U) w) as Hs.
    destruct (suspend w) as [w3 c]. injection E as <- <- <-. done.
  - by injection E as <- <- <-.
  - by injection E as <- <- <-.
  - by injection E as <- <- <-.
  - destruct (_ <=? _)%nat; by injection E as <- <- <-.
  - by injection E as <- <- <-.
Qed.

Lemma apiFetch_quiet pathOrUrl options : quiet (Api.apiFetch (U := U) pathOrUrl options).
Proof.
  unfold Api.apiFetch. simpl. split; [done|]. intros [first|e]; simpl; [|done].
  destruct (negb _ || _); simpl; [done|]. split; [done|].
  intros [second|e]; simpl; [|done].
  destruct (negb (ok second)); simpl; [done|]. split; [done|]. by intros [third|e].
Qed.

(** An awaited call of [apiFetch]: the outcome and the requests are
    those of [apiFetch], and no state is set. *)
Lemma await_apiFetch pathOrUrl options (w : World) :
  let call := run (Api.apiFetch (U := U) pathOrUrl options) w in
  let r := run (await_call (Api.apiFetch (U := U) pathOrUrl options)) w in
  out r = out call ∧ requests (events r) = requests (events call) ∧
  updates (events r) = [].
Proof.
  cbv zeta. unfold await_call. rewrite run_try_finally. cbv zeta.
  pose proof (quiet_run _ w (apiFetch_quiet pathOrUrl options)) as Hq.
  destruct (run (Api.apiFetch pathOrUrl options) w) as [o w1 es]. simpl in Hq. simpl.
  pose proof (requests_suspend (U := U) w1) as Hr.
  pose proof (updates_suspend (U := U) w1) as Hu.
  destruct (suspend w1) as [w' c]. simpl in *.
  by rewrite !requests_app, !updates_app, Hq, Hr, Hu, !app_nil_r.
Qed.

End QuietFacts.

Section SessionFacts.
Context `{Platform}.
Import SidebarLayout.

(** X21.  The session check against any network.  It sends what
    [apiFetch] sends for [/auth/me] and never throws.  With an [ok]
    response in the end the page stays; with any other response, or
    when a request fails, the browser is sent to [/login].  In both
    cases [validating] is switched off, once. *)
Theorem ensureSession_keeps_or_redirects (w : World) :
  let call := run (Api.apiFetch (U := LayoutUpdate) "/auth/me" Api.no_options) w in
  let r := run ensureSession w in
  out r = Returned tt ∧
  requests (events r) = requests (events call) ∧
  updates (events r) =
    match out call with
    | Returned me =>
        if ok me then [SetValidating false]
        else [SetValidating false; Navigate "/login"]
    | Threw _ => [SetValidating false; Navigate "/login"]
    end.
Proof.
  cbv zeta. unfold ensureSession.
  destruct (await_apiFetch (U := LayoutUpdate) "/auth/me" Api.no_options w)
    as (Hout & Hreq & Hup). cbv zeta in Hout, Hreq, Hup.
  rewrite run_mbind, run_try_catch, run_mbind.
  destruct (run (await_call (Api.apiFetch "/auth/me" Api.no_options)) w) as [o w1 es].
  cbn [out events] in Hout, Hreq, Hup. rewrite <- Hout, <- Hreq.
  destruct o as [me|e]; simpl; [destruct (ok me)|]; simpl;
    rewrite ?requests_app, ?updates_app, ?Hup; simpl; by rewrite ?app_nil_r.
Qed.

(** X22.  Logging out always ends on [/login]: one request goes to
    [/auth/logout], none to [/auth/refresh] whatever the answer is,
    and the browser is sent to [/login] also when the request
    fails, in which case the handler throws what [fetch] threw. *)
Theorem handleLogout_always_leaves (w : World) :
  let r := run handleLogout w in
  requests (events r) = [Api.original "/auth/logout" logout_options] ∧
  updates (events r) = [Navigate "/login"] ∧
  out r = match network w with
          | (_, Fulfilled _) :: _ => Returned tt
          | (_, Rejected e) :: _ => Threw e
          | [] => Threw (JsError "Failed to fetch")
          end.
Proof.
  cbv zeta. unfold handleLogout.
  destruct (await_apiFetch (U := LayoutUpdate) "/auth/logout" logout_options w)
    as (Hout & Hreq & Hup). cbv zeta in Hout, Hreq, Hup.
  destruct (apiFetch_excluded (U := LayoutUpdate) "/auth/logout" logout_options w)
    as [Hsent Hcall]; [by left|]. cbv zeta in Hsent, Hcall.
  rewrite run_try_finally. cbv zeta. change (?m;; mret tt) with (m ≫= λ _, mret tt).
  rewrite run_mbind.
  destruct (run (await_call (Api.apiFetch "/auth/logout" logout_options)) w) as [o w1 es].
  cbn [out events] in Hout, Hreq, Hup. rewrite <- Hsent, <- Hreq.
  rewrite Hcall in Hout.
  destruct (network w) as [|[ms [first|e]] rest]; subst o; simpl;
    rewrite ?requests_app, ?updates_app, ?Hup; simpl; by rewrite ?app_nil_r.
Qed.

End SessionFacts.

Section WelcomeFacts.
Context `{Platform}.
Import DashboardWelcome.

Lemma displayName_first_truthy (payload : json) (user : option json) :
  displayName payload user =
  first_truthy [optional user "nombre"; optional user "usuario";
                prop payload "nombre"; prop payload "usuario"].
Proof.
  unfold displayName, or, first_truthy.
  destruct (truthy (optional user "nombre")) eqn:E1;
    [by rewrite ?E1|].
  destruct (truthy (optional user "usuario")) eqn:E2;
    [by rewrite ?E2|].
  destruct (truthy (prop payload "nombre")) eqn:E3;
    [by rewrite ?E3|].
  destruct (truthy (prop payload "usuario")) eqn:E4;
    [by rewrite ?E4|done].
Qed.

Lemma first_truthy_null_or_truthy (candidates : list (option json)) :
  first_truthy candidates = JNull ∨ truthy (Some (first_truthy candidates)) = true.
Proof.
  induction candidates as [|c rest IH]; simpl; [by left|].
  destruct (truthy c) eqn:E; [|done]. right. by destruct c.
Qed.

(** [loadUser] against any network, by the outcome of its call of
    [apiFetch]. *)
Lemma loadUser_run (w : World) :
  let call := run (Api.apiFetch (U := WelcomeUpdate) "/auth/me" Api.no_options) w in
  let r := run loadUser w in
  out r = Returned tt ∧
  requests (events r) = requests (events call) ∧
  updates (events r) =
    match out call with
    | Returned response =>
        if ok response then
          match JSON_parse (res_body response) with
          | Some JNull | None => [SetLoaded true]
          | Some payload =>
              [SetNombre (displayName payload (prop payload "user")); SetLoaded true]
          end
        else [SetLoaded true]
    | Threw _ => [SetLoaded true]
    end.
Proof.
  cbv zeta. unfold loadUser.
  destruct (await_apiFetch (U := WelcomeUpdate) "/auth/me" Api.no_options w)
    as (Hout & Hreq & Hup). cbv zeta in Hout, Hreq, Hup.
  rewrite run_try_catch, run_mbind.
  destruct (run (await_call (Api.apiFetch "/auth/me" Api.no_options)) w) as [o w1 es].
  cbn [out events] in Hout, Hreq, Hup. rewrite <- Hout, <- Hreq.
  pose proof (requests_suspend (U := WelcomeUpdate) w1) as Hr.
  pose proof (updates_suspend (U := WelcomeUpdate) w1) as Hu.
  destruct o as [response|e]; simpl.
  - destruct (ok response); simpl.
    + destruct (suspend w1) as [w2 c]. simpl in Hr, Hu. unfold parse_body.
      destruct (JSON_parse (res_body response)) as [payload|]; simpl.
      * destruct payload; simpl;
          rewrite ?requests_app, ?updates_app, ?Hup, ?Hr, ?Hu; simpl;
          rewrite ?requests_app, ?updates_app, ?Hup, ?Hr, ?Hu; by rewrite ?app_nil_r.
      * rewrite ?requests_app, ?updates_app, ?Hup, ?Hr, ?Hu; simpl;
          rewrite ?requests_app, ?updates_app, ?Hup, ?Hr, ?Hu; by rewrite ?app_nil_r.
    + rewrite ?requests_app, ?updates_app, ?Hup; simpl; by rewrite ?app_nil_r.
  - rewrite ?requests_app, ?updates_app, ?Hup; simpl; by rewrite ?app_nil_r.
Qed.

(** X23.  The user's name is read from an [ok] response whose body is JSON
    other than [null]: the name set is the first truthy one of
    [user.nombre], [user.usuario], [nombre] and [usuario], and [null]
    when none is; then [loaded] is set. *)
Theorem loadUser_sets_first_name (w : World) (response : Response) (payload : json) :
  out (run (Api.apiFetch (U := WelcomeUpdate) "/auth/me" Api.no_options) w)
  = Returned response →
  ok response = true →
  JSON_parse (res_body response) = Some payload → payload ≠ JNull →
  updates (events (run loadUser w)) =
    [SetNombre (first_truthy [optional (prop payload "user") "nombre";
                              optional (prop payload "user") "usuario";
                              prop payload "nombre"; prop payload "usuario"]);
     SetLoaded true].
Proof.
  intros Hcall Hok Hparse Hnull.
  destruct (loadUser_run w) as (_ & _ & ->). rewrite Hcall, Hok, Hparse.
  rewrite <- displayName_first_truthy. by destruct payload.
Qed.


Lemma notices_shown (renders : list (bool * json)) : notices renders true = [].
Proof.
  induction renders as [|[loaded nombre] rest IH]; simpl; [done|].
  unfold welcome. by rewrite orb_true_r.
Qed.

(** X25.  The welcome notice is shown at most once however often the
    component renders: at the first render with [loaded] set, with
    the name of that render, or [Usuario] when the name is [null]. *)
Theorem welcome_notice_once (renders : list (bool * json)) :
  (length (notices renders false) ≤ 1)%nat ∧
  ∀ before nombre after,
    renders = before ++ (true, nombre) :: after →
    Forall (λ render, render.1 = false) before →
    notices renders false = [orElse (Some nombre) (JStr "Usuario")].
Proof.
  split.
  - induction renders as [|[[|] nombre] rest IH]; simpl; [lia| |done].
    rewrite notices_shown. simpl. lia.
  - intros before nombre after -> Hbefore.
    induction Hbefore as [|[loaded name] before Hl _ IH]; simpl.
    + by rewrite notices_shown.
    + simpl in Hl. subst loaded. simpl. exact IH.
Qed.

End WelcomeFacts.

(** ** The dominant payment method of the booth report *)

Section CabinasKpiFacts.
Import ChartCabinasKpis.
Local Open Scope Q_scope.

(** The largest of the three totals and 0, and the method it
    belongs to. *)
Lemma maxMetodo_largest (t : Totales) :
  let max := fold_left mayor (entries t) (EFEC, 0) in
  0 <= snd max ∧
  (∀ m, total_of m t <= snd max) ∧
  (snd max == 0 ∧ fst max = EFEC ∨ 0 < snd max ∧ snd max = total_of (fst max) t) ∧
  (fst max = RFID → t_EFEC t < t_RFID t) ∧
  (fst max = EXENTO → t_EFEC t < t_EXENTO t ∧ t_RFID t < t_EXENTO t).
Proof.
  cbv zeta. unfold mayor; simpl.
  destruct (Qlt_le_dec 0 (t_EFEC t)) as [H1|H1]; simpl;
    destruct (Qlt_le_dec _ (t_RFID t)) as [H2|H2]; simpl;
    destruct (Qlt_le_dec _ (t_EXENTO t)) as [H3|H3]; simpl.
  all: repeat split; try discriminate; try (intros []; simpl; lra); try lra.
  all: try (right; split; [lra|reflexivity]).
  all: try (left; split; [reflexivity|reflexivity]).
Qed.


End CabinasKpiFacts.

(** ** A change of a filter *)

Section FilterChanges.
Context `{Platform} (combine : json → json → settled json).

Lemma events_bind_prefix {U A B} (m : Async U A) (k : A → Async U B) (w : World) :
  ∃ post, events (run (m ≫= k) w) = events (run m w) ++ post.
Proof.
  rewrite run_mbind. destruct (out (run m w)); simpl; [eauto|].
  exists []. by rewrite app_nil_r.
Qed.

Lemma events_try_catch_prefix {U A} (m : Async U A) h (w : World) :
  ∃ post, events (run (try_catch m h) w) = events (run m w) ++ post.
Proof.
  rewrite run_try_catch. destruct (out (run m w)); simpl; [|eauto].
  exists []. by rewrite app_nil_r.
Qed.

Lemma events_try_finally_prefix {U A} (m : Async U A) fin (w : World) :
  ∃ post, events (run (try_finally m fin) w) = events (run m w) ++ post.
Proof. rewrite run_try_finally. simpl. eauto. Qed.

(** What a cache read returns depends on the storage and the clock
    alone: the effect reads what the render before it would. *)
Lemma temporal_getCachedData_reads {U} key (w1 w2 : World) :
  storage w1 !! key = storage w2 !! key → clock w1 = clock w2 →
  out (run (ChartTemporal.getCachedData (U := U) key) w1)
  = out (run (ChartTemporal.getCachedData (U := U) key) w2).
Proof.
  intros Hs Hc. unfold ChartTemporal.getCachedData.
  unfold mbind, mret, Async_bind, Async_ret, sessionStorage_getItem, Date_now,
    sessionStorage_removeItem, parse, member. simpl.
  rewrite Hs.
  repeat (rewrite ?Hc;
          match goal with
          | |- context [match ?x with _ => _ end] => destruct x eqn:?; simpl
          end); done.
Qed.


(** A read that returns [a] and shows nothing, followed by [k]. *)
Lemma run_after_read {U A B} (m : Async U A) (k : A → Async U B) (w : World) a :
  out (run m w) = Returned a → events (run m w) = [] →
  run (m ≫= k) w = run (k a) (final (run m w)).
Proof.
  intros Hout Hev. rewrite run_mbind, Hout, Hev. unfold after_events. simpl.
  by destruct (run (k a) (final (run m w))).
Qed.

Lemma requests_map_set {U} (us : list U) : requests (map EvSet us) = [].
Proof. by induction us. Qed.

(** What an effect shows begins with what its protected body shows. *)
Ltac peel :=
  repeat match goal with
    | |- context [events (run (try_finally ?m ?fin) ?w)] =>
        destruct (events_try_finally_prefix m fin w) as [? ->]
    | |- context [events (run (try_catch ?m ?h) ?w)] =>
        destruct (events_try_catch_prefix m h w) as [? ->]
    end.

(** The request that the body starts with. *)
Ltac first_request :=
  match goal with
  | |- context [events (run (fetch ?url ?init ≫= ?k) ?w)] =>
      destruct (events_bind_prefix (fetch url init) k w) as [? ->];
      unfold fetch;
      match goal with
      | |- context [events (run (Do (Fetch ?r) ?k') ?w')] =>
          destruct (events_fetch r k' w') as [? ->]
      end
  end.

Lemma ChartEstadistico_miss f (w : World) :
  out (run (U := PanelUpdate)
         (ChartEstadistico.getCachedData (ChartEstadistico.cacheKey f)) w) = Returned None →
  fetches_first chartEstadistico f w.
Proof.
  intros Hmiss.
  rewrite (estadistico_getCachedData_reads _ w (start w) eq_refl eq_refl) in Hmiss.
  destruct (estadistico_getCachedData_total (U := PanelUpdate)
              (ChartEstadistico.cacheKey f) (start w)) as (_ & Hquiet & _).
  cbv zeta in Hquiet.
  apply (fetches_first_intro _ _ _ [SetLoading true]); [done|].
  cbn [effect gets chartEstadistico map app]. unfold ChartEstadistico.fetchData.
  rewrite events_after_set.
  peel. rewrite (run_after_read _ _ _ _ Hmiss Hquiet). first_request.
  simpl. eauto.
Qed.

Lemma ChartCabinas_miss f (w : World) aggregates :
  out (run (U := PanelUpdate) (ChartCabinas.getCachedData (ChartCabinas.cacheKey f)) w)
  = Returned aggregates →
  truthy (Some aggregates) = false →
  fetches_first chartCabinas f w.
Proof.
  intros Hmiss Hnull.
  rewrite (cabinas_getCachedData_reads _ w (start w) eq_refl eq_refl) in Hmiss.
  destruct (cabinas_getCachedData_total (U := PanelUpdate)
              (ChartCabinas.cacheKey f) (start w)) as (_ & Hquiet & _).
  cbv zeta in Hquiet.
  apply (fetches_first_intro _ _ _ [SetLoading true]); [done|].
  cbn [effect gets chartCabinas map app]. unfold ChartCabinas.fetchData.
  rewrite events_after_set.
  peel. rewrite (run_after_read _ _ _ _ Hmiss Hquiet), Hnull. first_request.
  simpl. eauto.
Qed.

Lemma ChartTemporal_miss f (w : World) aggregates :
  out (run (U := PanelUpdate) (ChartTemporal.getCachedData (ChartTemporal.cacheKey f)) w)
  = Returned aggregates →
  truthy (Some aggregates) = false →
  fetches_first chartTemporal f w.
Proof.
  intros Hmiss Hnull.
  rewrite (temporal_getCachedData_reads _ w (start w) eq_refl eq_refl) in Hmiss.
  destruct (temporal_getCachedData_total (U := PanelUpdate)
              (ChartTemporal.cacheKey f) (start w)) as (_ & Hquiet & _).
  cbv zeta in Hquiet.
  apply (fetches_first_intro _ _ _ [SetLoading true; SetError None]); [done|].
  cbn [effect gets chartTemporal map app]. unfold ChartTemporal.fetchData.
  rewrite !events_after_set.
  peel.
  match goal with
  | |- context [events (run (await_call ?m ≫= ?k) ?w')] =>
      destruct (events_bind_prefix (await_call m) k w') as [? ->]
  end.
  unfold await_call. peel. unfold ChartTemporal.fetchTemporalAggregates.
  rewrite (run_after_read _ _ _ _ Hmiss Hquiet), Hnull. first_request.
  simpl. eauto.
Qed.

(** Under a miss every panel starts with status updates and its GET
    requests. *)
Lemma panels_fetch_on_miss (p : Panel) f (w : World) :
  p ∈ panels combine → ¬ answers_from_cache p f w → fetches_first p f w.
Proof.
  unfold panels. rewrite !elem_of_cons, elem_of_nil.
  intros [->|[->|[->|[->|[->|[->|[->|[->|[->|[]]]]]]]]]] Hmiss.
  - destruct (estadistico_getCachedData_total (U := PanelUpdate)
                (ChartEstadistico.cacheKey f) w) as ([[payload|] Hout] & _).
    + exfalso. apply Hmiss. left. eauto.
    + by apply ChartEstadistico_miss.
  - destruct (cabinas_getCachedData_total (U := PanelUpdate)
                (ChartCabinas.cacheKey f) w) as ([aggregates Hout] & _).
    destruct (truthy (Some aggregates)) eqn:Htruthy.
    + exfalso. apply Hmiss. right. left. eauto.
    + by apply (ChartCabinas_miss f w aggregates).
  - destruct (temporal_getCachedData_total (U := PanelUpdate)
                (ChartTemporal.cacheKey f) w) as ([aggregates Hout] & _).
    destruct (truthy (Some aggregates)) eqn:Htruthy.
    + exfalso. apply Hmiss. right. right. eauto.
    + by apply (ChartTemporal_miss f w aggregates).
  - apply TableFacturacion_fetches.
  - apply TableFacturacionRango_fetches.
  - apply ChartRadialStacked_fetches.
  - apply ChartRadialStackedRango_fetches.
  - apply ChartAreaInteractive_fetches.
  - apply ChartTransito_fetches.
Qed.

(** Evaluates what follows a cache read that was answered. *)
Ltac after_hit Hhit Hquiet :=
  rewrite (run_after_read _ _ _ _ Hhit Hquiet);
  match goal with
  | |- context [final (run ?m ?w)] => generalize (final (run m w)); intros w'
  end.

Lemma ChartEstadistico_hit f (w : World) payload :
  out (run (U := PanelUpdate)
         (ChartEstadistico.getCachedData (ChartEstadistico.cacheKey f)) w)
  = Returned (Some payload) →
  requests (events (run (ChartEstadistico.fetchData f) (start w))) = [].
Proof.
  intros Hhit.
  rewrite (estadistico_getCachedData_reads _ w (start w) eq_refl eq_refl) in Hhit.
  destruct (estadistico_getCachedData_total (U := PanelUpdate)
              (ChartEstadistico.cacheKey f) (start w)) as (_ & Hquiet & _).
  cbv zeta in Hquiet.
  unfold ChartEstadistico.fetchData. rewrite events_after_set.
  rewrite run_try_finally, run_try_catch. after_hit Hhit Hquiet.
  simpl. destruct (mounted w'); simpl; by destruct (mounted w').
Qed.

Lemma ChartCabinas_hit f (w : World) aggregates :
  out (run (U := PanelUpdate) (ChartCabinas.getCachedData (ChartCabinas.cacheKey f)) w)
  = Returned aggregates →
  truthy (Some aggregates) = true →
  requests (events (run (ChartCabinas.fetchData f) (start w))) = [].
Proof.
  intros Hhit Htruthy.
  rewrite (cabinas_getCachedData_reads _ w (start w) eq_refl eq_refl) in Hhit.
  destruct (cabinas_getCachedData_total (U := PanelUpdate)
              (ChartCabinas.cacheKey f) (start w)) as (_ & Hquiet & _).
  cbv zeta in Hquiet.
  unfold ChartCabinas.fetchData. rewrite events_after_set.
  rewrite run_try_finally, run_try_catch. after_hit Hhit Hquiet.
  rewrite Htruthy. simpl. destruct (mounted w'); simpl; by destruct (mounted w').
Qed.

Lemma ChartTemporal_hit f (w : World) aggregates :
  out (run (U := PanelUpdate) (ChartTemporal.getCachedData (ChartTemporal.cacheKey f)) w)
  = Returned aggregates →
  truthy (Some aggregates) = true →
  requests (events (run (ChartTemporal.fetchData f) (start w))) = [].
Proof.
  intros Hhit Htruthy.
  rewrite (temporal_getCachedData_reads _ w (start w) eq_refl eq_refl) in Hhit.
  destruct (temporal_getCachedData_total (U := PanelUpdate)
              (ChartTemporal.cacheKey f) (start w)) as (_ & Hquiet & _).
  cbv zeta in Hquiet.
  unfold ChartTemporal.fetchData. rewrite !events_after_set.
  rewrite run_try_finally, run_try_catch, run_mbind. unfold await_call.
  rewrite run_try_finally. unfold ChartTemporal.fetchTemporalAggregates.
  after_hit Hhit Hquiet. rewrite Htruthy. simpl.
  pose proof (requests_suspend (U := PanelUpdate) w') as Hr.
  destruct (suspend w') as [w2 c]. simpl in Hr |- *.
  destruct (mounted w2); simpl; rewrite ?requests_app, Hr; simpl;
    by destruct (mounted w2).
Qed.

(** A panel that answers from its cache sends nothing. *)
Lemma panels_answer_offline (p : Panel) f (w : World) :
  answers_from_cache p f w → requests (events (run (effect p f) (start w))) = [].
Proof.
  intros [[-> [payload Hhit]]|[[-> (aggregates & Hhit & Htruthy)]
                              |[-> (aggregates & Hhit & Htruthy)]]].
  - by apply (ChartEstadistico_hit f w payload).
  - by apply (ChartCabinas_hit f w aggregates).
  - by apply (ChartTemporal_hit f w aggregates).
Qed.

End FilterChanges.

(** ** The properties above, evaluated *)

Section MoreEvaluation.
Import Samples MoreSamples PrimFloat.
#[local] Existing Instance browser.

Lemma tableFacturacion_is_direct : tableFacturacion ∈ direct_panels.
Proof. unfold direct_panels. rewrite !elem_of_cons. tauto. Qed.

Lemma chartRadialStacked_is_aggregate : chartRadialStacked ∈ aggregate_panels.
Proof. unfold aggregate_panels. rewrite !elem_of_cons. tauto. Qed.


(** An entry of the booth report that is 31 minutes old is no answer
    either. *)
Example expired_entry_is_no_answer :
  ¬ answers_from_cache chartCabinas other_station
      (with_storage (storage cabinas_cached)
         (at_time (1700000000000 + 31 * 60 * 1000) idle)).
Proof.
  intros [[_ [payload Hhit]]|[[_ (aggregates & Hhit & Htruthy)]
                             |[_ (aggregates & Hhit & Htruthy)]]].
  - vm_compute in Hhit. discriminate Hhit.
  - vm_compute in Hhit. injection Hhit as <-. discriminate Htruthy.
  - vm_compute in Hhit. injection Hhit as <-. discriminate Htruthy.
Qed.

(** With the expired entry in the storage, the change of station
    sends the request of the booth report. *)
Example expired_entry_refetches :
  requests (events (rerender chartCabinas filters other_station
                      (with_storage (storage cabinas_cached)
                         (at_time (1700000000000 + 31 * 60 * 1000) idle))))
  = gets chartCabinas other_station.
Proof. vm_compute. reflexivity. Qed.

(** The effect of the invoice table returns also when the table was
    unmounted before the answer. *)
Lemma effects_never_reject_witness :
  out (run (effect tableFacturacion filters) (start late_answer)) = Returned tt.
Proof.
  exact (effects_never_reject combine tableFacturacion filters (start late_answer)
           tableFacturacion_is_panel).
Defined.

(** After a 500 the invoice table is no longer loading. *)
Lemma effects_stop_loading_witness :
  st_loading
    (state_after (events (run (effect tableFacturacion filters) (start server_error)))
       {| st_data := JArr []; st_aggregates := JNull; st_error := None;
          st_loading := true |}) = false.
Proof.
  exact (proj2 (effects_stop_loading combine tableFacturacion filters server_error _
                  tableFacturacion_is_panel eq_refl)).
Defined.

(** A 500 for the invoices is shown as [Error 500]. *)
Lemma http_error_is_reported_witness :
  events (run (effect tableFacturacion filters) (start server_error)) =
  [EvSet (SetLoading true); EvFetch (get (TableFacturacion.url filters));
   EvSet (SetError (Some "Error 500")); EvSet (SetLoading false)].
Proof.
  exact (proj1 (http_error_is_reported tableFacturacion filters server_error
                  30 (respond 500 "") [] tableFacturacion_is_direct I eq_refl eq_refl
                  eq_refl)).
Defined.

(** A connection that fails is shown with the message of its error. *)
Lemma failed_fetch_is_reported_witness :
  events (run (effect tableFacturacion filters) (start connection_reset)) =
  [EvSet (SetLoading true); EvFetch (get (TableFacturacion.url filters));
   EvSet (SetError (Some "net::ERR_CONNECTION_RESET")); EvSet (SetLoading false)].
Proof.
  exact (proj1 (failed_fetch_is_reported tableFacturacion filters connection_reset
                  tableFacturacion_is_direct I eq_refl)
           30 (JsError "net::ERR_CONNECTION_RESET") [] eq_refl).
Defined.

(** Two invoices arrive and become the rows of the table. *)
Lemma invoice_rows_are_the_body_witness :
  events (run (TableFacturacion.fetchData filters) (start (answering invoices))) =
  [EvSet (SetLoading true); EvFetch (get (TableFacturacion.url filters));
   EvSet (SetData invoices); EvSet (SetError None); EvSet (SetLoading false)].
Proof.
  refine (invoice_rows_are_the_body filters (answering invoices) 50
            (respond 200 (Browser.stringify invoices)) [] invoices
            eq_refl eq_refl eq_refl _).
  vm_compute. reflexivity.
Defined.

(** The radial chart keeps the aggregates of the answer. *)
Lemma aggregates_of_the_body_witness :
  events (run (effect chartRadialStacked filters) (start (answering with_aggregates))) =
  EvSet (SetLoading true) :: map EvFetch (gets chartRadialStacked filters)
  ++ [EvSet (SetAggregates (JObj [("totalTransitos", JNum 42)])); EvSet (SetError None);
      EvSet (SetLoading false)].
Proof.
  refine (aggregates_of_the_body chartRadialStacked filters (answering with_aggregates) 50
            (respond 200 (Browser.stringify with_aggregates)) [] with_aggregates
            chartRadialStacked_is_aggregate eq_refl eq_refl eq_refl _).
  vm_compute. reflexivity.
Defined.

Lemma statistics_parse :
  JSON_parse (res_body (respond 200 (Browser.stringify statistics))) = Some statistics.
Proof. vm_compute. reflexivity. Qed.

Lemma statistics_not_null : statistics ≠ JNull.
Proof. discriminate. Qed.

(** The statistical report shows the rows and the aggregates of the
    answer. *)
Lemma estadistico_shows_and_caches_witness :
  events (run (ChartEstadistico.fetchData filters) (start (answering statistics))) =
  [EvSet (SetLoading true); EvFetch (get (ChartEstadistico.url filters));
   EvSet (SetData (JArr [JObj [("CABINA", JNum 3)]]));
   EvSet (SetAggregates (JObj [("ingresoTotal", JNum 120)]));
   EvSet (SetError None); EvSet (SetLoading false)].
Proof.
  exact (proj1 (estadistico_shows_and_caches filters (answering statistics) 50
                  (respond 200 (Browser.stringify statistics)) [] statistics
                  eq_refl eq_refl eq_refl eq_refl statistics_parse statistics_not_null)).
Defined.

(** A cached [null] a minute old is followed by the request. *)
Lemma cabinas_cached_null_refetches_witness :
  ∃ post,
    events (run (ChartCabinas.fetchData filters) (start cabinas_cached_null)) =
    EvSet (SetLoading true) :: EvFetch (get (ChartCabinas.url filters)) :: post.
Proof.
  refine (cabinas_cached_null_refetches filters cabinas_cached_null
            (Browser.stringify (ChartCabinas.cache_entry JNull 1700000000000))
            [("aggregates", JNull); ("timestamp", JNum 1700000000000)] 1700000000000
            eq_refl _ eq_refl eq_refl).
  vm_compute. reflexivity.
Defined.

(** Ten minutes after the answer the statistical report is shown from
    the cache. *)
Lemma estadistico_second_run_uses_cache_witness :
  requests (events (run (ChartEstadistico.fetchData filters) (start ten_minutes_later)))
  = [].
Proof.
  refine (proj1 (estadistico_second_run_uses_cache filters (answering statistics)
                   ten_minutes_later 50 (respond 200 (Browser.stringify statistics)) []
                   statistics [JObj [("CABINA", JNum 3)]]
                   eq_refl eq_refl eq_refl eq_refl statistics_parse statistics_not_null
                   eq_refl _ _ _ _)).
  - vm_compute. reflexivity.
  - apply Nat.leb_le. vm_compute. reflexivity.
  - vm_compute. reflexivity.
  - vm_compute. discriminate.
Defined.

(** A key that was never written reads as [null] and leaves the
    browser as it is. *)
Lemma getCachedData_never_throws_witness :
  out (run (U := PanelUpdate) (ChartCabinas.getCachedData "7d-all") idle) = Returned JNull ∧
  final (run (U := PanelUpdate) (ChartCabinas.getCachedData "7d-all") idle) = idle.
Proof.
  destruct (getCachedData_never_throws (U := PanelUpdate) "7d-all" idle)
    as (_ & (_ & _ & _ & Hmissing & _) & _).
  apply Hmissing. reflexivity.
Defined.

(** Writing the entry of one station leaves the entry of the other
    one as it reads. *)
Lemma cache_keys_are_independent_witness :
  out (run (U := PanelUpdate) (ChartCabinas.getCachedData "7d-CONGOMA")
         (final (run (U := PanelUpdate)
                   (ChartCabinas.setCachedData "7d-all" JNull) cabinas_cached)))
  = out (run (U := PanelUpdate) (ChartCabinas.getCachedData "7d-CONGOMA") cabinas_cached).
Proof.
  refine (proj2 (cache_keys_are_independent (U := PanelUpdate) "7d-all" "7d-CONGOMA"
                   payload JNull cabinas_cached _)).
  discriminate.
Defined.

(** Aggregates cached five minutes ago are read back. *)
Lemma aggregates_cache_round_trip_witness :
  out (run (U := PanelUpdate) (ChartCabinas.getCachedData "7d-all") five_minutes_later)
  = Returned (JObj [("totalTransitos", JNum 42)]).
Proof.
  destruct (aggregates_cache_round_trip (U := PanelUpdate) "7d-all"
              (JObj [("totalTransitos", JNum 42)]) idle five_minutes_later)
    as [Hcabinas _].
  - vm_compute. reflexivity.
  - vm_compute. discriminate.
  - apply Hcabinas.
    + apply Nat.leb_le. vm_compute. reflexivity.
    + vm_compute. reflexivity.
Defined.

(** The refresh call fails: the caller gets its error, not the 401. *)
Lemma apiFetch_network_errors_propagate_witness :
  out (run (U := PanelUpdate) (Api.apiFetch "/facturacion" Api.no_options)
         refresh_unreachable)
  = Threw (JsError "net::ERR_CONNECTION_RESET").
Proof.
  destruct (apiFetch_network_errors_propagate (U := PanelUpdate) "/facturacion"
              Api.no_options refresh_unreachable (JsError "net::ERR_CONNECTION_RESET"))
    as (_ & Hrefresh & _).
  refine (proj1 (Hrefresh 40 (respond 401 "")
                   [(25, Rejected (JsError "net::ERR_CONNECTION_RESET"))]
                   eq_refl eq_refl _ _)).
  - unfold Api.excluded. vm_compute. intros [E|[E|E]]; discriminate E.
  - right. exists 25, []. reflexivity.
Defined.

Lemma filled_form_usuario :
  Js.trim (LoginForm.String_or_empty (filled_form !! "usuario")) ≠ "".
Proof. vm_compute. discriminate. Qed.

Lemma filled_form_clave :
  Js.trim (LoginForm.String_or_empty (filled_form !! "clave")) ≠ "".
Proof. vm_compute. discriminate. Qed.

(** A refused login shows that user or password are wrong. *)
Lemma handleSubmit_answered_witness :
  updates (events (run (LoginForm.handleSubmit filled_form) login_refused)) =
  [LoginForm.PreventDefault; LoginForm.SetError None; LoginForm.SetSuccess false;
   LoginForm.SetLoading true; LoginForm.SetError (Some "Usuario o clave incorrectos.");
   LoginForm.SetLoading false].
Proof.
  destruct (handleSubmit_answered filled_form login_refused 40 (respond 401 "") []
              filled_form_usuario filled_form_clave eq_refl) as (_ & _ & Hupdates).
  exact Hupdates.
Defined.

(** A login without a network shows the message of the error. *)
Lemma handleSubmit_failed_request_witness :
  updates (events (run (LoginForm.handleSubmit filled_form) idle)) =
  [LoginForm.PreventDefault; LoginForm.SetError None; LoginForm.SetSuccess false;
   LoginForm.SetLoading true; LoginForm.SetError (Some "Failed to fetch");
   LoginForm.SetLoading false].
Proof.
  destruct (handleSubmit_failed_request filled_form idle (JsError "Failed to fetch")
              filled_form_usuario filled_form_clave) as (_ & _ & Hupdates).
  - left. split; reflexivity.
  - exact Hupdates.
Defined.

(** An accepted login leaves the form with the success notice and
    without the loading state. *)
Lemma handleSubmit_final_state_witness :
  let s := fold_left LoginForm.apply_update
             (updates (events (run (LoginForm.handleSubmit filled_form) login_accepted)))
             fresh_form in
  LoginForm.loading s = false ∧ LoginForm.success s = true.
Proof.
  destruct (handleSubmit_final_state filled_form login_accepted fresh_form
              filled_form_usuario filled_form_clave) as (Hloading & Hsuccess & _).
  split; [exact Hloading|]. apply Hsuccess.
  exists 40, (respond 200 ""), []. split; reflexivity.
Defined.

(** The dashboard without a session is redirected, and the login page
    is then served. *)
Lemma onRequest_redirect_is_final_witness :
  Middleware.onRequest {| Middleware.pathname := "/login"; Middleware.cookies := ∅ |}
  = Middleware.Next.
Proof.
  destruct (onRequest_redirect_is_final
              {| Middleware.pathname := "/dashboard"; Middleware.cookies := ∅ |} "/login")
    as (_ & _ & _ & Hnext).
  - reflexivity.
  - exact (Hnext ∅).
Defined.


(** Without rows the total is zero and the percentage is 0. *)
Example porcentajeExentos_without_rows :
  ChartEstadisticoKpis.porcentajeExentos (ChartEstadisticoKpis.computedKpis []) = 0%float.
Proof. reflexivity. Qed.

(** Beyond the largest double the total is [Infinity], and so is the
    count of exempt vehicles: their quotient is [NaN]. *)
Example porcentajeExentos_of_an_overflow :
  Forall ChartEstadisticoKpis.counts_nonnegative overflowing_rows ∧
  (ChartEstadisticoKpis.vehiculosExentos (ChartEstadisticoKpis.computedKpis overflowing_rows)
   + ChartEstadisticoKpis.vehiculosRfid100 (ChartEstadisticoKpis.computedKpis overflowing_rows)
   = infinity)%float ∧
  is_nan (ChartEstadisticoKpis.porcentajeExentos
            (ChartEstadisticoKpis.computedKpis overflowing_rows)) = true.
Proof. split; [repeat constructor|]. vm_compute. by split. Qed.

(** Two exempt vehicles of eight are 25 percent. *)
Example porcentajeExentos_of_a_day :
  ChartEstadisticoKpis.porcentajeExentos (ChartEstadisticoKpis.computedKpis day_rows)
  = 25%float.
Proof. vm_compute. reflexivity. Qed.

(** A row of an RFID kind that is none of the three changes no KPI. *)
Lemma computedKpis_row_kinds_witness :
  ChartEstadisticoKpis.computedKpis (day_rows ++ [row "RFID 25 %" 4 (Some 3%float)])
  = ChartEstadisticoKpis.computedKpis (day_rows ++ []).
Proof.
  destruct (computedKpis_row_kinds day_rows [] (row "RFID 25 %" 4 (Some 3%float)))
    as (Hignored & _).
  apply Hignored; [reflexivity|discriminate|discriminate|discriminate].
Defined.

Lemma me_answered :
  out (run (U := DashboardWelcome.WelcomeUpdate) (Api.apiFetch "/auth/me" Api.no_options)
         (answering me))
  = Returned (respond 200 (Browser.stringify me)).
Proof. vm_compute. reflexivity. Qed.

(** The login is shown when the name of the user record is empty. *)
Lemma loadUser_sets_first_name_witness :
  updates (events (run DashboardWelcome.loadUser (answering me))) =
  [DashboardWelcome.SetNombre (JStr "ana"); DashboardWelcome.SetLoaded true].
Proof.
  refine (loadUser_sets_first_name (answering me) (respond 200 (Browser.stringify me)) me
            me_answered eq_refl _ _).
  - vm_compute. reflexivity.
  - discriminate.
Defined.

(** Three renders, the last two loaded: one notice. *)
Lemma welcome_notice_once_witness :
  DashboardWelcome.notices [(false, JNull); (true, JStr "ana"); (true, JStr "ana")] false
  = [JStr "ana"].
Proof.
  refine (proj2 (welcome_notice_once
                   [(false, JNull); (true, JStr "ana"); (true, JStr "ana")])
            [(false, JNull)] (JStr "ana") [(true, JStr "ana")] eq_refl _).
  repeat constructor.
Defined.

(** CONGOMA answers and LOS ANGELES is down: [Error 503]. *)
Lemma transito_reports_failed_status_witness :
  updates (events (run (ChartTransito.fetchData combine filters) (start one_station_down)))
  = [SetLoading true; SetError (Some "Error 503"); SetLoading false].
Proof.
  rewrite (transito_reports_failed_status combine filters one_station_down
             30 (respond 200 "{}") 35 (respond 503 "") [] eq_refl eq_refl).
  - reflexivity.
  - right. reflexivity.
Defined.

(** The temporal report shows the text of a 503. *)
Lemma temporal_reports_status_text_witness :
  updates (events (run (ChartTemporal.fetchData filters) (start unavailable)))
  = [SetLoading true; SetError None;
     SetError (Some "Error al cargar datos: Service Unavailable"); SetLoading false].
Proof.
  destruct (temporal_reports_status_text filters unavailable 30
              {| status := 503; statusText := "Service Unavailable"; res_body := "" |} []
              eq_refl eq_refl eq_refl eq_refl) as [Hevents _].
  rewrite Hevents. reflexivity.
Defined.

End MoreEvaluation.
